(** * VistulaOS installer: the provisioning engine, embedded and verified

    The development follows the Python sources

    - [vistula_installer/core/executor.py]  ([CommandExecutor]),
    - [vistula_installer/core/software.py]  (the software planner),
    - [vistula_installer/core/config.py]    ([InstallConfig]),
    - [vistula_installer/core/installer.py] (fstab builder and [InstallerEngine]).

    Python [str] values are Rocq strings; every character stands for a code
    point below 256.  Effects (logging, progress callbacks, child processes,
    file-system operations) are threaded through a trace of events; whatever the
    operating system answers is read from a [World] of oracles that may depend
    on the events so far.  A Python exception is a [Raise] result, and the
    trace survives it. *)

From Stdlib Require Import ZArith Ascii DecimalString.
From stdpp Require Import base decidable option list sorting gmap strings.

Local Open Scope Z_scope.

(** ** Python string primitives *)

Module PyStr.

Definition empty (s : string) : bool :=
  match s with EmptyString => true | String _ _ => false end.

(** Truthiness of a [str]. *)
Definition truthy (s : string) : bool := negb (empty s).

(** Truthiness of a [str | None]. *)
Definition truthy_opt (o : option string) : bool :=
  match o with None => false | Some s => truthy s end.

(** [x or None] for a string [x]. *)
Definition or_none (s : string) : option string :=
  if truthy s then Some s else None.

Definition code (c : ascii) : nat := nat_of_ascii c.

Definition in_range (lo hi : nat) (c : ascii) : bool :=
  Nat.leb lo (code c) && Nat.leb (code c) hi.

(** [str.isspace] on one character (code points below 256). *)
Definition is_space (c : ascii) : bool :=
  in_range 9 13 c || in_range 28 32 c || Nat.eqb (code c) 133 || Nat.eqb (code c) 160.

(** The line boundaries of [str.splitlines] (code points below 256). *)
Definition is_linebreak (c : ascii) : bool :=
  in_range 10 13 c || in_range 28 30 c || Nat.eqb (code c) 133.

Definition is_cr (c : ascii) : bool := Nat.eqb (code c) 13.
Definition is_lf (c : ascii) : bool := Nat.eqb (code c) 10.

Fixpoint lstrip (s : string) : string :=
  match s with
  | EmptyString => EmptyString
  | String c s' => if is_space c then lstrip s' else s
  end.

Fixpoint rstrip (s : string) : string :=
  match s with
  | EmptyString => EmptyString
  | String c s' =>
      let r := rstrip s' in
      if is_space c && empty r then EmptyString else String c r
  end.

Definition strip (s : string) : string := lstrip (rstrip s).

Fixpoint startswith (p s : string) : bool :=
  match p, s with
  | EmptyString, _ => true
  | String a p', String b s' => if Ascii.eqb a b then startswith p' s' else false
  | String _ _, EmptyString => false
  end.

(** [needle in hay]. *)
Fixpoint contains (needle hay : string) : bool :=
  startswith needle hay ||
  match hay with
  | EmptyString => false
  | String _ hay' => contains needle hay'
  end.

(** [s[1:]]. *)
Definition tail (s : string) : string :=
  match s with EmptyString => EmptyString | String _ s' => s' end.

Definition single (c : ascii) : string := String c EmptyString.

Definition starts_with_lf (s : string) : bool :=
  match s with String c _ => is_lf c | EmptyString => false end.

(** [str.splitlines(keepends)]: [cur] is the line being read, [after_cr]
    says that the previous character was the CR of a CR LF pair. *)
Fixpoint splitlines_go (keepends : bool) (s cur : string) (after_cr : bool)
  : list string :=
  let keep c := if keepends then single c else EmptyString in
  match s with
  | EmptyString => if empty cur then [] else [cur]
  | String c s' =>
      if is_lf c && after_cr then
        (cur +:+ keep c) :: splitlines_go keepends s' EmptyString false
      else if is_cr c && starts_with_lf s' then
        splitlines_go keepends s' (cur +:+ keep c) true
      else if is_linebreak c then
        (cur +:+ keep c) :: splitlines_go keepends s' EmptyString false
      else
        splitlines_go keepends s' (cur +:+ single c) false
  end.

Definition splitlines (keepends : bool) (s : string) : list string :=
  splitlines_go keepends s EmptyString false.

(** [line.split(sep, 1)] for a one-character separator: [None] when the
    separator does not occur (the two-name unpacking would fail). *)
Fixpoint split1 (sep : ascii) (s : string) : option (string * string) :=
  match s with
  | EmptyString => None
  | String c s' =>
      if Ascii.eqb c sep then Some (EmptyString, s')
      else match split1 sep s' with
           | Some (k, v) => Some (String c k, v)
           | None => None
           end
  end.

(** [sep.join(parts)]. *)
Fixpoint join (sep : string) (parts : list string) : string :=
  match parts with
  | [] => EmptyString
  | [p] => p
  | p :: rest => p +:+ sep +:+ join sep rest
  end.

(** [str.replace] of every occurrence of one character by a string. *)
Fixpoint replace_char (c : ascii) (by_ : string) (s : string) : string :=
  match s with
  | EmptyString => EmptyString
  | String a s' =>
      (if Ascii.eqb a c then by_ else single a) +:+ replace_char c by_ s'
  end.

Fixpoint all_chars (p : ascii → bool) (s : string) : bool :=
  match s with
  | EmptyString => true
  | String c s' => p c && all_chars p s'
  end.

(** [str(n)] for an [int]. *)
Definition of_Z (n : Z) : string := NilZero.string_of_int (Z.to_int n).

(** [str(b)] for a [bool]. *)
Definition of_bool (b : bool) : string := if b then "True" else "False".

Definition squote : string := "'".
Definition dquote : string := single (ascii_of_nat 34).
Definition nl : string := single (ascii_of_nat 10).
Definition tab : string := single (ascii_of_nat 9).

End PyStr.

(** ** [shlex.quote] *)

(** A character outside [[^\w@%+=:,./-]] with [re.ASCII]: letters, digits,
    underscore and the listed punctuation. *)
Definition shlex_safe_char (c : ascii) : bool :=
  PyStr.in_range 97 122 c || PyStr.in_range 65 90 c || PyStr.in_range 48 57 c
  || PyStr.contains (PyStr.single c) "_@%+=:,./-".

Definition shlex_quote (s : string) : string :=
  if PyStr.empty s then PyStr.squote +:+ PyStr.squote
  else if PyStr.all_chars shlex_safe_char s then s
  else
    PyStr.squote
    +:+ PyStr.replace_char "'"
          (PyStr.squote +:+ PyStr.dquote +:+ PyStr.squote +:+ PyStr.dquote +:+ PyStr.squote) s
    +:+ PyStr.squote.

(** ** Exceptions, events and the environment *)

Inductive exn : Type :=
| ValueError (msg : string)
| PermissionError (msg : string)
| RuntimeError (msg : string)
| AssertionError
| UnboundLocalError (name : string)
| OSError (what : string).

(** [UnboundLocalError] is the subclass of [NameError] that Python raises for
    a local name read before its first assignment. *)
Definition is_NameError (e : exn) : bool :=
  match e with UnboundLocalError _ => true | _ => false end.

Inductive result (A : Type) : Type :=
| Ok (a : A)
| Raise (e : exn).
Arguments Ok {A} a.
Arguments Raise {A} e.

Definition is_ok {A} (r : result A) : bool :=
  match r with Ok _ => true | Raise _ => false end.

(** executor.py, [CommandResult]. *)
Record CommandResult : Type := mkCommandResult {
  returncode : Z;
  stdout : string;
  stderr : string;
}.

Inductive log_level : Type := INFO | ERROR.

(** Operations of [pathlib]/[os] that change the file system. *)
Inductive fs_op : Type :=
| Mkdir (path : string)                      (* mkdir(parents=True, exist_ok=True) *)
| WriteText (path : string) (content : string)
| Unlink (path : string)
| SymlinkTo (link target : string)
| Chmod (path : string) (mode : Z).

Inductive event : Type :=
| EvLog (lvl : log_level) (msg : string)
| EvProgress (pct : Z) (msg : string)
| EvSpawn (args : list string) (cwd input : option string)
| EvFs (op : fs_op).

Definition trace : Type := list event.

(** What the operating system answers, given the events so far. *)
Record World : Type := mkWorld {
  os_geteuid : trace → Z;
  path_exists : trace → string → bool;
  path_is_symlink : trace → string → bool;
  path_read_text : trace → string → result string;
  fs_apply : trace → fs_op → result unit;
  subprocess_run : trace → list string → option string → option string → result CommandResult;
  fresh_uuid4 : trace → string;
}.

(** ** The effect monad *)

Definition M (A : Type) : Type := World → trace → result A * trace.

#[global] Instance M_ret : MRet M := λ A a w tr, (Ok a, tr).

#[global] Instance M_bind : MBind M := λ A B f m w tr,
  match m w tr with
  | (Ok a, tr') => f a w tr'
  | (Raise e, tr') => (Raise e, tr')
  end.

Definition raise {A} (e : exn) : M A := λ w tr, (Raise e, tr).

Definition emit (e : event) : M unit := λ w tr, (Ok tt, tr ++ [e]).

(** Reads an oracle of the world at the current history. *)
Definition ask {A} (q : World → trace → A) : M A := λ w tr, (Ok (q w tr), tr).

(** Reads an oracle that may answer with an exception. *)
Definition try_ask {A} (q : World → trace → result A) : M A := λ w tr, (q w tr, tr).

(** Performs an operation the world may refuse, after recording it. *)
Definition perform {A} (e : event) (q : World → trace → result A) : M A :=
  λ w tr, (q w tr, tr ++ [e]).

Definition log_info (msg : string) : M unit := emit (EvLog INFO msg).
Definition log_error (msg : string) : M unit := emit (EvLog ERROR msg).

Definition fs (op : fs_op) : M unit := perform (EvFs op) (λ w tr, fs_apply w tr op).

(** [for x in l: body x]. *)
Fixpoint for_each {A} (l : list A) (body : A → M unit) : M unit :=
  match l with
  | [] => mret tt
  | x :: l' => body x ;; for_each l' body
  end.

(** ** executor.py: [CommandExecutor] *)

Record CommandExecutor : Type := mkCommandExecutor { dry_run : bool }.

Definition run (self : CommandExecutor) (args : list string)
    (check : bool) (cwd : option string) (allow_in_dry_run : bool)
    (input_text : option string) : M CommandResult :=
  let cmd := PyStr.join " " (map shlex_quote args) in
  if dry_run self && negb allow_in_dry_run then
    log_info ("[DRY-RUN] " +:+ cmd) ;;
    mret (mkCommandResult 0 EmptyString EmptyString)
  else
    log_info ("$ " +:+ cmd) ;;
    cp ← perform (EvSpawn args cwd input_text)
          (λ w tr, subprocess_run w tr args cwd input_text) ;
    if check && negb (returncode cp =? 0) then
      log_error ("Command failed (" +:+ PyStr.of_Z (returncode cp) +:+ "): " +:+ cmd
                 +:+ PyStr.nl +:+ "STDOUT:" +:+ PyStr.nl +:+ stdout cp
                 +:+ PyStr.nl +:+ "STDERR:" +:+ PyStr.nl +:+ stderr cp) ;;
      raise (RuntimeError ("Command failed (" +:+ PyStr.of_Z (returncode cp) +:+ "): " +:+ cmd))
    else
      mret (mkCommandResult (returncode cp) (stdout cp) (stderr cp)).

(** [run(args)] with every keyword at its default. *)
Definition run_checked (self : CommandExecutor) (args : list string) : M CommandResult :=
  run self args true None false None.

(** [run(args, check=False)]. *)
Definition run_unchecked (self : CommandExecutor) (args : list string) : M CommandResult :=
  run self args false None false None.

(** ** config.py: the configuration dataclasses *)

Module Config.

Record RuntimeConfig : Type := mkRuntimeConfig { runtime_dry_run : bool }.

Record InstallConfig : Type := mkInstallConfig {
  target_disk : option string;
  erase_disk : bool;
  root_partition : string;
  efi_partition : string;
  home_partition : string;
  swap_partition : string;
  format_root : bool;
  format_efi : bool;
  format_home : bool;
  format_swap : bool;
  hostname : string;
  username : string;
  password : string;
  timezone : string;
  keyboard_layout : string;
  locale : string;
  generate_all_locales_arch : bool;
  enable_networkmanager : bool;
  wifi_ssid : string;
  wifi_password : string;
  profile_gamers : bool;
  profile_creators : bool;
  profile_accountants : bool;
  profile_developers : bool;
  driver_nvidia : bool;
  gamers_steam : bool;
  gamers_lutris : bool;
  gamers_wine : bool;
  gamers_mangohud : bool;
  gamers_gamemode : bool;
  creators_gimp : bool;
  creators_inkscape : bool;
  creators_blender : bool;
  creators_kdenlive : bool;
  creators_audacity : bool;
  accountants_libreoffice : bool;
  accountants_gnucash : bool;
  developers_git : bool;
  developers_base_devel : bool;
  developers_python : bool;
  developers_nodejs : bool;
  developers_vscode : bool;
  flatpak_apps : list string;
}.

(** The field defaults of the dataclass. *)
Definition default_install : InstallConfig := {|
  target_disk := None; erase_disk := false;
  root_partition := EmptyString; efi_partition := EmptyString;
  home_partition := EmptyString; swap_partition := EmptyString;
  format_root := true; format_efi := false; format_home := false; format_swap := false;
  hostname := "vistula"; username := "user"; password := EmptyString;
  timezone := "Europe/Warsaw"; keyboard_layout := "pl";
  locale := "pl_PL.UTF-8"; generate_all_locales_arch := false;
  enable_networkmanager := true; wifi_ssid := EmptyString; wifi_password := EmptyString;
  profile_gamers := false; profile_creators := false; profile_accountants := false;
  profile_developers := false; driver_nvidia := false;
  gamers_steam := false; gamers_lutris := false; gamers_wine := false;
  gamers_mangohud := false; gamers_gamemode := false;
  creators_gimp := false; creators_inkscape := false; creators_blender := false;
  creators_kdenlive := false; creators_audacity := false;
  accountants_libreoffice := false; accountants_gnucash := false;
  developers_git := false; developers_base_devel := false; developers_python := false;
  developers_nodejs := false; developers_vscode := false;
  flatpak_apps := [];
|}.

(** [AppConfig]; its [ui] and [paths] parts are not read by the engine. *)
Record AppConfig : Type := mkAppConfig {
  runtime : RuntimeConfig;
  install : InstallConfig;
}.

End Config.

(** ** software.py: the software planner *)

(** The loop shared by both planners and by the engine:
    [[
      seen = set(); out = []
      for p in pkgs:
          if p not in seen: seen.add(p); out.append(p)
    ]] *)
Definition dedupe_step (acc : gset string * list string) (p : string)
  : gset string * list string :=
  if bool_decide (p ∈ acc.1) then acc else ({[p]} ∪ acc.1, acc.2 ++ [p]).

Definition dedupe_stable (l : list string) : list string :=
  (foldl dedupe_step (∅, []) l).2.

Module Software.

Record SoftwareSelection : Type := mkSoftwareSelection {
  gamers : bool;
  creators : bool;
  accountants : bool;
  developers : bool;
  nvidia_driver : bool;
  gamers_steam : bool;
  gamers_lutris : bool;
  gamers_wine : bool;
  gamers_mangohud : bool;
  gamers_gamemode : bool;
  creators_gimp : bool;
  creators_inkscape : bool;
  creators_blender : bool;
  creators_kdenlive : bool;
  creators_audacity : bool;
  accountants_libreoffice : bool;
  accountants_gnucash : bool;
  developers_git : bool;
  developers_base_devel : bool;
  developers_python : bool;
  developers_nodejs : bool;
  developers_vscode : bool;
}.

Definition selection_from_config (install : Config.InstallConfig) : SoftwareSelection := {|
  gamers := Config.profile_gamers install;
  creators := Config.profile_creators install;
  accountants := Config.profile_accountants install;
  developers := Config.profile_developers install;
  nvidia_driver := Config.driver_nvidia install;
  gamers_steam := Config.gamers_steam install;
  gamers_lutris := Config.gamers_lutris install;
  gamers_wine := Config.gamers_wine install;
  gamers_mangohud := Config.gamers_mangohud install;
  gamers_gamemode := Config.gamers_gamemode install;
  creators_gimp := Config.creators_gimp install;
  creators_inkscape := Config.creators_inkscape install;
  creators_blender := Config.creators_blender install;
  creators_kdenlive := Config.creators_kdenlive install;
  creators_audacity := Config.creators_audacity install;
  accountants_libreoffice := Config.accountants_libreoffice install;
  accountants_gnucash := Config.accountants_gnucash install;
  developers_git := Config.developers_git install;
  developers_base_devel := Config.developers_base_devel install;
  developers_python := Config.developers_python install;
  developers_nodejs := Config.developers_nodejs install;
  developers_vscode := Config.developers_vscode install;
|}.

(** [if flag: pkgs += items]. *)
Definition add_if (flag : bool) (items pkgs : list string) : list string :=
  if flag then pkgs ++ items else pkgs.

(** The list [pkgs] as it stands before the deduplication loop. *)
Definition arch_packages_raw (sel : SoftwareSelection) : list string :=
  let pkgs := [] in
  let pkgs := add_if (nvidia_driver sel) ["nvidia"; "nvidia-utils"; "lib32-nvidia-utils"] pkgs in
  let pkgs :=
    if gamers sel then
      let pkgs := add_if (gamers_wine sel) ["wine"; "winetricks"] pkgs in
      let pkgs := add_if (gamers_mangohud sel) ["mangohud"] pkgs in
      let pkgs := add_if (gamers_gamemode sel) ["gamemode"] pkgs in
      pkgs
    else pkgs in
  let pkgs := if creators sel then pkgs else pkgs in
  let pkgs := if accountants sel then pkgs else pkgs in
  let pkgs :=
    if developers sel then
      let pkgs := add_if (developers_git sel) ["git"] pkgs in
      let pkgs := add_if (developers_base_devel sel) ["base-devel"] pkgs in
      let pkgs := add_if (developers_python sel) ["python"] pkgs in
      let pkgs := add_if (developers_nodejs sel) ["nodejs"; "npm"] pkgs in
      pkgs
    else pkgs in
  pkgs.

Definition arch_packages_for_selection (sel : SoftwareSelection) : list string :=
  dedupe_stable (arch_packages_raw sel).

(** The list [apps] as it stands before the deduplication loop. *)
Definition flatpak_appids_raw (sel : SoftwareSelection) : list string :=
  let apps := [] in
  let apps :=
    if gamers sel then
      let apps := add_if (gamers_steam sel) ["com.valvesoftware.Steam"] apps in
      let apps := add_if (gamers_lutris sel) ["net.lutris.Lutris"] apps in
      apps
    else apps in
  let apps :=
    if creators sel then
      let apps := add_if (creators_gimp sel) ["org.gimp.GIMP"] apps in
      let apps := add_if (creators_inkscape sel) ["org.inkscape.Inkscape"] apps in
      let apps := add_if (creators_blender sel) ["org.blender.Blender"] apps in
      let apps := add_if (creators_kdenlive sel) ["org.kde.kdenlive"] apps in
      let apps := add_if (creators_audacity sel) ["org.audacityteam.Audacity"] apps in
      apps
    else apps in
  let apps :=
    if accountants sel then
      let apps := add_if (accountants_libreoffice sel) ["org.libreoffice.LibreOffice"] apps in
      let apps := add_if (accountants_gnucash sel) ["org.gnucash.GnuCash"] apps in
      apps
    else apps in
  let apps :=
    if developers sel then
      let apps := add_if (developers_vscode sel) ["com.visualstudio.code"] apps in
      apps
    else apps in
  apps.

Definition flatpak_appids_for_selection (sel : SoftwareSelection) : list string :=
  dedupe_stable (flatpak_appids_raw sel).

End Software.

(** ** installer.py: identifiers, fstab, and the engine *)

Import Config.

(** [Path(p) / seg], rendered with [str]: an absolute segment replaces the
    path, an empty one changes nothing.  (The normalisation [pathlib] applies
    to doubled separators and dot components of a segment is not modelled; only
    the time-zone name and the Wi-Fi SSID reach this function from outside.) *)
Definition path_join (p seg : string) : string :=
  if PyStr.empty seg then p
  else if PyStr.startswith "/" seg then seg
  else p +:+ "/" +:+ seg.

Infix "</>" := path_join (at level 40, left associativity).

Definition efi_firmware_dir : string := "/sys/firmware/efi".

(** [Path(p).exists()]. *)
Definition exists_path (p : string) : M bool := ask (λ w tr, path_exists w tr p).

(** [if o: body(o)] for [o : str | None]. *)
Definition if_truthy (o : option string) (body : string → M unit) : M unit :=
  match o with
  | Some s => if PyStr.truthy s then body s else mret tt
  | None => mret tt
  end.

(** [d.get(k)] kept only when truthy. *)
Definition get_truthy (d : gmap string string) (k : string) : option string :=
  match d !! k with
  | Some v => if PyStr.truthy v then Some v else None
  | None => None
  end.

Definition _disk_prefix (disk : string) : string :=
  if PyStr.contains "nvme" disk || PyStr.contains "mmcblk" disk then disk +:+ "p"
  else disk.

(** One turn of the parsing loop of [_blkid_export]. *)
Definition blkid_line (out : gmap string string) (line : string) : gmap string string :=
  if negb (PyStr.contains "=" line) then out
  else match PyStr.split1 "=" line with
       | Some (k, v) => <[PyStr.strip k := PyStr.strip v]> out
       | None => out
       end.

Definition blkid_parse (text : string) : gmap string string :=
  foldl blkid_line ∅ (PyStr.splitlines false text).

Definition blkid_argv (dev : string) : list string := ["blkid"; "-o"; "export"; dev].

(** What [_blkid_export] makes of the outcome of the [blkid] process. *)
Definition blkid_info (res : CommandResult) : gmap string string :=
  if negb (returncode res =? 0) then ∅
  else blkid_parse (stdout res).

Definition _blkid_export (executor : CommandExecutor) (dev : string)
  : M (gmap string string) :=
  res ← run executor (blkid_argv dev) false None true None ;
  mret (blkid_info res).

Definition ident_of_info (info : gmap string string) : option (string * string) :=
  let partuuid := get_truthy info "PARTUUID" in
  let uuid := get_truthy info "UUID" in
  match partuuid with
  | Some p => Some ("PARTUUID", p)
  | None => match uuid with
            | Some u => Some ("UUID", u)
            | None => None
            end
  end.

Definition _fstab_ident (executor : CommandExecutor) (dev : string)
  : M (option (string * string)) :=
  info ← _blkid_export executor dev ;
  mret (ident_of_info info).

Definition _fstype (executor : CommandExecutor) (dev fallback : string) : M string :=
  info ← _blkid_export executor dev ;
  mret (default fallback (get_truthy info "TYPE")).

(** The local function [devref] of [build_fstab_content]. *)
Definition devref (executor : CommandExecutor) (dev : string) : M string :=
  ident ← _fstab_ident executor dev ;
  match ident with
  | None => mret dev
  | Some (k, v) => mret (k +:+ "=" +:+ v)
  end.

Definition build_fstab_content (executor : CommandExecutor) (root_part : string)
    (efi_part home_part swap_part : option string) : M string :=
  root_fs ← _fstype executor root_part "ext4" ;
  let lines : list string := [] in
  root_ref ← devref executor root_part ;
  let lines := lines ++ [root_ref +:+ " / " +:+ root_fs +:+ " defaults 0 1" +:+ PyStr.nl] in
  lines ← match efi_part with
          | Some efi =>
              if PyStr.truthy efi then
                efi_fs ← _fstype executor efi "vfat" ;
                efi_ref ← devref executor efi ;
                mret (lines ++ [efi_ref +:+ " /boot/efi " +:+ efi_fs +:+ " umask=0077 0 1" +:+ PyStr.nl])
              else mret lines
          | None => mret lines
          end ;
  lines ← match home_part with
          | Some home =>
              if PyStr.truthy home then
                home_fs ← _fstype executor home "ext4" ;
                home_ref ← devref executor home ;
                mret (lines ++ [home_ref +:+ " /home " +:+ home_fs +:+ " defaults 0 2" +:+ PyStr.nl])
              else mret lines
          | None => mret lines
          end ;
  lines ← match swap_part with
          | Some swap =>
              if PyStr.truthy swap then
                swap_ref ← devref executor swap ;
                mret (lines ++ [swap_ref +:+ " none swap sw 0 0" +:+ PyStr.nl])
              else mret lines
          | None => mret lines
          end ;
  mret (PyStr.join EmptyString lines).

Definition _write_fstab (target : string) (executor : CommandExecutor)
    (root_part : string) (efi_part home_part swap_part : option string) : M unit :=
  let etc := target </> "etc" in
  let fstab := etc </> "fstab" in
  fs (Mkdir etc) ;;
  fstab_content ← build_fstab_content executor root_part efi_part home_part swap_part ;
  if dry_run executor then
    log_info ("[DRY-RUN] write " +:+ fstab +:+ ":" +:+ PyStr.nl +:+ fstab_content)
  else
    fs (WriteText fstab fstab_content).

Record InstallerEngine : Type := mkInstallerEngine {
  _config : AppConfig;
  _executor : CommandExecutor;
}.

Definition validate_ready (self : InstallerEngine) : M unit :=
  let cfg := install (_config self) in
  if negb (PyStr.truthy_opt (target_disk cfg)) then
    raise (ValueError "No target disk selected")
  else
    (if negb (erase_disk cfg) then
       if negb (PyStr.truthy (root_partition cfg)) then
         raise (ValueError "No root partition selected")
       else
         uefi ← exists_path efi_firmware_dir ;
         if uefi && negb (PyStr.truthy (efi_partition cfg)) then
           raise (ValueError "EFI partition is required for UEFI systems")
         else mret tt
     else mret tt) ;;
    if negb (PyStr.truthy (password cfg)) then
      raise (ValueError "Password is required")
    else mret tt.

(** The progress callback handed to [run_install], or [None]. *)
Definition callback : Type := option (Z → string → M unit).

(** The local function [step] of [run_install]. *)
Definition step (progress_cb : callback) (pct : Z) (msg : string) : M unit :=
  log_info (PyStr.of_Z pct +:+ "% " +:+ msg) ;;
  match progress_cb with
  | Some cb => cb pct msg
  | None => mret tt
  end.

(** The partitions the later steps work on. *)
Record Parts : Type := mkParts {
  root_part : string;
  efi_part : option string;
  home_part : option string;
  swap_part : option string;
}.

(** Partition node naming after the erase ([run_install], the [if] on
    ["nvme"] and ["mmcblk"]): the EFI and the root partition. *)
Definition predicted_partitions (disk : string) : string * string :=
  if PyStr.contains "nvme" disk || PyStr.contains "mmcblk" disk then
    (disk +:+ "p1", disk +:+ "p2")
  else
    (disk +:+ "1", disk +:+ "2").

Definition target : string := "/mnt/vistula-target".

Section RunInstall.

Variable self : InstallerEngine.
Variable progress_cb : callback.

Let cfg : InstallConfig := install (_config self).
Let ex : CommandExecutor := _executor self.

(** [run_install], the [if cfg.erase_disk: ... else: ...] block: partitioning
    and formatting, or the manual flow. *)
Definition partition_and_format (disk : string) : M Parts :=
  if erase_disk cfg then
    step progress_cb 5 "Partitioning disk" ;;
    run_checked ex ["wipefs"; "-a"; disk] ;;
    run_checked ex ["parted"; "-s"; disk; "mklabel"; "gpt"] ;;
    run_checked ex ["parted"; "-s"; disk; "mkpart"; "EFI"; "fat32"; "1MiB"; "513MiB"] ;;
    run_checked ex ["parted"; "-s"; disk; "set"; "1"; "esp"; "on"] ;;
    run_checked ex ["parted"; "-s"; disk; "mkpart"; "ROOT"; "ext4"; "513MiB"; "100%"] ;;
    let '(efi, root) := predicted_partitions disk in
    step progress_cb 15 "Formatting partitions" ;;
    run_checked ex ["mkfs.vfat"; "-F"; "32"; efi] ;;
    run_checked ex ["mkfs.ext4"; "-F"; root] ;;
    mret (mkParts root (Some efi) None None)
  else
    let root := root_partition cfg in
    let efi := PyStr.or_none (efi_partition cfg) in
    let home := PyStr.or_none (home_partition cfg) in
    let swap := PyStr.or_none (swap_partition cfg) in
    step progress_cb 10 "Formatting partitions" ;;
    (if format_root cfg then run_checked ex ["mkfs.ext4"; "-F"; root] ;; mret tt
     else mret tt) ;;
    if_truthy efi (λ efi,
      if format_efi cfg then run_checked ex ["mkfs.vfat"; "-F"; "32"; efi] ;; mret tt
      else mret tt) ;;
    if_truthy home (λ home,
      if format_home cfg then run_checked ex ["mkfs.ext4"; "-F"; home] ;; mret tt
      else mret tt) ;;
    if_truthy swap (λ swap,
      if format_swap cfg then run_checked ex ["mkswap"; swap] ;; mret tt
      else mret tt) ;;
    mret (mkParts root efi home swap).

(** [run_install], from [step(25, ...)] up to the [swapon]. *)
Definition mount_target (p : Parts) : M unit :=
  step progress_cb 25 "Mounting target" ;;
  run_checked ex ["mkdir"; "-p"; target] ;;
  run_checked ex ["mount"; root_part p; target] ;;
  if_truthy (home_part p) (λ home,
    run_checked ex ["mkdir"; "-p"; target </> "home"] ;;
    run_checked ex ["mount"; home; target </> "home"] ;;
    mret tt) ;;
  if_truthy (efi_part p) (λ efi,
    run_checked ex ["mkdir"; "-p"; target </> "boot" </> "efi"] ;;
    run_checked ex ["mount"; efi; target </> "boot" </> "efi"] ;;
    mret tt) ;;
  if_truthy (swap_part p) (λ swap,
    run_unchecked ex ["swapon"; swap] ;; mret tt).

(** [run_install], [step(45, ...)] and the [rsync]. *)
Definition copy_system : M unit :=
  step progress_cb 45 "Copying system files" ;;
  run_checked ex [
    "rsync"; "-aAXH"; "--numeric-ids";
    "--exclude=/dev/*"; "--exclude=/proc/*"; "--exclude=/sys/*"; "--exclude=/run/*";
    "--exclude=/tmp/*"; "--exclude=/mnt/*"; "--exclude=/media/*"; "--exclude=/lost+found";
    "/"; target ] ;;
  mret tt.

(** [run_install], [step(60, ...)] and the call of [_write_fstab]. *)
Definition write_fstab (p : Parts) : M unit :=
  step progress_cb 60 "Writing fstab" ;;
  _write_fstab target ex (root_part p) (efi_part p) (home_part p) (swap_part p).

(** [run_install], [step(75, ...)] and the bind mounts. *)
Definition prepare_chroot : M unit :=
  step progress_cb 75 "Preparing chroot" ;;
  for_each ["dev"; "proc"; "sys"] (λ d,
    run_checked ex ["mount"; "--bind"; "/" +:+ d; target </> d] ;; mret tt).

(** [run_install], from [step(80, ...)]: system identity, time zone and
    keyboard. *)
Definition configure_system : M unit :=
  step progress_cb 80 "Configuring system" ;;
  let hostname_path := target </> "etc" </> "hostname" in
  let hosts_path := target </> "etc" </> "hosts" in
  let hostname := hostname cfg in
  let hosts_content :=
    "127.0.0.1" +:+ PyStr.tab +:+ "localhost" +:+ PyStr.nl
    +:+ "127.0.1.1" +:+ PyStr.tab +:+ hostname +:+ PyStr.nl +:+ PyStr.nl
    +:+ "::1" +:+ PyStr.tab +:+ "localhost ip6-localhost ip6-loopback" +:+ PyStr.nl in
  (if dry_run ex then
     log_info ("[DRY-RUN] write " +:+ hostname_path +:+ ": " +:+ hostname) ;;
     log_info ("[DRY-RUN] write " +:+ hosts_path +:+ ":" +:+ PyStr.nl +:+ hosts_content)
   else
     fs (Mkdir (target </> "etc")) ;;
     fs (WriteText hostname_path (hostname +:+ PyStr.nl)) ;;
     fs (WriteText hosts_path hosts_content)) ;;
  let tz := timezone cfg in
  (if dry_run ex then
     log_info ("[DRY-RUN] set timezone to " +:+ tz)
   else
     let zoneinfo := target </> "usr/share/zoneinfo" </> tz in
     let localtime := target </> "etc" </> "localtime" in
     zoneinfo_exists ← exists_path zoneinfo ;
     (if (zoneinfo_exists : bool) then
        fs (Mkdir (target </> "etc")) ;;
        present ← exists_path localtime ;
        is_link ← ask (λ w tr, path_is_symlink w tr localtime) ;
        (if present || is_link then fs (Unlink localtime) else mret tt) ;;
        fs (SymlinkTo localtime zoneinfo)
      else mret tt) ;;
     fs (WriteText (target </> "etc" </> "timezone") (tz +:+ PyStr.nl))) ;;
  let kbd := keyboard_layout cfg in
  let keyboard_file := target </> "etc" </> "default" </> "keyboard" in
  let q := PyStr.dquote in
  let keyboard_content :=
    "XKBLAYOUT=" +:+ q +:+ kbd +:+ q +:+ PyStr.nl
    +:+ "XKBMODEL=" +:+ q +:+ "pc105" +:+ q +:+ PyStr.nl
    +:+ "XKBVARIANT=" +:+ q +:+ q +:+ PyStr.nl
    +:+ "XKBOPTIONS=" +:+ q +:+ q +:+ PyStr.nl
    +:+ "BACKSPACE=" +:+ q +:+ "guess" +:+ q +:+ PyStr.nl in
  if dry_run ex then
    log_info ("[DRY-RUN] write " +:+ keyboard_file +:+ ":" +:+ PyStr.nl +:+ keyboard_content)
  else
    fs (Mkdir (target </> "etc" </> "default")) ;;
    fs (WriteText keyboard_file keyboard_content).

(** The rewriting of one line of [locale.gen]. *)
Definition uncomment_locale_line (all : bool) (locale line : string) : string :=
  if all then
    if PyStr.startswith "#" (PyStr.lstrip line) && PyStr.contains ".UTF-8" line
    then PyStr.tail (PyStr.lstrip line) else line
  else
    let stripped := PyStr.lstrip line in
    if PyStr.startswith "#" stripped && PyStr.contains locale stripped
    then PyStr.tail stripped else line.

(** [run_install], from [step(82, ...)]: locale files and [locale.gen]. *)
Definition configure_locale : M unit :=
  step progress_cb 82 "Configuring locale" ;;
  let kbd := keyboard_layout cfg in
  let locale := locale cfg in
  let locale_conf := target </> "etc" </> "locale.conf" in
  let vconsole := target </> "etc" </> "vconsole.conf" in
  (if dry_run ex then
     log_info ("[DRY-RUN] write " +:+ locale_conf +:+ ": LANG=" +:+ locale) ;;
     log_info ("[DRY-RUN] write " +:+ vconsole +:+ ": KEYMAP=" +:+ kbd)
   else
     fs (Mkdir (target </> "etc")) ;;
     fs (WriteText locale_conf ("LANG=" +:+ locale +:+ PyStr.nl)) ;;
     fs (WriteText vconsole ("KEYMAP=" +:+ kbd +:+ PyStr.nl))) ;;
  let locale_gen := target </> "etc" </> "locale.gen" in
  locale_gen_exists ← exists_path locale_gen ;
  if (locale_gen_exists : bool) then
    (if dry_run ex then
       log_info ("[DRY-RUN] update " +:+ locale_gen +:+ " (all="
                 +:+ PyStr.of_bool (generate_all_locales_arch cfg) +:+ ")")
     else
       text ← try_ask (λ w tr, path_read_text w tr locale_gen) ;
       let lines := PyStr.splitlines true text in
       let out_lines :=
         map (uncomment_locale_line (generate_all_locales_arch cfg) locale) lines in
       fs (WriteText locale_gen (PyStr.join EmptyString out_lines))) ;;
    run_unchecked ex ["chroot"; target; "bash"; "-lc";
      "command -v locale-gen >/dev/null 2>&1 && locale-gen || true"] ;;
    mret tt
  else mret tt.

(** [run_install], from [step(84, ...)]: NetworkManager and the Wi-Fi profile. *)
Definition configure_network : M unit :=
  step progress_cb 84 "Configuring network" ;;
  (if enable_networkmanager cfg then
     run_unchecked ex ["chroot"; target; "bash"; "-lc";
       "command -v systemctl >/dev/null 2>&1 && systemctl enable NetworkManager || true"] ;;
     mret tt
   else mret tt) ;;
  let ssid := PyStr.strip (wifi_ssid cfg) in
  let wifipass := wifi_password cfg in
  if PyStr.truthy ssid then
    let nm_dir := target </> "etc" </> "NetworkManager" </> "system-connections" in
    fs (Mkdir nm_dir) ;;
    uuid ← ask fresh_uuid4 ;
    let content :=
      "[connection]" +:+ PyStr.nl
      +:+ "id=" +:+ ssid +:+ PyStr.nl
      +:+ "uuid=" +:+ uuid +:+ PyStr.nl
      +:+ "type=wifi" +:+ PyStr.nl
      +:+ "autoconnect=true" +:+ PyStr.nl
      +:+ PyStr.nl
      +:+ "[wifi]" +:+ PyStr.nl
      +:+ "ssid=" +:+ ssid +:+ PyStr.nl
      +:+ "mode=infrastructure" +:+ PyStr.nl
      +:+ PyStr.nl
      +:+ "[wifi-security]" +:+ PyStr.nl
      +:+ "key-mgmt=wpa-psk" +:+ PyStr.nl
      +:+ "psk=" +:+ wifipass +:+ PyStr.nl
      +:+ PyStr.nl
      +:+ "[ipv4]" +:+ PyStr.nl
      +:+ "method=auto" +:+ PyStr.nl
      +:+ PyStr.nl
      +:+ "[ipv6]" +:+ PyStr.nl
      +:+ "method=auto" +:+ PyStr.nl in
    let nm_file := nm_dir </> (ssid +:+ ".nmconnection") in
    if dry_run ex then
      log_info ("[DRY-RUN] write " +:+ nm_file +:+ " (wifi profile)")
    else
      fs (WriteText nm_file content) ;;
      fs (Chmod nm_file 384)
  else mret tt.

(** [run_install], from [step(85, ...)]. *)
Definition create_user : M unit :=
  step progress_cb 85 "Creating user" ;;
  let user := username cfg in
  let pwd := password cfg in
  run_unchecked ex ["chroot"; target; "useradd"; "-m"; "-s"; "/bin/bash"; user] ;;
  run ex ["chroot"; target; "chpasswd"] true None false
      (Some (user +:+ ":" +:+ pwd +:+ PyStr.nl)) ;;
  mret tt.

(** Reading a local variable: [None] is a name that no assignment has bound
    on the path taken. *)
Definition read_local {A} (name : string) (v : option A) : M A :=
  match v with
  | Some a => mret a
  | None => raise (UnboundLocalError name)
  end.

Definition nonempty_list {A} (l : list A) : bool :=
  match l with [] => false | _ :: _ => true end.

(** [run_install], from [step(88, ...)]: the local [flatpaks] is assigned in
    the [if pkgs:] block only, and read by the [if flatpaks:] that follows that
    block. *)
Definition install_software : M unit :=
  step progress_cb 88 "Installing optional software" ;;
  let sel := Software.selection_from_config cfg in
  let pkgs := Software.arch_packages_for_selection sel in
  flatpaks_local ←
    (if nonempty_list pkgs then
       pacman_exists ← exists_path (target </> "usr/bin/pacman") ;
       (if (pacman_exists : bool) then
          run_unchecked ex
            (["chroot"; target; "pacman"; "-S"; "--noconfirm"; "--needed"] ++ pkgs) ;;
          mret tt
        else log_info "Skipping optional packages: pacman not found in target") ;;
       let flatpaks := flatpak_apps cfg in
       let flatpaks := flatpaks ++ Software.flatpak_appids_for_selection sel in
       let flatpaks := dedupe_stable flatpaks in
       mret (Some flatpaks)
     else mret None) ;
  flatpaks ← read_local "flatpaks" flatpaks_local ;
  if nonempty_list flatpaks then
    flatpak_bin_exists ← exists_path (target </> "usr/bin/flatpak") ;
    if (flatpak_bin_exists : bool) then
      run_unchecked ex ["chroot"; target; "flatpak"; "remote-add"; "--if-not-exists";
                        "flathub"; "https://flathub.org/repo/flathub.flatpakrepo"] ;;
      for_each flatpaks (λ appid,
        run_unchecked ex ["chroot"; target; "flatpak"; "install"; "-y"; "flathub"; appid] ;;
        mret tt)
    else log_info "Skipping Flatpak apps: flatpak not found in target"
  else mret tt.

(** [run_install], from [step(90, ...)]. *)
Definition install_bootloader (is_efi : bool) (disk : string) : M unit :=
  step progress_cb 90 "Installing bootloader" ;;
  (if is_efi then
     run_checked ex ["chroot"; target; "grub-install"; "--target=x86_64-efi";
                     "--efi-directory=/boot/efi"; "--bootloader-id=VistulaOS"]
   else
     run_checked ex ["chroot"; target; "grub-install"; "--target=i386-pc"; disk]) ;;
  run_checked ex ["chroot"; target; "bash"; "-lc";
    "command -v update-grub >/dev/null 2>&1 && update-grub || grub-mkconfig -o /boot/grub/grub.cfg"] ;;
  mret tt.

(** [run_install], from [step(95, ...)] to [step(100, "Done")]. *)
Definition finalize (p : Parts) : M unit :=
  step progress_cb 95 "Finalizing" ;;
  if_truthy (swap_part p) (λ swap, run_unchecked ex ["swapoff"; swap] ;; mret tt) ;;
  run_unchecked ex ["umount"; "-R"; target] ;;
  step progress_cb 100 "Done".

(** Everything [run_install] does once the configuration is validated and
    the privilege check has passed. *)
Definition install_steps (disk : string) : M unit :=
  is_efi ← exists_path efi_firmware_dir ;
  p ← partition_and_format disk ;
  mount_target p ;;
  copy_system ;;
  write_fstab p ;;
  prepare_chroot ;;
  configure_system ;;
  configure_locale ;;
  configure_network ;;
  create_user ;;
  install_software ;;
  install_bootloader is_efi disk ;;
  finalize p.

Definition run_install : M unit :=
  validate_ready self ;;
  euid ← ask os_geteuid ;
  if negb (euid =? 0) && negb (dry_run ex) then
    raise (PermissionError "Installer must be run as root (or use --dry-run)")
  else
    match target_disk cfg with
    | None => raise AssertionError
    | Some disk => install_steps disk
    end.

End RunInstall.

(** A progress callback that records what it is told. *)
Definition record_progress : callback := Some (λ pct msg, emit (EvProgress pct msg)).

(** The progress events of a trace, in order. *)
Definition progress_events (tr : trace) : list (Z * string) :=
  omap (λ e, match e with EvProgress pct msg => Some (pct, msg) | _ => None end) tr.

Definition percentages (tr : trace) : list Z := (progress_events tr).*1.

(** The file-system operations really performed, in order. *)
Definition file_operations (tr : trace) : list fs_op :=
  omap (λ e, match e with EvFs op => Some op | _ => None end) tr.

(** The child processes really started, in order. *)
Definition spawned (tr : trace) : list (list string) :=
  omap (λ e, match e with EvSpawn args _ _ => Some args | _ => None end) tr.

(** ** ui/gtk_wizard.py: the fstab preview of the summary page *)

(** [try: body  except Exception as e: handler(e)]. *)
Definition try_except {A} (body : M A) (handler : exn → M A) : M A :=
  λ w tr,
    match body w tr with
    | (Ok a, tr') => (Ok a, tr')
    | (Raise e, tr') => handler e w tr'
    end.

(** The partitions the summary page shows: those of the erase-disk flow when
    [erase_disk] is on and a target disk is set, the configured ones
    otherwise. *)
Definition summary_partitions (cfg : InstallConfig) : Parts :=
  let manual :=
    mkParts (root_partition cfg) (PyStr.or_none (efi_partition cfg))
            (PyStr.or_none (home_partition cfg)) (PyStr.or_none (swap_partition cfg)) in
  if erase_disk cfg then
    match target_disk cfg with
    | Some disk =>
        if PyStr.truthy disk then
          let '(efi, root) := predicted_partitions disk in
          mkParts root (Some efi) None None
        else manual
    | None => manual
    end
  else manual.

Section Summary.

(** The translation function [self.state._] and [str] on an exception. *)
Variables (translate : string → string) (exn_text : exn → string).

Definition fstab_preview (cfg : InstallConfig) (executor : CommandExecutor) : M string :=
  try_except
    (let p := summary_partitions cfg in
     build_fstab_content executor (root_part p) (efi_part p) (home_part p) (swap_part p))
    (λ e, mret (translate "Unable to generate fstab preview:" +:+ " " +:+ exn_text e)).

End Summary.

(** ** flatpak.py: searching for applications *)

Module Flatpak.

Record FlatpakApp : Type := mkFlatpakApp {
  appid : string;
  name : string;
  description : string;
}.

(** [x or ""] for a string [x] that may be [None]. *)
Definition or_empty (o : option string) : string :=
  match o with
  | Some s => if PyStr.truthy s then s else EmptyString
  | None => EmptyString
  end.

(** [c in chars] for one character. *)
Definition is_in (chars : string) (c : ascii) : bool :=
  PyStr.contains (PyStr.single c) chars.

Fixpoint lstrip_chars (chars s : string) : string :=
  match s with
  | EmptyString => EmptyString
  | String c s' => if is_in chars c then lstrip_chars chars s' else s
  end.

Fixpoint rstrip_chars (chars s : string) : string :=
  match s with
  | EmptyString => EmptyString
  | String c s' =>
      let r := rstrip_chars chars s' in
      if is_in chars c && PyStr.empty r then EmptyString else String c r
  end.

(** [s.strip(chars)]. *)
Definition strip_chars (chars s : string) : string :=
  lstrip_chars chars (rstrip_chars chars s).

(** [s.split(sep)] for a one-character separator. *)
Fixpoint split_char (sep : ascii) (s : string) : list string :=
  match s with
  | EmptyString => [EmptyString]
  | String c s' =>
      if Ascii.eqb c sep then EmptyString :: split_char sep s'
      else match split_char sep s' with
           | p :: ps => String c p :: ps
           | [] => [PyStr.single c]
           end
  end.

(** [_SPLIT_RE.split(s)] for [_SPLIT_RE = re.compile(r"\s{2,}")]: the text is
    cut at every maximal run of two or more white-space characters.  [cur] is
    the piece being read, [ws] the white space seen since its last
    character. *)
Fixpoint split_spaces_go (s cur ws : string) : list string :=
  match s with
  | EmptyString =>
      if (2 <=? String.length ws)%nat then [cur; EmptyString] else [cur +:+ ws]
  | String c s' =>
      if PyStr.is_space c then split_spaces_go s' cur (ws +:+ PyStr.single c)
      else if (2 <=? String.length ws)%nat then
        cur :: split_spaces_go s' (PyStr.single c) EmptyString
      else
        split_spaces_go s' (cur +:+ ws +:+ PyStr.single c) EmptyString
  end.

Definition _SPLIT_RE_split (s : string) : list string :=
  split_spaces_go s EmptyString EmptyString.

(** The columns of one line: split at tabs when the line has one, at runs of
    white space otherwise. *)
Definition columns (line : string) : list string :=
  if PyStr.contains PyStr.tab line then
    PyStr.strip <$> split_char (ascii_of_nat 9) line
  else
    PyStr.strip
      <$> List.filter (λ p, PyStr.truthy (PyStr.strip p)) (_SPLIT_RE_split line).

(** One turn of the loop over the lines: [None] for [continue], the
    application to append otherwise. *)
Definition search_row (raw : string) : option FlatpakApp :=
  let line := strip_chars PyStr.nl raw in
  if negb (PyStr.truthy (PyStr.strip line)) then None
  else if PyStr.contains "Application" line && PyStr.contains "Description" line
  then None
  else
    let parts := columns line in
    if (length parts <? 2)%nat then None
    else
      let appid := nth 0 parts EmptyString in
      let name := if (2 <=? length parts)%nat then nth 1 parts EmptyString else appid in
      let desc := if (3 <=? length parts)%nat then nth 2 parts EmptyString
                  else EmptyString in
      if PyStr.contains "/" appid || PyStr.contains " " appid then None
      else if negb (PyStr.truthy appid) then None
      else Some (mkFlatpakApp appid name desc).

(** The loop over the lines, left at the [break] once [limit] applications
    are collected. *)
Fixpoint search_loop (limit : Z) (lines : list string) (apps : list FlatpakApp)
  : list FlatpakApp :=
  match lines with
  | [] => apps
  | raw :: lines' =>
      match search_row raw with
      | None => search_loop limit lines' apps
      | Some app =>
          let apps' := apps ++ [app] in
          if Z.of_nat (length apps') >=? limit then apps'
          else search_loop limit lines' apps'
      end
  end.

Definition search_argv (q : string) : list string :=
  ["flatpak"; "search"; "--columns=application,name,description"; q].

Definition search_flatpak (executor : CommandExecutor) (query : option string)
    (limit : Z) : M (list FlatpakApp) :=
  let q := PyStr.strip (or_empty query) in
  if negb (PyStr.truthy q) then mret []
  else
    res ← run executor (search_argv q) false None true None ;
    if negb (returncode res =? 0) then
      log_info ("flatpak search failed (rc=" +:+ PyStr.of_Z (returncode res) +:+ ")") ;;
      mret []
    else
      mret (search_loop limit
              (PyStr.splitlines false (or_empty (Some (stdout res)))) []).

End Flatpak.

(** * Specification vocabulary *)

(** ** Progress reports along a trace *)

Definition is_progress (e : event) : bool :=
  match e with EvProgress _ _ => true | _ => false end.

(** [silent m]: [m] only extends the trace, and never with a progress report. *)
Definition silent {A} (m : M A) : Prop :=
  ∀ w tr, ∃ d, (m w tr).2 = tr ++ d ∧ percentages d = [].

(** [reports m L Q]: [m] only extends the trace; the percentages it reports
    are a prefix of the plan [L]; a run that returns normally has reported all
    of [L]; and a run that has reported all of [L] ends in a result in [Q]. *)
Definition reports {A} (m : M A) (L : list Z) (Q : result A → Prop) : Prop :=
  ∀ w tr, ∃ d,
    (m w tr).2 = tr ++ d
    ∧ percentages d `prefix_of` L
    ∧ (is_ok (m w tr).1 = true → percentages d = L)
    ∧ (percentages d = L → Q (m w tr).1).

Definition anything {A} : result A → Prop := λ _, True.

(** The percentages of the partitioning and formatting steps. *)
Definition format_plan (self : InstallerEngine) : list Z :=
  if erase_disk (install (_config self)) then [5; 15] else [10].

(** The percentages from mounting up to user creation. *)
Definition setup_plan : list Z := [25; 45; 60; 75; 80; 82; 84; 85].

(** The percentages of a whole installation. *)
Definition full_plan (self : InstallerEngine) : list Z :=
  format_plan self ++ setup_plan ++ [88; 90; 95; 100].

(** The percentages up to the software step. *)
Definition plan_to_software (self : InstallerEngine) : list Z :=
  format_plan self ++ setup_plan ++ [88].


(** ** Substrings and partition names *)

(** [needle] occurs in [s]. *)
Definition is_substring (needle s : string) : Prop :=
  ∃ before after, s = before +:+ needle +:+ after.

(** The device node of partition [index] of [disk]: the prefix computed by
    [_disk_prefix], followed by the index in decimal. *)
Definition derive_partition_name (disk : string) (index : Z) : string :=
  _disk_prefix disk +:+ PyStr.of_Z index.

(** ** Deduplication that keeps first occurrences *)

Fixpoint keep_first (l : list string) : list string :=
  match l with
  | [] => []
  | x :: l' => x :: filter (λ y, y ≠ x) (keep_first l')
  end.

(** The selection in which a sub-flag counts only with its bundle flag. *)
Definition gated (sel : Software.SoftwareSelection) : Software.SoftwareSelection :=
  let g := Software.gamers sel in
  let c := Software.creators sel in
  let a := Software.accountants sel in
  let d := Software.developers sel in
  {| Software.gamers := g; Software.creators := c;
     Software.accountants := a; Software.developers := d;
     Software.nvidia_driver := Software.nvidia_driver sel;
     Software.gamers_steam := g && Software.gamers_steam sel;
     Software.gamers_lutris := g && Software.gamers_lutris sel;
     Software.gamers_wine := g && Software.gamers_wine sel;
     Software.gamers_mangohud := g && Software.gamers_mangohud sel;
     Software.gamers_gamemode := g && Software.gamers_gamemode sel;
     Software.creators_gimp := c && Software.creators_gimp sel;
     Software.creators_inkscape := c && Software.creators_inkscape sel;
     Software.creators_blender := c && Software.creators_blender sel;
     Software.creators_kdenlive := c && Software.creators_kdenlive sel;
     Software.creators_audacity := c && Software.creators_audacity sel;
     Software.accountants_libreoffice := a && Software.accountants_libreoffice sel;
     Software.accountants_gnucash := a && Software.accountants_gnucash sel;
     Software.developers_git := d && Software.developers_git sel;
     Software.developers_base_devel := d && Software.developers_base_devel sel;
     Software.developers_python := d && Software.developers_python sel;
     Software.developers_nodejs := d && Software.developers_nodejs sel;
     Software.developers_vscode := d && Software.developers_vscode sel |}.

(** [out] is [raw] without its repetitions, every identifier standing where it
    first occurs. *)
Definition first_occurrences (raw out : list string) : Prop :=
  NoDup out
  ∧ (∀ x, x ∈ out ↔ x ∈ raw)
  ∧ out = keep_first raw
  ∧ (∀ l1 x l2, raw = l1 ++ x :: l2 → x ∉ l1 →
       ∃ rest, out = keep_first l1 ++ x :: rest ∧ x ∉ rest).

(** ** The mount table, in the words of the specification *)

(** The value of [key] in the metadata of a device, when it has one. *)
Definition metadata_value (info : gmap string string) (key : string) : option string :=
  match info !! key with
  | Some v => if decide (v = EmptyString) then None else Some v
  | None => None
  end.

(** [<ref>]: PARTUUID first, then UUID, then the raw device path. *)
Definition table_ref (info : gmap string string) (dev : string) : string :=
  match metadata_value info "PARTUUID" with
  | Some x => "PARTUUID=" +:+ x
  | None =>
      match metadata_value info "UUID" with
      | Some x => "UUID=" +:+ x
      | None => dev
      end
  end.

(** [<fstype-or-fallback>]. *)
Definition table_fstype (info : gmap string string) (fallback : string) : string :=
  match metadata_value info "TYPE" with
  | Some t => t
  | None => fallback
  end.

(** A partition argument that is provided: not [None] and not empty. *)
Definition provided (part : option string) : option string :=
  match part with
  | Some dev => if decide (dev = EmptyString) then None else Some dev
  | None => None
  end.

Definition table_line (ref mountpoint fstype options : string) : string :=
  ref +:+ " " +:+ mountpoint +:+ " " +:+ fstype +:+ " " +:+ options +:+ PyStr.nl.

(** One line per provided partition, in the order root, EFI, home, swap. *)
Definition mount_table (meta : string → gmap string string) (root : string)
    (efi home swap : option string) : string :=
  table_line (table_ref (meta root) root) "/" (table_fstype (meta root) "ext4") "defaults 0 1"
  +:+ match provided efi with
      | Some dev =>
          table_line (table_ref (meta dev) dev) "/boot/efi"
                     (table_fstype (meta dev) "vfat") "umask=0077 0 1"
      | None => EmptyString
      end
  +:+ match provided home with
      | Some dev =>
          table_line (table_ref (meta dev) dev) "/home"
                     (table_fstype (meta dev) "ext4") "defaults 0 2"
      | None => EmptyString
      end
  +:+ match provided swap with
      | Some dev => table_line (table_ref (meta dev) dev) "none" "swap" "sw 0 0"
      | None => EmptyString
      end.

(** [blkid] answers the same for a device whatever has happened before. *)
Definition stable_blkid (w : World) (answer : string → CommandResult) : Prop :=
  ∀ tr dev, subprocess_run w tr (blkid_argv dev) None None = Ok (answer dev).

(** [m] returns [a] in the world [w], from any trace. *)
Definition yields {A} (w : World) (m : M A) (a : A) : Prop :=
  ∀ tr, ∃ tr', m w tr = (Ok a, tr').

(** ** Worlds in which nothing goes wrong *)

(** Every file-system operation succeeds, every file can be read, and every
    child process starts and ends with return code 0. *)
Definition cooperative (w : World) : Prop :=
  (∀ tr op, fs_apply w tr op = Ok tt)
  ∧ (∀ tr p, is_ok (path_read_text w tr p) = true)
  ∧ (∀ tr args cwd input,
       ∃ cp, subprocess_run w tr args cwd input = Ok cp ∧ returncode cp = 0).

(** [m] returns normally in [w], from any trace. *)
Definition passes {A} (w : World) (m : M A) : Prop :=
  ∀ tr, is_ok (m w tr).1 = true.

(** [m] ends in the [UnboundLocalError] for [flatpaks], with 88 reported. *)
Definition stops_at_software {A} (w : World) (m : M A) : Prop :=
  ∀ tr, (m w tr).1 = Raise (UnboundLocalError "flatpaks")
        ∧ 88 ∈ percentages (m w tr).2.

(** ** Concrete worlds and configurations *)

(** A world in which every child process ends as [cp], no path exists, a
    file that is read is empty and every file-system operation succeeds; the
    user is not root. *)
Definition world_answering (cp : CommandResult) : World := {|
  os_geteuid := λ _, 1000;
  path_exists := λ _ _, false;
  path_is_symlink := λ _ _, false;
  path_read_text := λ _ _, Ok EmptyString;
  fs_apply := λ _ _, Ok tt;
  subprocess_run := λ _ _ _ _, Ok cp;
  fresh_uuid4 := λ _, "00000000-0000-4000-8000-000000000000";
|}.

(** A UEFI host seen by an unprivileged user: the firmware directory exists,
    nothing under the target does, and [blkid] cannot read any device. *)
Definition uefi_host : World := {|
  os_geteuid := λ _, 1000;
  path_exists := λ _ p, bool_decide (p = efi_firmware_dir);
  path_is_symlink := λ _ _, false;
  path_read_text := λ _ _, Raise (OSError "No such file or directory");
  fs_apply := λ _ _, Ok tt;
  subprocess_run := λ _ _ _ _, Ok (mkCommandResult 2 EmptyString EmptyString);
  fresh_uuid4 := λ _, "00000000-0000-4000-8000-000000000000";
|}.

(** A resolver that knows [PARTUUID=ABCD] for [/dev/sda2] and nothing else. *)
Definition abcd_answer (dev : string) : CommandResult :=
  if decide (dev = "/dev/sda2")
  then mkCommandResult 0 ("PARTUUID=ABCD" +:+ PyStr.nl) EmptyString
  else mkCommandResult 2 EmptyString EmptyString.

Definition abcd_world : World := {|
  os_geteuid := λ _, 0;
  path_exists := λ _ _, false;
  path_is_symlink := λ _ _, false;
  path_read_text := λ _ _, Raise (OSError "No such file or directory");
  fs_apply := λ _ _, Ok tt;
  subprocess_run := λ _ args _ _,
    match args with
    | [_; _; _; dev] => Ok (abcd_answer dev)
    | _ => Ok (mkCommandResult 2 EmptyString EmptyString)
    end;
  fresh_uuid4 := λ _, "00000000-0000-4000-8000-000000000000";
|}.

(** Erase the whole of [/dev/sda]: no home, no swap, no software. *)
Definition erase_sda_install : InstallConfig :=
  mkInstallConfig (Some "/dev/sda") true
    (root_partition default_install) (efi_partition default_install)
    (home_partition default_install) (swap_partition default_install)
    true false false false
    "vistula" "user" "secret" "Europe/Warsaw" "pl" "pl_PL.UTF-8" false
    true EmptyString EmptyString
    false false false false false
    false false false false false
    false false false false false
    false false
    false false false false false
    [].

Definition dry_run_engine (install : InstallConfig) : InstallerEngine :=
  mkInstallerEngine (mkAppConfig (mkRuntimeConfig true) install) (mkCommandExecutor true).

Definition real_engine (install : InstallConfig) : InstallerEngine :=
  mkInstallerEngine (mkAppConfig (mkRuntimeConfig false) install) (mkCommandExecutor false).

(** A fully populated manual configuration. *)
Definition manual_install : InstallConfig :=
  mkInstallConfig (Some "/dev/sda") false
    "/dev/sda2" "/dev/sda1" "/dev/sda3" "/dev/sda4"
    true false false false
    "vistula" "user" "secret" "Europe/Warsaw" "pl" "pl_PL.UTF-8" false
    true EmptyString EmptyString
    false false false false false
    false false false false false
    false false false false false
    false false
    false false false false false
    [].

(** Wine ticked while the gamers bundle is off, next to two developer tools. *)
Definition wine_without_gamers : Software.SoftwareSelection :=
  Software.mkSoftwareSelection false false false true false
    false false true false false
    false false false false false
    false false
    true false false true false.

(** The same developer tools and nothing else. *)
Definition developer_tools : Software.SoftwareSelection :=
  Software.mkSoftwareSelection false false false true false
    false false false false false
    false false false false false
    false false
    true false false true false.

(** The erase-disk scenario with one native package selected: the developers
    bundle with git. *)
Definition erase_sda_with_git : InstallConfig :=
  mkInstallConfig (Some "/dev/sda") true
    EmptyString EmptyString EmptyString EmptyString
    true false false false
    "vistula" "user" "secret" "Europe/Warsaw" "pl" "pl_PL.UTF-8" false
    true EmptyString EmptyString
    false false false true false
    false false false false false
    false false false false false
    false false
    true false false false false
    [].

(** The percentages reported when the run stops at the software step. *)
Definition percentages_to_software : list Z :=
  [5; 15; 25; 45; 60; 75; 80; 82; 84; 85; 88].

(** The percentages the specification expects from the erase-disk run. *)
Definition expected_percentages : list Z :=
  [5; 15; 25; 45; 60; 75; 80; 82; 84; 85; 88; 90; 95; 100].

(** ** What a computation may do *)

(** [confined P m]: [m] only extends the trace, and only with events in [P]. *)
Definition confined {A} (P : event → Prop) (m : M A) : Prop :=
  ∀ w tr, ∃ d, (m w tr).2 = tr ++ d ∧ Forall P d.

(** Log lines, and [blkid] queries: what a preview may do. *)
Definition read_only_event (e : event) : Prop :=
  match e with
  | EvLog _ _ => True
  | EvSpawn args _ _ => ∃ dev, args = blkid_argv dev
  | EvProgress _ _ | EvFs _ => False
  end.

(** Log lines, progress reports, [blkid] queries and directory creation. *)
Definition dry_run_event (e : event) : Prop :=
  match e with
  | EvLog _ _ | EvProgress _ _ => True
  | EvSpawn args _ _ => ∃ dev, args = blkid_argv dev
  | EvFs op => ∃ dir, op = Mkdir dir
  end.

(** The formatting commands of the manual flow: one for each partition that
    is set and whose format flag is on. *)
Definition manual_format_commands (cfg : InstallConfig) : list (list string) :=
  (if format_root cfg then [["mkfs.ext4"; "-F"; root_partition cfg]] else [])
  ++ (if PyStr.truthy (efi_partition cfg) && format_efi cfg
      then [["mkfs.vfat"; "-F"; "32"; efi_partition cfg]] else [])
  ++ (if PyStr.truthy (home_partition cfg) && format_home cfg
      then [["mkfs.ext4"; "-F"; home_partition cfg]] else [])
  ++ (if PyStr.truthy (swap_partition cfg) && format_swap cfg
      then [["mkswap"; swap_partition cfg]] else []).

(** Log lines, progress reports, and the commands in [cmds]. *)
Definition only_commands (cmds : list (list string)) (e : event) : Prop :=
  match e with
  | EvLog _ _ | EvProgress _ _ => True
  | EvSpawn args _ _ => args ∈ cmds
  | EvFs _ => False
  end.

(** [name] is one of [names]. *)
Definition is_one_of (name : string) (names : list string) : bool :=
  existsb (String.eqb name) names.

(** What a run of the manual flow may do: it never starts [wipefs] or
    [parted], and starts [mkfs.ext4], [mkfs.vfat] or [mkswap] only as one of
    [manual_format_commands]. *)
Definition manual_flow_event (cfg : InstallConfig) (e : event) : Prop :=
  match e with
  | EvSpawn (name :: rest) _ _ =>
      if is_one_of name ["wipefs"; "parted"] then False
      else if is_one_of name ["mkfs.ext4"; "mkfs.vfat"; "mkswap"]
           then name :: rest ∈ manual_format_commands cfg
           else True
  | _ => True
  end.

(** The mount table when no identifier and no type can be read: raw device
    paths and the default file-system types. *)
Definition raw_mount_table (root : string) (efi home swap : option string) : string :=
  (root +:+ " / ext4 defaults 0 1" +:+ PyStr.nl)
  +:+ match provided efi with
      | Some dev => dev +:+ " /boot/efi vfat umask=0077 0 1" +:+ PyStr.nl
      | None => EmptyString
      end
  +:+ match provided home with
      | Some dev => dev +:+ " /home ext4 defaults 0 2" +:+ PyStr.nl
      | None => EmptyString
      end
  +:+ match provided swap with
      | Some dev => dev +:+ " none swap sw 0 0" +:+ PyStr.nl
      | None => EmptyString
      end.

(** [m] can only return [a]: a run that returns normally returns [a]. *)
Definition returns_only {A} (m : M A) (a : A) : Prop :=
  ∀ w tr a', (m w tr).1 = Ok a' → a' = a.

(** ** Commands whose failure the engine tolerates *)

(** The commands that [run_install] starts with [check=False]: the [blkid]
    queries, [swapon], [swapoff], the final [umount], and inside the chroot
    [useradd], [pacman], [flatpak] and the two best-effort shell lines. *)
Definition tolerated_command (args : list string) : bool :=
  match args with
  | [] => false
  | name :: rest =>
      is_one_of name ["blkid"; "swapon"; "swapoff"; "umount"]
      || (String.eqb name "chroot"
          && match rest with
             | _ :: sub :: rest' =>
                 is_one_of sub ["useradd"; "pacman"; "flatpak"]
                 || (String.eqb sub "bash"
                     && match rest' with
                        | [_; script] =>
                            is_one_of script
                              ["command -v locale-gen >/dev/null 2>&1 && locale-gen || true";
                               "command -v systemctl >/dev/null 2>&1 && systemctl enable NetworkManager || true"]
                        | _ => false
                        end)
             | _ => false
             end)
  end.

(** Every file-system operation succeeds, every file can be read, every
    process starts, and every command that is not tolerated ends with return
    code 0. *)
Definition forgiving (w : World) : Prop :=
  (∀ tr op, fs_apply w tr op = Ok tt)
  ∧ (∀ tr p, is_ok (path_read_text w tr p) = true)
  ∧ (∀ tr args cwd input,
       ∃ cp, subprocess_run w tr args cwd input = Ok cp
             ∧ (tolerated_command args = false → returncode cp = 0)).

(** A successful [m] ends with the report [(100, "Done")]. *)
Definition ends_with_done {A} (m : M A) : Prop :=
  ∀ w tr, is_ok (m w tr).1 = true →
          ∃ tr', (m w tr).2 = tr' ++ [EvProgress 100 "Done"].

(** A world in which every tolerated command fails with return code 1 and
    everything else succeeds; the user is root and the host has no UEFI. *)
Definition grudging_world : World := {|
  os_geteuid := λ _, 0;
  path_exists := λ _ p, bool_decide (p = target </> "usr/bin/pacman");
  path_is_symlink := λ _ _, false;
  path_read_text := λ _ _, Ok EmptyString;
  fs_apply := λ _ _, Ok tt;
  subprocess_run := λ _ args _ _,
    Ok (mkCommandResult (if tolerated_command args then 1 else 0) EmptyString EmptyString);
  fresh_uuid4 := λ _, "00000000-0000-4000-8000-000000000000";
|}.

(** ** The catalogues of the software planner *)

(** Some item delivered as a native package is selected together with its
    bundle (the driver has no bundle). *)
Definition native_items_selected (sel : Software.SoftwareSelection) : bool :=
  Software.nvidia_driver sel
  || Software.gamers sel
     && (Software.gamers_wine sel || Software.gamers_mangohud sel
         || Software.gamers_gamemode sel)
  || Software.developers sel
     && (Software.developers_git sel || Software.developers_base_devel sel
         || Software.developers_python sel || Software.developers_nodejs sel).

(** Every native package the planner knows, in the order of the source. *)
Definition arch_catalogue : list string :=
  ["nvidia"; "nvidia-utils"; "lib32-nvidia-utils"; "wine"; "winetricks";
   "mangohud"; "gamemode"; "git"; "base-devel"; "python"; "nodejs"; "npm"].

(** Every Flatpak application the planner knows, in the order of the source. *)
Definition flatpak_catalogue : list string :=
  ["com.valvesoftware.Steam"; "net.lutris.Lutris"; "org.gimp.GIMP";
   "org.inkscape.Inkscape"; "org.blender.Blender"; "org.kde.kdenlive";
   "org.audacityteam.Audacity"; "org.libreoffice.LibreOffice";
   "org.gnucash.GnuCash"; "com.visualstudio.code"].

(** Only software delivered through Flatpak is ticked. *)
Definition creators_only : Software.SoftwareSelection :=
  Software.mkSoftwareSelection false true false false false
    true true false false false
    true true false false false
    false false
    false false false false true.

(** ** The export format of [blkid] *)

Definition no_linebreak (s : string) : Prop :=
  PyStr.all_chars (λ c, negb (PyStr.is_linebreak c)) s = true.

(** A key as [blkid -o export] prints it: one word without [=]. *)
Definition export_key (k : string) : Prop :=
  no_linebreak k ∧ PyStr.contains "=" k = false ∧ PyStr.strip k = k.

(** A value as [blkid -o export] prints it: no line break, no blank at
    either end. *)
Definition export_value (v : string) : Prop :=
  no_linebreak v ∧ PyStr.strip v = v.

(** The text [KEY=value], one pair a line. *)
Definition export_text (kvs : list (string * string)) : string :=
  foldr (λ kv rest, kv.1 +:+ "=" +:+ kv.2 +:+ PyStr.nl +:+ rest) EmptyString kvs.

(** ** Rows of a Flatpak search *)

(** The most applications a search can return: [limit], but at least one. *)
Definition search_cap (limit : Z) : nat := Z.to_nat (Z.max 1 limit).

(** The application of every line that carries one, in the order of the
    lines. *)
Definition all_rows (lines : list string) : list Flatpak.FlatpakApp :=
  omap Flatpak.search_row lines.

(** What every application of a result satisfies. *)
Definition well_formed_app (a : Flatpak.FlatpakApp) : Prop :=
  Flatpak.appid a ≠ EmptyString
  ∧ PyStr.contains "/" (Flatpak.appid a) = false
  ∧ PyStr.contains " " (Flatpak.appid a) = false.

(** A column of a tab-separated row: no line break, no tab, no white space at
    either end. *)
Definition tab_field (s : string) : Prop :=
  no_linebreak s ∧ PyStr.contains PyStr.tab s = false ∧ PyStr.strip s = s.

(** The row [flatpak search --columns=application,name,description] prints
    for an application, and the text it prints for a list of them. *)
Definition tab_row (a : Flatpak.FlatpakApp) : string :=
  Flatpak.appid a +:+ PyStr.tab +:+ Flatpak.name a
  +:+ PyStr.tab +:+ Flatpak.description a.

Definition tab_text (apps : list Flatpak.FlatpakApp) : string :=
  foldr (λ a rest, tab_row a +:+ PyStr.nl +:+ rest) EmptyString apps.

(** A line with both words of the header. *)
Definition is_header (line : string) : bool :=
  PyStr.contains "Application" line && PyStr.contains "Description" line.

(** An application whose row can be read back. *)
Definition listable (a : Flatpak.FlatpakApp) : Prop :=
  tab_field (Flatpak.appid a) ∧ tab_field (Flatpak.name a)
  ∧ tab_field (Flatpak.description a)
  ∧ well_formed_app a
  ∧ is_header (tab_row a) = false.

(** ** The rewriting of [locale.gen] *)



(** ** Flatpak commands, and the commands of the erase-disk flow *)

(** An event that starts no command of the Flatpak tool in a chroot. *)
Definition no_flatpak_event (e : event) : Prop :=
  match e with
  | EvSpawn ("chroot" :: _ :: "flatpak" :: _) _ _ => False
  | _ => True
  end.

(** The commands of the erase-disk flow for [disk], with the partitions named
    by [derive_partition_name]: index 1 is formatted as the EFI partition,
    index 2 as the root partition. *)
Definition erase_commands (disk : string) : list (list string) :=
  [ ["wipefs"; "-a"; disk];
    ["parted"; "-s"; disk; "mklabel"; "gpt"];
    ["parted"; "-s"; disk; "mkpart"; "EFI"; "fat32"; "1MiB"; "513MiB"];
    ["parted"; "-s"; disk; "set"; "1"; "esp"; "on"];
    ["parted"; "-s"; disk; "mkpart"; "ROOT"; "ext4"; "513MiB"; "100%"];
    ["mkfs.vfat"; "-F"; "32"; derive_partition_name disk 1];
    ["mkfs.ext4"; "-F"; derive_partition_name disk 2] ].

(** A configuration that selects no bundle and no driver, and lists one
    Flatpak application. *)
Definition erase_sda_with_vlc : InstallConfig :=
  mkInstallConfig (Some "/dev/sda") true
    EmptyString EmptyString EmptyString EmptyString
    true false false false
    "vistula" "user" "secret" "Europe/Warsaw" "pl" "pl_PL.UTF-8" false
    true EmptyString EmptyString
    false false false false false
    false false false false false
    false false false false false
    false false
    false false false false false
    ["org.videolan.VLC"].

(** * Verification *)

(** ** The monad: running a bind *)

Lemma bind_run {A B} (m : M A) (f : A → M B) w tr :
  (m ≫= f) w tr =
  match m w tr with
  | (Ok a, tr') => f a w tr'
  | (Raise e, tr') => (Raise e, tr')
  end.
Proof. reflexivity. Qed.

Lemma bind_ok {A B} (m : M A) (f : A → M B) w tr a tr' :
  m w tr = (Ok a, tr') → (m ≫= f) w tr = f a w tr'.
Proof. intros H. rewrite bind_run, H. reflexivity. Qed.

Lemma bind_raise {A B} (m : M A) (f : A → M B) w tr e tr' :
  m w tr = (Raise e, tr') → (m ≫= f) w tr = (Raise e, tr').
Proof. intros H. rewrite bind_run, H. reflexivity. Qed.

(** ** Progress reports along a trace *)

Lemma percentages_app tr1 tr2 :
  percentages (tr1 ++ tr2) = percentages tr1 ++ percentages tr2.
Proof. unfold percentages, progress_events. by rewrite omap_app, fmap_app. Qed.

Section SilentRules.

Context {A B : Type}.

Lemma silent_ret (a : A) : silent (mret a).
Proof. intros w tr. exists []. by rewrite app_nil_r. Qed.

Lemma silent_raise (e : exn) : silent (@raise A e).
Proof. intros w tr. exists []. by rewrite app_nil_r. Qed.

Lemma silent_ask (q : World → trace → A) : silent (ask q).
Proof. intros w tr. exists []. by rewrite app_nil_r. Qed.

Lemma silent_try_ask (q : World → trace → result A) : silent (try_ask q).
Proof. intros w tr. exists []. by rewrite app_nil_r. Qed.

Lemma silent_perform (e : event) (q : World → trace → result A) :
  is_progress e = false → silent (perform e q).
Proof. intros He w tr. exists [e]. split; [done|]. by destruct e. Qed.

Lemma silent_bind (m : M A) (f : A → M B) :
  silent m → (∀ a, silent (f a)) → silent (m ≫= f).
Proof.
  intros Hm Hf w tr. rewrite bind_run.
  destruct (Hm w tr) as (d1 & E1 & P1).
  destruct (m w tr) as [[a|e] tr1]; simpl in E1; subst tr1.
  - destruct (Hf a w (tr ++ d1)) as (d2 & E2 & P2).
    exists (d1 ++ d2). rewrite E2, percentages_app, P1, P2. by rewrite (assoc_L (++)).
  - by exists d1.
Qed.

End SilentRules.

Lemma silent_emit (e : event) : is_progress e = false → silent (emit e).
Proof. intros He w tr. exists [e]. split; [done|]. by destruct e. Qed.

Lemma silent_log_info msg : silent (log_info msg).
Proof. by apply silent_emit. Qed.

Lemma silent_log_error msg : silent (log_error msg).
Proof. by apply silent_emit. Qed.

Lemma silent_fs op : silent (fs op).
Proof. by apply silent_perform. Qed.

Lemma silent_exists_path p : silent (exists_path p).
Proof. apply silent_ask. Qed.

Lemma silent_for_each {A} (l : list A) (body : A → M unit) :
  (∀ x, silent (body x)) → silent (for_each l body).
Proof.
  intros Hb. induction l as [|x l IH]; simpl.
  - apply silent_ret.
  - apply silent_bind; [apply Hb | intros _; apply IH].
Qed.

Lemma silent_if_truthy o body :
  (∀ s, silent (body s)) → silent (if_truthy o body).
Proof.
  intros Hb. destruct o as [s|]; simpl; [|apply silent_ret].
  destruct (PyStr.truthy s); [apply Hb | apply silent_ret].
Qed.

Lemma silent_read_local {A} name (v : option A) : silent (read_local name v).
Proof. destruct v; [apply silent_ret | apply silent_raise]. Qed.

(** Splits a goal [silent m] along the binds and branches of [m]. *)
Ltac silent_step :=
  lazymatch goal with
  | |- silent (_ ≫= _) => apply silent_bind; [|intros ?]
  | |- silent (mret _) => apply silent_ret
  | |- silent (raise _) => apply silent_raise
  | |- silent (ask _) => apply silent_ask
  | |- silent (try_ask _) => apply silent_try_ask
  | |- silent (exists_path _) => apply silent_exists_path
  | |- silent (log_info _) => apply silent_log_info
  | |- silent (log_error _) => apply silent_log_error
  | |- silent (fs _) => apply silent_fs
  | |- silent (perform _ _) => apply silent_perform; reflexivity
  | |- silent (read_local _ _) => apply silent_read_local
  | |- silent (for_each _ _) => apply silent_for_each; intros ?
  | |- silent (if_truthy _ _) => apply silent_if_truthy; intros ?
  | |- silent (if ?b then _ else _) => destruct b
  | |- silent (match ?x with _ => _ end) => destruct x
  | |- silent (let _ := _ in _) => cbv zeta
  end.

Ltac silent_auto := repeat silent_step.

Lemma silent_run ex args check cwd allow input :
  silent (run ex args check cwd allow input).
Proof. unfold run. silent_auto. Qed.

Lemma silent_run_checked ex args : silent (run_checked ex args).
Proof. apply silent_run. Qed.

Lemma silent_run_unchecked ex args : silent (run_unchecked ex args).
Proof. apply silent_run. Qed.

Create HintDb silent.
#[local] Hint Resolve silent_run silent_run_checked silent_run_unchecked : silent.

Ltac silent_solve := repeat first [silent_step | solve [auto with silent]].

Lemma silent_blkid_export ex dev : silent (_blkid_export ex dev).
Proof. unfold _blkid_export. silent_solve. Qed.
#[local] Hint Resolve silent_blkid_export : silent.

Lemma silent_fstype ex dev fallback : silent (_fstype ex dev fallback).
Proof. unfold _fstype. silent_solve. Qed.

Lemma silent_devref ex dev : silent (devref ex dev).
Proof. unfold devref, _fstab_ident. silent_solve. Qed.
#[local] Hint Resolve silent_fstype silent_devref : silent.

Lemma silent_build_fstab_content ex root efi home swap :
  silent (build_fstab_content ex root efi home swap).
Proof. unfold build_fstab_content. silent_solve. Qed.
#[local] Hint Resolve silent_build_fstab_content : silent.

Lemma silent_write_fstab tgt ex root efi home swap :
  silent (_write_fstab tgt ex root efi home swap).
Proof. unfold _write_fstab. silent_solve. Qed.
#[local] Hint Resolve silent_write_fstab : silent.

Lemma silent_validate_ready self : silent (validate_ready self).
Proof. unfold validate_ready. silent_solve. Qed.

(** ** Plans of progress reports *)

Lemma silent_reports {A} (m : M A) : silent m → reports m [] anything.
Proof.
  intros Hm w tr. destruct (Hm w tr) as (d & E & P).
  exists d. rewrite P. by repeat split.
Qed.

(** A step that reports [pct] and then goes on with the plan [L]. *)
Lemma reports_step {A} pct msg (k : M A) L Q :
  reports k L Q → reports (step record_progress pct msg ;; k) (pct :: L) Q.
Proof.
  intros Hk w tr.
  destruct (Hk w ((tr ++ [EvLog INFO (PyStr.of_Z pct +:+ "% " +:+ msg)])
                  ++ [EvProgress pct msg])) as (d & E & P & O & F).
  exists ([EvLog INFO (PyStr.of_Z pct +:+ "% " +:+ msg); EvProgress pct msg] ++ d).
  change ((step record_progress pct msg ;; k) w tr)
    with (k w ((tr ++ [EvLog INFO (PyStr.of_Z pct +:+ "% " +:+ msg)])
               ++ [EvProgress pct msg])).
  rewrite E, percentages_app. change (percentages [_; _]) with [pct].
  split; [by rewrite <- !(assoc_L (++))|].
  split; [by apply prefix_cons|].
  split; [intros H; simpl; f_equal; auto|].
  intros H. simpl in H. inversion H. auto.
Qed.

(** Anything silent may come first. *)
Lemma reports_after_silent {A B} (m : M A) (f : A → M B) L Q :
  silent m → (∀ a, reports (f a) L Q) → (L ≠ [] ∨ ∀ e, Q (Raise e)) →
  reports (m ≫= f) L Q.
Proof.
  intros Hm Hf HL w tr. rewrite bind_run.
  destruct (Hm w tr) as (d1 & E1 & P1).
  destruct (m w tr) as [[a|e] tr1]; simpl in E1; subst tr1.
  - destruct (Hf a w (tr ++ d1)) as (d2 & E2 & P2 & O2 & F2).
    exists (d1 ++ d2). rewrite E2, percentages_app, P1. simpl.
    by rewrite (assoc_L (++)).
  - exists d1. rewrite P1. simpl. repeat split; [apply prefix_nil|done|].
    intros <-. destruct HL as [HL|HL]; [done|apply HL].
Qed.

(** One phase after the other: the plans are concatenated. *)
Lemma reports_seq {A B} (m : M A) (f : A → M B) L1 L2 Q :
  reports m L1 anything → (∀ a, reports (f a) L2 Q) →
  (L2 ≠ [] ∨ ∀ e, Q (Raise e)) →
  reports (m ≫= f) (L1 ++ L2) Q.
Proof.
  intros Hm Hf HL w tr. rewrite bind_run.
  destruct (Hm w tr) as (d1 & E1 & P1 & O1 & _).
  destruct (m w tr) as [[a|e] tr1]; simpl in E1, O1; subst tr1.
  - destruct (Hf a w (tr ++ d1)) as (d2 & E2 & P2 & O2 & F2).
    exists (d1 ++ d2). rewrite E2, percentages_app, O1 by done.
    split; [by rewrite (assoc_L (++))|].
    split; [by apply prefix_app|].
    split; [intros H; f_equal; auto|].
    intros H. apply app_inv_head in H. auto.
  - exists d1. simpl. split; [done|].
    split; [by apply prefix_app_r|].
    split; [done|]. intros H.
    destruct HL as [HL|HL]; [|apply HL].
    exfalso. apply prefix_length in P1. rewrite H, length_app in P1.
    destruct L2; [done|simpl in P1; lia].
Qed.

(** A phase that cannot return normally ends the plan. *)
Lemma reports_stuck {A B} (m : M A) (f : A → M B) L (e : exn) :
  reports m L (λ r, r = Raise e) → reports (m ≫= f) L (λ r, r = Raise e).
Proof.
  intros Hm w tr. rewrite bind_run.
  destruct (Hm w tr) as (d & E & P & O & F).
  destruct (m w tr) as [[a|e'] tr1]; simpl in *; subst tr1.
  - specialize (F (O eq_refl)). done.
  - exists d. repeat split; [done|done|].
    intros H. specialize (F H). by inversion F.
Qed.

Lemma reports_weaken {A} (m : M A) L (Q : result A → Prop) :
  reports m L Q → reports m L anything.
Proof.
  intros Hm w tr. destruct (Hm w tr) as (d & E & P & O & F).
  exists d. by repeat split.
Qed.

(** A phase: one report, then silence. *)
Lemma reports_phase {A} pct msg (k : M A) :
  silent k → reports (step record_progress pct msg ;; k) [pct] anything.
Proof. intros Hk. apply reports_step. by apply silent_reports. Qed.

Lemma reports_raise {A} (e : exn) L (Q : result A → Prop) :
  (L ≠ [] ∨ Q (Raise e)) → reports (raise e) L Q.
Proof.
  intros HL w tr. exists []. simpl. rewrite app_nil_r.
  repeat split; [apply prefix_nil|done|].
  intros <-. by destruct HL.
Qed.

Lemma reports_last_step pct msg :
  reports (step record_progress pct msg) [pct] anything.
Proof.
  intros w tr.
  exists [EvLog INFO (PyStr.of_Z pct +:+ "% " +:+ msg); EvProgress pct msg].
  split; [|by repeat split].
  unfold step, record_progress, log_info, emit. simpl.
  by rewrite <- (assoc_L (++)).
Qed.

(** Splits a goal [reports m L Q] along the steps of [m]. *)
Ltac reports_go :=
  lazymatch goal with
  | |- reports (step record_progress _ _ ≫= _) (_ :: _) _ => apply reports_step
  | |- reports (step record_progress _ _) _ _ => apply reports_last_step
  | |- reports _ [] anything => apply silent_reports; silent_solve
  | |- reports (raise _) _ _ => apply reports_raise; left; discriminate
  | |- reports (_ ≫= _) (_ :: _) _ =>
      apply reports_after_silent; [silent_solve | intros ? | left; discriminate]
  | |- reports (let '(_, _) := ?x in _) _ _ => destruct x
  | |- reports (let _ := _ in _) _ _ => cbv zeta
  end.

Section Phases.

Variable self : InstallerEngine.

Let cfg : InstallConfig := install (_config self).

Lemma reports_partition_and_format disk :
  reports (partition_and_format self record_progress disk) (format_plan self) anything.
Proof.
  unfold partition_and_format, format_plan, cfg.
  destruct (erase_disk _); repeat reports_go.
Qed.

Lemma reports_mount_target p :
  reports (mount_target self record_progress p) [25] anything.
Proof. unfold mount_target. apply reports_phase. silent_solve. Qed.

Lemma reports_copy_system : reports (copy_system self record_progress) [45] anything.
Proof. unfold copy_system. apply reports_phase. silent_solve. Qed.

Lemma reports_write_fstab p : reports (write_fstab self record_progress p) [60] anything.
Proof. unfold write_fstab. apply reports_phase. silent_solve. Qed.

Lemma reports_prepare_chroot : reports (prepare_chroot self record_progress) [75] anything.
Proof. unfold prepare_chroot. apply reports_phase. silent_solve. Qed.

Lemma reports_configure_system :
  reports (configure_system self record_progress) [80] anything.
Proof. unfold configure_system. apply reports_phase. silent_solve. Qed.

Lemma reports_configure_locale :
  reports (configure_locale self record_progress) [82] anything.
Proof. unfold configure_locale. apply reports_phase. silent_solve. Qed.

Lemma reports_configure_network :
  reports (configure_network self record_progress) [84] anything.
Proof. unfold configure_network. apply reports_phase. silent_solve. Qed.

Lemma reports_create_user : reports (create_user self record_progress) [85] anything.
Proof. unfold create_user. apply reports_phase. silent_solve. Qed.

Lemma reports_install_software :
  reports (install_software self record_progress) [88] anything.
Proof. unfold install_software. apply reports_phase. silent_solve. Qed.

Lemma reports_install_bootloader is_efi disk :
  reports (install_bootloader self record_progress is_efi disk) [90] anything.
Proof. unfold install_bootloader. apply reports_phase. silent_solve. Qed.

Lemma reports_finalize p : reports (finalize self record_progress p) [95; 100] anything.
Proof. unfold finalize. repeat reports_go. Qed.

(** The steps from mounting to user creation, followed by [k]. *)
Lemma reports_setup {A} p (k : M A) L Q :
  reports k L Q → (L ≠ [] ∨ ∀ e, Q (Raise e)) →
  reports (mount_target self record_progress p ;;
           copy_system self record_progress ;;
           write_fstab self record_progress p ;;
           prepare_chroot self record_progress ;;
           configure_system self record_progress ;;
           configure_locale self record_progress ;;
           configure_network self record_progress ;;
           create_user self record_progress ;;
           k) (setup_plan ++ L) Q.
Proof.
  intros Hk HL. unfold setup_plan.
  apply (reports_seq _ _ [25]); [apply reports_mount_target | intros _ | left; discriminate].
  apply (reports_seq _ _ [45]); [apply reports_copy_system | intros _ | left; discriminate].
  apply (reports_seq _ _ [60]); [apply reports_write_fstab | intros _ | left; discriminate].
  apply (reports_seq _ _ [75]); [apply reports_prepare_chroot | intros _ | left; discriminate].
  apply (reports_seq _ _ [80]); [apply reports_configure_system | intros _ | left; discriminate].
  apply (reports_seq _ _ [82]); [apply reports_configure_locale | intros _ | left; discriminate].
  apply (reports_seq _ _ [84]); [apply reports_configure_network | intros _ | left; discriminate].
  apply (reports_seq _ _ [85]); [apply reports_create_user | intros _ | done].
  done.
Qed.

Lemma format_plan_nonempty : (format_plan self) ≠ [].
Proof. unfold format_plan. by destruct (erase_disk _). Qed.

Lemma plan_to_software_nonempty : (plan_to_software self) ≠ [].
Proof.
  unfold plan_to_software. intros H. apply app_eq_nil in H as [H _].
  by apply format_plan_nonempty.
Qed.

Lemma reports_install_steps disk :
  reports (install_steps self record_progress disk) (full_plan self) anything.
Proof.
  unfold install_steps, full_plan.
  apply reports_after_silent; [silent_solve | intros is_efi | right; done].
  apply reports_seq; [apply reports_partition_and_format | intros p | right; done].
  apply reports_setup; [|right; done].
  apply (reports_seq _ _ [88]); [apply reports_install_software | intros _ | right; done].
  apply (reports_seq _ _ [90]); [apply reports_install_bootloader | intros _ | right; done].
  apply reports_finalize.
Qed.

Lemma reports_run_install :
  reports (run_install self record_progress) (full_plan self) anything.
Proof.
  unfold run_install.
  apply reports_after_silent; [apply silent_validate_ready | intros _ | right; done].
  apply reports_after_silent; [silent_solve | intros euid | right; done].
  destruct (_ && _); [by apply reports_raise; right|].
  destruct (target_disk _); [apply reports_install_steps | by apply reports_raise; right].
Qed.

(** *** When no native package is selected *)

Hypothesis no_packages :
  Software.arch_packages_for_selection (Software.selection_from_config cfg) = [].

Lemma reports_install_software_unbound :
  reports (install_software self record_progress) [88]
          (λ r, r = Raise (UnboundLocalError "flatpaks")).
Proof using no_packages.
  unfold install_software. fold cfg. rewrite no_packages.
  apply reports_step. intros w tr. exists []. simpl.
  split; [by rewrite app_nil_r|]. split; [apply prefix_nil|]. by split.
Qed.

Lemma reports_install_steps_unbound disk :
  reports (install_steps self record_progress disk) (plan_to_software self)
          (λ r, r = Raise (UnboundLocalError "flatpaks")).
Proof using no_packages.
  unfold install_steps, plan_to_software.
  apply reports_after_silent;
    [silent_solve | intros is_efi | left; apply plan_to_software_nonempty].
  apply reports_seq; [apply reports_partition_and_format | intros p | left; discriminate].
  apply reports_setup; [|left; discriminate].
  apply reports_stuck, reports_install_software_unbound.
Qed.

Lemma reports_run_install_unbound :
  reports (run_install self record_progress) (plan_to_software self)
          (λ r, r = Raise (UnboundLocalError "flatpaks")).
Proof using no_packages.
  pose proof plan_to_software_nonempty as Hne.
  unfold run_install.
  apply reports_after_silent; [apply silent_validate_ready | intros _ | by left].
  apply reports_after_silent; [silent_solve | intros euid | by left].
  destruct (_ && _); [by apply reports_raise; left|].
  destruct (target_disk _); [apply reports_install_steps_unbound | by apply reports_raise; left].
Qed.

End Phases.

(** ** The command executor *)

Lemma command_result_eta cp :
  mkCommandResult (returncode cp) (stdout cp) (stderr cp) = cp.
Proof. by destruct cp. Qed.

(** What [run] does once the process is really started. *)
Lemma run_real ex args check cwd allow input w tr :
  dry_run ex && negb allow = false →
  let cmd := PyStr.join " " (map shlex_quote args) in
  let tr1 := tr ++ [EvLog INFO ("$ " +:+ cmd)] in
  run ex args check cwd allow input w tr =
  match subprocess_run w tr1 args cwd input with
  | Raise e => (Raise e, tr1 ++ [EvSpawn args cwd input])
  | Ok cp =>
      if check && negb (returncode cp =? 0) then
        (Raise (RuntimeError
                  ("Command failed (" +:+ PyStr.of_Z (returncode cp) +:+ "): " +:+ cmd)),
         (tr1 ++ [EvSpawn args cwd input])
         ++ [EvLog ERROR
               ("Command failed (" +:+ PyStr.of_Z (returncode cp) +:+ "): " +:+ cmd
                +:+ PyStr.nl +:+ "STDOUT:" +:+ PyStr.nl +:+ stdout cp
                +:+ PyStr.nl +:+ "STDERR:" +:+ PyStr.nl +:+ stderr cp)])
      else (Ok cp, tr1 ++ [EvSpawn args cwd input])
  end.
Proof.
  intros Hreal cmd tr1. unfold run. rewrite Hreal. fold cmd.
  rewrite bind_run. simpl. fold tr1. rewrite bind_run. unfold perform.
  destruct (subprocess_run w tr1 args cwd input) as [cp|e]; [|done].
  destruct (check && negb (returncode cp =? 0)); simpl; [done|].
  by rewrite command_result_eta.
Qed.

(** C4.  In dry-run mode a command that is not allowed in dry-run starts no
    process: [run] only logs the quoted command line and returns the synthetic
    result with return code 0 and empty streams.  With [allow_in_dry_run] the
    process is started even in dry-run mode, and [run] behaves exactly as the
    executor without dry-run does. *)
Theorem run_in_dry_run_mode (args : list string) (check : bool)
    (cwd input : option string) (w : World) (tr : trace) :
  let cmd := PyStr.join " " (map shlex_quote args) in
  run (mkCommandExecutor true) args check cwd false input w tr
    = (Ok (mkCommandResult 0 EmptyString EmptyString),
       tr ++ [EvLog INFO ("[DRY-RUN] " +:+ cmd)])
  ∧ (∃ rest,
       (run (mkCommandExecutor true) args check cwd true input w tr).2
       = tr ++ [EvLog INFO ("$ " +:+ cmd); EvSpawn args cwd input] ++ rest)
  ∧ run (mkCommandExecutor true) args check cwd true input w tr
    = run (mkCommandExecutor false) args check cwd true input w tr.
Proof.
  intros cmd. split; [done|]. split; [|done].
  rewrite run_real by done. fold cmd.
  destruct (subprocess_run _ _ _ _ _) as [cp|e].
  - destruct (check && _); eexists; simpl; rewrite <- !(assoc_L (++)); simpl.
    + reflexivity.
    + by instantiate (1 := []).
  - exists []. simpl. by rewrite <- !(assoc_L (++)).
Qed.

(** C5 as stated fails: the exception raised for a failed command is a
    [RuntimeError] whose only payload is its message; two failures that differ
    only in their captured streams raise the same exception, so no reader of
    the exception can recover the streams. *)
Lemma run_failure_does_not_carry_streams :
  ¬ ∃ streams_of : exn → string * string,
      ∀ cp e,
        (run (mkCommandExecutor false) ["false"] true None false None
             (world_answering cp) []).1 = Raise e →
        streams_of e = (stdout cp, stderr cp).
Proof.
  intros [streams_of H].
  pose proof (H (mkCommandResult 1 "out" "err") _ eq_refl) as H1.
  pose proof (H (mkCommandResult 1 EmptyString EmptyString) _ eq_refl) as H2.
  simpl in H1, H2. rewrite H1 in H2. discriminate.
Qed.

(** C5, amended.  When the process is really run and ends with the result
    [cp]: with [check] and a non-zero return code, [run] logs the failure with
    both streams at error level and raises [RuntimeError] with the message
    [Command failed (<returncode>): <quoted command line>]; without [check] it
    never raises on a non-zero return code and returns [cp] itself.  (A
    simulated command always has return code 0.) *)
Theorem run_check_semantics ex args cwd allow input w tr cp :
  dry_run ex && negb allow = false →
  let cmd := PyStr.join " " (map shlex_quote args) in
  subprocess_run w (tr ++ [EvLog INFO ("$ " +:+ cmd)]) args cwd input = Ok cp →
  (returncode cp ≠ 0 →
     run ex args true cwd allow input w tr
     = (Raise (RuntimeError
                 ("Command failed (" +:+ PyStr.of_Z (returncode cp) +:+ "): " +:+ cmd)),
        tr ++ [EvLog INFO ("$ " +:+ cmd); EvSpawn args cwd input;
               EvLog ERROR
                 ("Command failed (" +:+ PyStr.of_Z (returncode cp) +:+ "): " +:+ cmd
                  +:+ PyStr.nl +:+ "STDOUT:" +:+ PyStr.nl +:+ stdout cp
                  +:+ PyStr.nl +:+ "STDERR:" +:+ PyStr.nl +:+ stderr cp)]))
  ∧ run ex args false cwd allow input w tr
    = (Ok cp, tr ++ [EvLog INFO ("$ " +:+ cmd); EvSpawn args cwd input]).
Proof.
  intros Hreal cmd Hcp. split.
  - intros Hrc. rewrite run_real by done. fold cmd. rewrite Hcp. simpl.
    destruct (Z.eqb_spec (returncode cp) 0) as [|_]; [done|]. simpl.
    by rewrite <- !(assoc_L (++)).
  - rewrite run_real by done. fold cmd. rewrite Hcp. simpl.
    by rewrite <- !(assoc_L (++)).
Qed.

Lemma run_check_semantics_witness :
  let w := world_answering (mkCommandResult 1 "out" "err") in
  run (mkCommandExecutor false) ["false"] true None false None w []
  = (Raise (RuntimeError "Command failed (1): false"),
     [EvLog INFO "$ false"; EvSpawn ["false"] None None;
      EvLog ERROR ("Command failed (1): false" +:+ PyStr.nl +:+ "STDOUT:" +:+ PyStr.nl
                   +:+ "out" +:+ PyStr.nl +:+ "STDERR:" +:+ PyStr.nl +:+ "err")])
  ∧ run (mkCommandExecutor false) ["false"] false None false None w []
    = (Ok (mkCommandResult 1 "out" "err"),
       [EvLog INFO "$ false"; EvSpawn ["false"] None None]).
Proof.
  intros w.
  destruct (run_check_semantics (mkCommandExecutor false) ["false"] None false None
              w [] (mkCommandResult 1 "out" "err") eq_refl eq_refl) as [Hfail Hok].
  split; [apply Hfail; discriminate | apply Hok].
Defined.

(** ** Validation and the privilege check *)

Lemma truthy_false s : PyStr.truthy s = false ↔ s = EmptyString.
Proof. by destruct s. Qed.

Lemma truthy_true s : PyStr.truthy s = true ↔ s ≠ EmptyString.
Proof. by destruct s. Qed.

(** [validate_ready] changes nothing. *)
Lemma validate_ready_trace self w tr : (validate_ready self w tr).2 = tr.
Proof.
  unfold validate_ready.
  repeat (rewrite ?bind_run; simpl; try done;
          match goal with |- context [if ?b then _ else _] => destruct b end).
Qed.

(** C6.  [validate_ready] raises [ValueError] when the target disk is unset
    (or empty); when the disk is not erased and the root partition is empty;
    when the disk is not erased, the firmware directory exists and no EFI
    partition is chosen; and when the password is empty.  It returns normally
    for a manual configuration with target disk, root partition, EFI partition
    and password all set. *)
Theorem validate_ready_spec (self : InstallerEngine) (w : World) (tr : trace) :
  let cfg := install (_config self) in
  let fails := ∃ msg, validate_ready self w tr = (Raise (ValueError msg), tr) in
  (PyStr.truthy_opt (target_disk cfg) = false → fails)
  ∧ (erase_disk cfg = false → root_partition cfg = EmptyString → fails)
  ∧ (erase_disk cfg = false → path_exists w tr efi_firmware_dir = true →
     efi_partition cfg = EmptyString → fails)
  ∧ (password cfg = EmptyString → fails)
  ∧ (PyStr.truthy_opt (target_disk cfg) = true → erase_disk cfg = false →
     root_partition cfg ≠ EmptyString → efi_partition cfg ≠ EmptyString →
     password cfg ≠ EmptyString →
     validate_ready self w tr = (Ok tt, tr)).
Proof.
  intros cfg fails. unfold fails, validate_ready. fold cfg.
  repeat split.
  - intros ->. by eexists.
  - intros -> ->. destruct (PyStr.truthy_opt _); by eexists.
  - intros -> Hefi ->.
    destruct (PyStr.truthy_opt _); simpl; [|by eexists].
    destruct (PyStr.truthy (root_partition cfg)); simpl; [|by eexists].
    rewrite !bind_run. unfold exists_path, ask. rewrite Hefi. by eexists.
  - intros ->.
    destruct (PyStr.truthy_opt _); simpl; [|by eexists].
    rewrite bind_run.
    destruct (erase_disk cfg); simpl; [by eexists|].
    destruct (PyStr.truthy (root_partition cfg)); simpl; [|by eexists].
    rewrite bind_run. unfold exists_path, ask. simpl.
    destruct (path_exists w tr efi_firmware_dir && _); by eexists.
  - intros -> -> Hroot%truthy_true Hefi%truthy_true Hpw%truthy_true.
    simpl. rewrite Hroot. simpl. rewrite !bind_run. unfold exists_path, ask.
    rewrite Hefi, Hpw. simpl. by rewrite andb_false_r.
Qed.

Lemma validate_ready_spec_witness :
  (∃ msg, validate_ready (dry_run_engine default_install) uefi_host []
          = (Raise (ValueError msg), []))
  ∧ validate_ready (dry_run_engine manual_install) uefi_host [] = (Ok tt, []).
Proof.
  split.
  - apply (validate_ready_spec (dry_run_engine default_install) uefi_host []).
    reflexivity.
  - apply (validate_ready_spec (dry_run_engine manual_install) uefi_host []);
      [reflexivity | reflexivity | discriminate | discriminate | discriminate].
Defined.

(** C9.  When the configuration passes validation, the effective user is not
    root and the executor is not in dry-run mode, [run_install] raises
    [PermissionError] at once: the trace is left as it was, so no command has
    been run, nothing has been written and no progress has been reported. *)
Theorem run_install_requires_root (self : InstallerEngine) (cb : callback)
    (w : World) (tr : trace) :
  (validate_ready self w tr).1 = Ok tt →
  os_geteuid w tr ≠ 0 →
  dry_run (_executor self) = false →
  run_install self cb w tr
  = (Raise (PermissionError "Installer must be run as root (or use --dry-run)"), tr).
Proof.
  intros Hvalid Heuid Hdry. unfold run_install.
  rewrite bind_run.
  pose proof (validate_ready_trace self w tr) as Htr.
  destruct (validate_ready self w tr) as [[[]|e] tr']; simpl in *; [subst tr'|done].
  rewrite bind_run. unfold ask. rewrite Hdry.
  destruct (Z.eqb_spec (os_geteuid w tr) 0); done.
Qed.

Lemma run_install_requires_root_witness :
  run_install (real_engine manual_install) record_progress uefi_host []
  = (Raise (PermissionError "Installer must be run as root (or use --dry-run)"), []).
Proof.
  apply (run_install_requires_root (real_engine manual_install) record_progress
           uefi_host []); [reflexivity | discriminate | reflexivity].
Defined.

(** ** Partition names *)

Lemma startswith_spec p s :
  PyStr.startswith p s = true ↔ ∃ rest, s = p +:+ rest.
Proof.
  revert s. induction p as [|a p IH]; intros s; simpl.
  - split; [by exists s | done].
  - destruct s as [|b s].
    + split; [done | by intros [rest ?]].
    + destruct (Ascii.eqb_spec a b) as [->|Hab].
      * rewrite IH. split; intros [rest H]; exists rest; [by rewrite H | by inversion H].
      * split; [done | intros [rest H]; by inversion H].
Qed.

Lemma contains_spec needle s :
  PyStr.contains needle s = true ↔ is_substring needle s.
Proof.
  unfold is_substring. induction s as [|c s IH]; simpl.
  - rewrite orb_false_r, startswith_spec. split.
    + intros [rest H]. by exists EmptyString, rest.
    + intros ([|? before] & after & H); [by exists after | done].
  - rewrite orb_true_iff, startswith_spec, IH. split.
    + intros [[rest H] | (before & after & H)].
      * by exists EmptyString, rest.
      * exists (String c before), after. simpl. by rewrite H.
    + intros ([|c' before] & after & H).
      * left. by exists after.
      * right. exists before, after. simpl in H. by inversion H.
Qed.

Lemma append_assoc (a b c : string) : (a +:+ b) +:+ c = a +:+ b +:+ c.
Proof.
  induction a as [|x a IH]; [done|].
  change (String x ((a +:+ b) +:+ c) = String x (a +:+ b +:+ c)). by f_equal.
Qed.

Lemma predicted_partitions_derive disk :
  predicted_partitions disk
  = (derive_partition_name disk 1, derive_partition_name disk 2).
Proof.
  unfold derive_partition_name, _disk_prefix, predicted_partitions.
  destruct (_ || _); by rewrite ?append_assoc.
Qed.

(** The erase-disk flow formats exactly the partitions of index 1 and 2. *)
Lemma erase_disk_formats_predicted_partitions disk w tr :
  (partition_and_format (dry_run_engine erase_sda_install) None disk w tr).1
  = Ok (mkParts (derive_partition_name disk 2)
                (Some (derive_partition_name disk 1)) None None).
Proof.
  unfold partition_and_format. simpl.
  rewrite predicted_partitions_derive. reflexivity.
Qed.

(** The naming rule.  The partition [index] of [disk] is named [<disk>p<index>] when
    [disk] contains [nvme] or [mmcblk], and [<disk><index>] otherwise; so
    [/dev/sda] and 1 give [/dev/sda1], [/dev/nvme0n1] and 2 give
    [/dev/nvme0n1p2]; and the names the erase-disk flow predicts for the EFI and
    root partitions are those of index 1 and 2. *)
Lemma derive_partition_name_rule (disk : string) (index : Z) :
  ((is_substring "nvme" disk ∨ is_substring "mmcblk" disk) →
     derive_partition_name disk index = disk +:+ "p" +:+ PyStr.of_Z index)
  ∧ (¬ (is_substring "nvme" disk ∨ is_substring "mmcblk" disk) →
     derive_partition_name disk index = disk +:+ PyStr.of_Z index)
  ∧ derive_partition_name "/dev/sda" 1 = "/dev/sda1"
  ∧ derive_partition_name "/dev/nvme0n1" 2 = "/dev/nvme0n1p2"
  ∧ predicted_partitions disk
    = (derive_partition_name disk 1, derive_partition_name disk 2).
Proof.
  split; [|split; [|split; [done|split; [done|apply predicted_partitions_derive]]]];
    unfold derive_partition_name, _disk_prefix;
    rewrite <- !contains_spec, <- orb_true_iff.
  - intros ->. by rewrite append_assoc.
  - intros H%not_true_is_false. by rewrite H.
Qed.

(** ** The software planner *)

Section KeepFirst.

Implicit Types (l : list string) (x : string).

Lemma keep_first_filter (P : string → Prop) `{∀ x, Decision (P x)} l :
  keep_first (filter P l) = filter P (keep_first l).
Proof.
  induction l as [|x l IH]; [done|]. simpl keep_first.
  destruct (decide (P x)) as [Hx|Hx].
  - rewrite !filter_cons_True by done. simpl. f_equal.
    rewrite IH, !list_filter_filter. apply list_filter_iff. intros y. tauto.
  - rewrite !filter_cons_False by done.
    rewrite IH, list_filter_filter. apply list_filter_iff.
    intros y. split; [|tauto]. intros Hy. split; [done|]. by intros ->.
Qed.

Lemma elem_of_keep_first l x : x ∈ keep_first l ↔ x ∈ l.
Proof.
  induction l as [|y l IH]; [done|]. simpl.
  rewrite !elem_of_cons, list_elem_of_filter, IH.
  destruct (decide (x = y)); tauto.
Qed.

Lemma NoDup_keep_first l : NoDup (keep_first l).
Proof.
  induction l as [|y l IH]; simpl; [constructor|].
  apply NoDup_cons. split; [|by apply NoDup_filter].
  rewrite list_elem_of_filter. by intros [Hne _].
Qed.

Lemma keep_first_app l1 l2 :
  keep_first (l1 ++ l2) = keep_first l1 ++ filter (λ y, y ∉ l1) (keep_first l2).
Proof.
  induction l1 as [|a l1 IH]; simpl.
  - symmetry. induction (keep_first l2) as [|y k IHk]; [done|].
    rewrite filter_cons_True by apply not_elem_of_nil. by f_equal.
  - f_equal. rewrite IH, filter_app. f_equal.
    rewrite list_filter_filter. apply list_filter_iff.
    intros y. rewrite not_elem_of_cons. tauto.
Qed.

(** The loop of the source computes [keep_first]. *)
Lemma dedupe_loop l (seen : gset string) (out : list string) :
  (foldl dedupe_step (seen, out) l).2
  = out ++ keep_first (filter (λ y, y ∉ seen) l).
Proof.
  revert seen out. induction l as [|x l IH]; intros seen out; simpl.
  - by rewrite app_nil_r.
  - unfold dedupe_step at 2. simpl. case_bool_decide as Hx.
    + rewrite IH, filter_cons_False; [done|]. by intros [].
    + rewrite IH, filter_cons_True by done. simpl.
      rewrite <- (assoc_L (++)). simpl. do 2 f_equal.
      rewrite <- keep_first_filter, list_filter_filter.
      f_equal. apply list_filter_iff. intros y.
      rewrite not_elem_of_union, not_elem_of_singleton. tauto.
Qed.

Lemma dedupe_stable_keep_first l : dedupe_stable l = keep_first l.
Proof.
  unfold dedupe_stable. rewrite dedupe_loop. simpl. f_equal.
  induction l as [|y l IH]; [done|].
  rewrite filter_cons_True by set_solver. by f_equal.
Qed.

Lemma dedupe_stable_first_occurrences l : first_occurrences l (dedupe_stable l).
Proof.
  rewrite dedupe_stable_keep_first. unfold first_occurrences.
  split; [apply NoDup_keep_first|].
  split; [apply elem_of_keep_first|].
  split; [done|].
  intros l1 x l2 -> Hx. rewrite keep_first_app. simpl.
  rewrite filter_cons_True by done.
  eexists. split; [reflexivity|].
  rewrite !list_elem_of_filter. by intros (_ & Hne & _).
Qed.

End KeepFirst.

Lemma arch_packages_gated sel :
  Software.arch_packages_for_selection (gated sel)
  = Software.arch_packages_for_selection sel.
Proof.
  unfold Software.arch_packages_for_selection, Software.arch_packages_raw, gated.
  simpl.
  by destruct (Software.gamers sel), (Software.creators sel),
    (Software.accountants sel), (Software.developers sel).
Qed.

Lemma flatpak_appids_gated sel :
  Software.flatpak_appids_for_selection (gated sel)
  = Software.flatpak_appids_for_selection sel.
Proof.
  unfold Software.flatpak_appids_for_selection, Software.flatpak_appids_raw, gated.
  simpl.
  by destruct (Software.gamers sel), (Software.creators sel),
    (Software.accountants sel), (Software.developers sel).
Qed.

(** C8.  Both planners are functions of the selection: equal selections
    give identical lists.  Each list has no duplicate and holds the
    identifiers contributed by the flags, every one at the place of its first
    occurrence.  A sub-flag contributes nothing unless its bundle flag is set:
    selections that agree once every sub-flag is masked by its bundle flag get
    the same lists. *)
Theorem software_planner_spec (sel sel' : Software.SoftwareSelection) :
  (sel = sel' →
     Software.arch_packages_for_selection sel = Software.arch_packages_for_selection sel'
     ∧ Software.flatpak_appids_for_selection sel
       = Software.flatpak_appids_for_selection sel')
  ∧ first_occurrences (Software.arch_packages_raw sel)
                      (Software.arch_packages_for_selection sel)
  ∧ first_occurrences (Software.flatpak_appids_raw sel)
                      (Software.flatpak_appids_for_selection sel)
  ∧ (gated sel = gated sel' →
     Software.arch_packages_for_selection sel = Software.arch_packages_for_selection sel'
     ∧ Software.flatpak_appids_for_selection sel
       = Software.flatpak_appids_for_selection sel').
Proof.
  split; [by intros ->|].
  split; [apply dedupe_stable_first_occurrences|].
  split; [apply dedupe_stable_first_occurrences|].
  intros H.
  rewrite <- (arch_packages_gated sel), <- (flatpak_appids_gated sel), H.
  by rewrite arch_packages_gated, flatpak_appids_gated.
Qed.

Lemma software_planner_spec_witness :
  Software.arch_packages_for_selection wine_without_gamers
  = Software.arch_packages_for_selection developer_tools
  ∧ Software.flatpak_appids_for_selection wine_without_gamers
    = Software.flatpak_appids_for_selection developer_tools.
Proof.
  split.
  - apply (software_planner_spec wine_without_gamers developer_tools). reflexivity.
  - pose proof (software_planner_spec developer_tools developer_tools) as [H _].
    destruct (H eq_refl) as [_ H']. exact H'.
Defined.

(** ** The mount table *)

Lemma append_empty_r (s : string) : s +:+ EmptyString = s.
Proof.
  induction s as [|c s IH]; [done|].
  change (String c (s +:+ EmptyString) = String c s). by f_equal.
Qed.

Lemma get_truthy_metadata_value info key :
  get_truthy info key = metadata_value info key.
Proof.
  unfold get_truthy, metadata_value.
  destruct (info !! key) as [[|c v]|]; [|done|done].
  by destruct (decide _).
Qed.

Lemma provided_truthy part :
  provided part
  = match part with
    | Some dev => if PyStr.truthy dev then Some dev else None
    | None => None
    end.
Proof.
  unfold provided. destruct part as [[|c dev]|]; [|done|done].
  by destruct (decide _).
Qed.

Section StableBlkid.

Variables (w : World) (answer : string → CommandResult) (ex : CommandExecutor).
Hypothesis stable : stable_blkid w answer.

Let meta (dev : string) : gmap string string := blkid_info (answer dev).

Lemma yields_ret {A} (a : A) : yields w (mret a) a.
Proof. intros tr. by exists tr. Qed.

Lemma yields_bind {A B} (m : M A) (f : A → M B) a b :
  yields w m a → yields w (f a) b → yields w (m ≫= f) b.
Proof.
  intros Hm Hf tr. destruct (Hm tr) as [tr1 E1]. destruct (Hf tr1) as [tr2 E2].
  exists tr2. by rewrite (bind_ok _ _ _ _ _ _ E1).
Qed.

Lemma yields_eq {A} (m : M A) a b : yields w m a → a = b → yields w m b.
Proof. by intros H <-. Qed.

Lemma yields_blkid_export dev : yields w (_blkid_export ex dev) (meta dev).
Proof using stable.
  intros tr. unfold _blkid_export. rewrite bind_run.
  rewrite run_real by apply andb_false_r. rewrite stable. simpl. by eexists.
Qed.

Lemma yields_fstype dev fallback :
  yields w (_fstype ex dev fallback) (table_fstype (meta dev) fallback).
Proof using stable.
  unfold _fstype. eapply yields_bind; [apply yields_blkid_export|].
  eapply yields_eq; [apply yields_ret|].
  unfold table_fstype. rewrite get_truthy_metadata_value.
  by destruct (metadata_value _ _).
Qed.

Lemma yields_devref dev : yields w (devref ex dev) (table_ref (meta dev) dev).
Proof using stable.
  unfold devref, _fstab_ident.
  eapply yields_bind; [eapply yields_bind; [apply yields_blkid_export|apply yields_ret]|].
  unfold ident_of_info, table_ref. rewrite !get_truthy_metadata_value.
  destruct (metadata_value _ "PARTUUID"); [apply yields_ret|].
  destruct (metadata_value _ "UUID"); apply yields_ret.
Qed.

(** Runs a chain of binds whose links are known to return. *)
Ltac yields_go :=
  cbv beta;
  lazymatch goal with
  | |- yields _ (_ ≫= _) _ => eapply yields_bind; [yields_go | yields_go]
  | |- yields _ (_fstype _ _ _) _ => apply yields_fstype
  | |- yields _ (devref _ _) _ => apply yields_devref
  | |- yields _ (mret _) _ => apply yields_ret
  end.

Lemma yields_build_fstab_content root efi home swap :
  yields w (build_fstab_content ex root efi home swap)
         (mount_table meta root efi home swap).
Proof using stable.
  unfold build_fstab_content, mount_table. rewrite !provided_truthy.
  eapply yields_bind; [apply yields_fstype|].
  eapply yields_bind; [apply yields_devref|].
  destruct efi as [efi|], home as [home|], swap as [swap|]; simpl;
    repeat match goal with
           | |- context [PyStr.truthy ?s] => destruct (PyStr.truthy s)
           end;
    (eapply yields_eq;
     [ yields_go
     | unfold table_line; simpl; by rewrite ?append_empty_r, ?append_assoc ]).
Qed.

End StableBlkid.

Lemma abcd_world_stable : stable_blkid abcd_world abcd_answer.
Proof. by intros tr dev. Qed.

(** C3.  When [blkid] answers the same for a device each time it is asked,
    [build_fstab_content] returns the mount table of the specification: the
    root line, then one line for each of the EFI, home and swap partitions
    that is provided, each with its reference ([PARTUUID=], else [UUID=], else
    the device path) and its file-system type or the fallback.  With
    [PARTUUID=ABCD] known for [/dev/sda2] only, root [/dev/sda2] and EFI
    [/dev/sda1] give exactly the two lines of the specification. *)
Theorem build_fstab_content_spec (ex : CommandExecutor) (w : World) (tr : trace)
    (answer : string → CommandResult) (root : string) (efi home swap : option string) :
  (stable_blkid w answer →
   (build_fstab_content ex root efi home swap w tr).1
   = Ok (mount_table (λ dev, blkid_info (answer dev)) root efi home swap))
  ∧ (build_fstab_content ex "/dev/sda2" (Some "/dev/sda1") None None abcd_world tr).1
    = Ok ("PARTUUID=ABCD / ext4 defaults 0 1" +:+ PyStr.nl
          +:+ "/dev/sda1 /boot/efi vfat umask=0077 0 1" +:+ PyStr.nl).
Proof.
  split.
  - intros Hst.
    destruct (yields_build_fstab_content w answer ex Hst root efi home swap tr)
      as [tr' ->].
    done.
  - destruct (yields_build_fstab_content abcd_world abcd_answer ex abcd_world_stable
                "/dev/sda2" (Some "/dev/sda1") None None tr) as [tr' ->].
    by vm_compute.
Qed.

Lemma build_fstab_content_spec_witness :
  (build_fstab_content (mkCommandExecutor true) "/dev/sda2" (Some "/dev/sda1")
     (Some "/dev/sda3") (Some "/dev/sda4") abcd_world []).1
  = Ok (mount_table (λ dev, blkid_info (abcd_answer dev)) "/dev/sda2"
          (Some "/dev/sda1") (Some "/dev/sda3") (Some "/dev/sda4")).
Proof.
  apply (build_fstab_content_spec (mkCommandExecutor true) abcd_world [] abcd_answer
           "/dev/sda2" (Some "/dev/sda1") (Some "/dev/sda3") (Some "/dev/sda4")).
  intros tr dev. reflexivity.
Defined.

(** ** Runs in which nothing goes wrong *)

Section Cooperative.

Variable w : World.
Hypothesis coop : cooperative w.

Lemma passes_ret {A} (a : A) : passes w (mret a).
Proof. by intros tr. Qed.

Lemma passes_ask {A} (q : World → trace → A) : passes w (ask q).
Proof. by intros tr. Qed.

Lemma passes_emit e : passes w (emit e).
Proof. by intros tr. Qed.

Lemma passes_bind {A B} (m : M A) (f : A → M B) :
  passes w m → (∀ a, passes w (f a)) → passes w (m ≫= f).
Proof.
  intros Hm Hf tr. rewrite bind_run. specialize (Hm tr).
  destruct (m w tr) as [[a|e] tr1]; [apply Hf | done].
Qed.

Lemma passes_fs op : passes w (fs op).
Proof using coop. intros tr. unfold fs, perform. simpl. by rewrite (proj1 coop). Qed.

Lemma passes_read_text p : passes w (try_ask (λ w tr, path_read_text w tr p)).
Proof using coop. intros tr. apply coop. Qed.

Lemma passes_run ex args check cwd allow input :
  passes w (run ex args check cwd allow input).
Proof using coop.
  intros tr. unfold run. destruct (dry_run ex && negb allow); [done|].
  rewrite !bind_run. simpl. rewrite bind_run. unfold perform.
  destruct coop as (_ & _ & Hrun).
  destruct (Hrun (tr ++ [EvLog INFO
                           ("$ " +:+ PyStr.join " " (map shlex_quote args))])
              args cwd input) as (cp & -> & Hrc).
  rewrite Hrc. by rewrite andb_false_r.
Qed.

Lemma passes_for_each {A} (l : list A) (body : A → M unit) :
  (∀ x, passes w (body x)) → passes w (for_each l body).
Proof.
  intros Hb. induction l as [|x l IH]; simpl; [apply passes_ret|].
  apply passes_bind; [apply Hb | intros _; apply IH].
Qed.

Lemma passes_if_truthy o body :
  (∀ s, passes w (body s)) → passes w (if_truthy o body).
Proof.
  intros Hb. destruct o as [s|]; simpl; [|apply passes_ret].
  destruct (PyStr.truthy s); [apply Hb | apply passes_ret].
Qed.

Lemma passes_step pct msg : passes w (step record_progress pct msg).
Proof. by intros tr. Qed.

(** Splits a goal [passes w m] along the binds and branches of [m]. *)
Ltac passes_go :=
  lazymatch goal with
  | |- passes _ (_ ≫= _) => apply passes_bind; [|intros ?]
  | |- passes _ (mret _) => apply passes_ret
  | |- passes _ (ask _) => apply passes_ask
  | |- passes _ (exists_path _) => apply passes_ask
  | |- passes _ (log_info _) => apply passes_emit
  | |- passes _ (fs _) => apply passes_fs
  | |- passes _ (try_ask _) => apply passes_read_text
  | |- passes _ (run _ _ _ _ _ _) => apply passes_run
  | |- passes _ (run_checked _ _) => apply passes_run
  | |- passes _ (run_unchecked _ _) => apply passes_run
  | |- passes _ (step record_progress _ _) => apply passes_step
  | |- passes _ (for_each _ _) => apply passes_for_each; intros ?
  | |- passes _ (if_truthy _ _) => apply passes_if_truthy; intros ?
  | |- passes _ (if ?b then _ else _) => destruct b
  | |- passes _ (match ?x with _ => _ end) => destruct x
  | |- passes _ (let _ := _ in _) => cbv zeta
  end.

Variable self : InstallerEngine.

Lemma passes_blkid_export ex dev : passes w (_blkid_export ex dev).
Proof using coop. unfold _blkid_export. repeat passes_go. Qed.

Lemma passes_build_fstab_content ex root efi home swap :
  passes w (build_fstab_content ex root efi home swap).
Proof using coop.
  unfold build_fstab_content, _fstype, devref, _fstab_ident.
  repeat first [apply passes_blkid_export | passes_go].
Qed.

Lemma passes_partition_and_format disk :
  passes w (partition_and_format self record_progress disk).
Proof using coop. unfold partition_and_format. repeat passes_go. Qed.

Lemma passes_mount_target p : passes w (mount_target self record_progress p).
Proof using coop. unfold mount_target. repeat passes_go. Qed.

Lemma passes_copy_system : passes w (copy_system self record_progress).
Proof using coop. unfold copy_system. repeat passes_go. Qed.

Lemma passes_write_fstab p : passes w (write_fstab self record_progress p).
Proof using coop.
  unfold write_fstab, _write_fstab.
  repeat first [apply passes_build_fstab_content | passes_go].
Qed.

Lemma passes_prepare_chroot : passes w (prepare_chroot self record_progress).
Proof using coop. unfold prepare_chroot. repeat passes_go. Qed.

Lemma passes_configure_system : passes w (configure_system self record_progress).
Proof using coop. unfold configure_system. repeat passes_go. Qed.

Lemma passes_configure_locale : passes w (configure_locale self record_progress).
Proof using coop. unfold configure_locale. repeat passes_go. Qed.

Lemma passes_configure_network : passes w (configure_network self record_progress).
Proof using coop. unfold configure_network. repeat passes_go. Qed.

Lemma passes_create_user : passes w (create_user self record_progress).
Proof using coop. unfold create_user. repeat passes_go. Qed.

Lemma stops_after {A B} (m : M A) (f : A → M B) :
  passes w m → (∀ a, stops_at_software w (f a)) → stops_at_software w (m ≫= f).
Proof.
  intros Hm Hf tr. rewrite bind_run. specialize (Hm tr).
  destruct (m w tr) as [[a|e] tr1]; [apply Hf | done].
Qed.

Hypothesis no_packages :
  Software.arch_packages_for_selection
    (Software.selection_from_config (install (_config self))) = [].

Lemma stops_install_software {B} (k : M B) :
  stops_at_software w (install_software self record_progress ;; k).
Proof using no_packages.
  intros tr. unfold install_software. rewrite no_packages.
  rewrite !bind_run. simpl. split; [done|].
  rewrite percentages_app. apply elem_of_app. right. by left.
Qed.

Lemma stops_install_steps disk :
  stops_at_software w (install_steps self record_progress disk).
Proof using coop no_packages.
  unfold install_steps.
  apply stops_after; [apply passes_ask | intros is_efi].
  apply stops_after; [apply passes_partition_and_format | intros p].
  apply stops_after; [apply passes_mount_target | intros _].
  apply stops_after; [apply passes_copy_system | intros _].
  apply stops_after; [apply passes_write_fstab | intros _].
  apply stops_after; [apply passes_prepare_chroot | intros _].
  apply stops_after; [apply passes_configure_system | intros _].
  apply stops_after; [apply passes_configure_locale | intros _].
  apply stops_after; [apply passes_configure_network | intros _].
  apply stops_after; [apply passes_create_user | intros _].
  apply stops_install_software.
Qed.

End Cooperative.

(** ** The plan of a run *)

Lemma prefix_reaching_last (l L : list Z) (x : Z) :
  l `prefix_of` L ++ [x] → x ∈ l → x ∉ L → l = L ++ [x].
Proof.
  revert l. induction L as [|a L IH]; intros l Hpre Hin Hnot.
  - destruct l as [|b l]; [by apply elem_of_nil in Hin|].
    destruct Hpre as [k Hk]. simpl in Hk. inversion Hk as [[Hb Hl]].
    symmetry in Hl. apply app_eq_nil in Hl as [-> _]. done.
  - destruct l as [|b l]; [by apply elem_of_nil in Hin|].
    pose proof (prefix_cons_inv_1 _ _ _ _ Hpre) as ->.
    apply prefix_cons_inv_2 in Hpre.
    apply not_elem_of_cons in Hnot as [Hne Hnot].
    apply elem_of_cons in Hin as [Hin|Hin]; [done|].
    simpl. f_equal. by apply IH.
Qed.

Lemma full_plan_sorted self : StronglySorted Z.le (full_plan self).
Proof.
  unfold full_plan, format_plan, setup_plan.
  destruct (erase_disk _); simpl;
    repeat (apply SSorted_cons; [|repeat constructor; lia]); constructor.
Qed.

Lemma full_plan_range self : Forall (λ p, 0 ≤ p ≤ 100) (full_plan self).
Proof.
  unfold full_plan, format_plan, setup_plan.
  destruct (erase_disk _); simpl; repeat constructor; lia.
Qed.

Lemma plan_to_software_bound self p : p ∈ plan_to_software self → p ≤ 88.
Proof.
  unfold plan_to_software, format_plan, setup_plan.
  destruct (erase_disk _); simpl; rewrite !elem_of_cons, elem_of_nil; lia.
Qed.

Lemma plan_to_software_last self :
  plan_to_software self = (format_plan self ++ setup_plan) ++ [88]
  ∧ 88 ∉ format_plan self ++ setup_plan.
Proof.
  unfold plan_to_software. split; [by rewrite (assoc_L (++))|].
  unfold format_plan, setup_plan.
  destruct (erase_disk _); simpl; rewrite !elem_of_cons, elem_of_nil; lia.
Qed.

Section WithoutPackages.

Variables (self : InstallerEngine) (w : World).

Hypothesis no_packages :
  Software.arch_packages_for_selection
    (Software.selection_from_config (install (_config self))) = [].

Let out : result unit * trace := run_install self record_progress w [].

(** The run never returns normally, and reports nothing beyond the plan
    that ends with 88. *)
Lemma without_packages_never_ok :
  is_ok out.1 = false ∧ percentages out.2 `prefix_of` plan_to_software self.
Proof using no_packages.
  destruct (reports_run_install_unbound self no_packages w []) as (d & E & P & O & F).
  fold out in E, O, F. simpl in E. rewrite E. split; [|done].
  destruct (is_ok out.1) eqn:Hok; [|done].
  rewrite (F (O eq_refl)) in Hok. done.
Qed.

(** Once 88 is reported, the run ends in the [UnboundLocalError]. *)
Lemma without_packages_at_software :
  88 ∈ percentages out.2 →
  out.1 = Raise (UnboundLocalError "flatpaks")
  ∧ percentages out.2 = plan_to_software self.
Proof using no_packages.
  destruct (reports_run_install_unbound self no_packages w []) as (d & E & P & O & F).
  fold out in E, O, F. simpl in E. rewrite E. intros H88.
  destruct (plan_to_software_last self) as [Hplan Hnot].
  assert (percentages d = plan_to_software self) as Hall.
  { rewrite Hplan. apply prefix_reaching_last; [by rewrite <- Hplan|done|done]. }
  split; [by apply F | done].
Qed.

(** In a cooperative world a valid configuration, run as root or in dry-run
    mode, does get to the software step. *)
Lemma without_packages_reaches_software :
  cooperative w →
  (validate_ready self w []).1 = Ok tt →
  (os_geteuid w [] = 0 ∨ dry_run (_executor self) = true) →
  88 ∈ percentages out.2.
Proof using no_packages.
  intros Hcoop Hvalid Hpriv. unfold out, run_install.
  assert (PyStr.truthy_opt (target_disk (install (_config self))) = true) as Hdisk.
  { unfold validate_ready in Hvalid.
    by destruct (PyStr.truthy_opt _). }
  rewrite bind_run.
  pose proof (validate_ready_trace self w []) as Htr.
  destruct (validate_ready self w []) as [[[]|e] tr']; simpl in *; [subst tr'|done].
  rewrite bind_run. unfold ask.
  replace (negb (os_geteuid w [] =? 0) && negb (dry_run (_executor self)))
    with false.
  2:{ destruct Hpriv as [->| ->]; [done|by rewrite andb_false_r]. }
  destruct (target_disk _) as [disk|]; [|done].
  apply (stops_install_steps w Hcoop self no_packages disk []).
Qed.

End WithoutPackages.

(** A run that returns normally has reported the whole plan, ending with
    [(100, "Done")]. *)
Lemma run_install_success_reports_all (self : InstallerEngine) (w : World) :
  let out := run_install self record_progress w [] in
  is_ok out.1 = true →
  percentages out.2 = full_plan self ∧ last (percentages out.2) = Some 100.
Proof.
  intros out Hok.
  destruct (reports_run_install self w []) as (d & E & _ & O & _).
  fold out in E, O. simpl in E. rewrite E, (O Hok). split; [done|].
  unfold full_plan, format_plan. by destruct (erase_disk _).
Qed.

(** C10.  In a run of [run_install], erase-disk or manual, whatever the
    world answers, the percentages handed to the progress callback never
    decrease and all lie between 0 and 100. *)
Theorem progress_is_monotone (self : InstallerEngine) (w : World) :
  let reported := percentages (run_install self record_progress w []).2 in
  StronglySorted Z.le reported ∧ Forall (λ p, 0 ≤ p ≤ 100) reported.
Proof.
  intros reported.
  destruct (reports_run_install self w []) as (d & E & [k Hk] & _).
  simpl in E. unfold reported. rewrite E.
  pose proof (full_plan_sorted self) as Hs.
  pose proof (full_plan_range self) as Hr.
  rewrite Hk in Hs, Hr. split.
  - by apply StronglySorted_app_1_l in Hs.
  - by apply Forall_app in Hr as [Hr _].
Qed.

(** The outcome without native packages.  When the resolved native package
    list is empty, [run_install]
    never returns normally and never reports more than 88: the bootloader and
    finalize steps are not reached.  As soon as 88 is reported the run ends in
    the [UnboundLocalError] (a [NameError]) for [flatpaks], having reported
    exactly the plan up to 88; and in a cooperative world a valid
    configuration run as root or in dry-run mode does end that way, whatever
    Flatpak apps the configuration lists. *)
Lemma without_packages_outcome (self : InstallerEngine) (w : World) :
  Software.arch_packages_for_selection
    (Software.selection_from_config (install (_config self))) = [] →
  let out := run_install self record_progress w [] in
  let unbound :=
    (∃ e, out.1 = Raise e ∧ is_NameError e = true ∧ e = UnboundLocalError "flatpaks")
    ∧ percentages out.2 = plan_to_software self in
  is_ok out.1 = false
  ∧ (∀ p, p ∈ percentages out.2 → p ≤ 88)
  ∧ (88 ∈ percentages out.2 → unbound)
  ∧ (cooperative w → (validate_ready self w []).1 = Ok tt →
     (os_geteuid w [] = 0 ∨ dry_run (_executor self) = true) → unbound).
Proof.
  intros Hno out unbound.
  destruct (without_packages_never_ok self w Hno) as [Hok Hpre].
  assert (88 ∈ percentages out.2 → unbound) as Hat.
  { intros H88. destruct (without_packages_at_software self w Hno H88) as [Hr Hp].
    split; [by eexists|done]. }
  split; [done|]. split; [|split; [done|]].
  - intros p Hp. apply (plan_to_software_bound self).
    destruct Hpre as [k ->]. apply elem_of_app. by left.
  - intros Hcoop Hvalid Hpriv. apply Hat.
    by apply without_packages_reaches_software.
Qed.

Lemma world_answering_cooperative out err :
  cooperative (world_answering (mkCommandResult 0 out err)).
Proof.
  split; [done|]. split; [done|].
  intros tr args cwd input. by eexists.
Qed.

(** ** The end-to-end scenario *)

Lemma erase_sda_install_no_packages :
  Software.arch_packages_for_selection
    (Software.selection_from_config
       (install (_config (dry_run_engine erase_sda_install)))) = [].
Proof. reflexivity. Qed.

(** With a native package selected the same scenario runs to the end and
    reports the percentages the specification lists. *)
Lemma erase_sda_with_git_completes :
  let out := run_install (dry_run_engine erase_sda_with_git) record_progress uefi_host [] in
  out.1 = Ok tt
  ∧ percentages out.2 = expected_percentages
  ∧ last (progress_events out.2) = Some (100, "Done").
Proof. by vm_compute. Qed.

(** C1, on the code.  The erase-disk install of [/dev/sda] in dry-run mode with
    no software selected does not reach [Done]: in every world the run ends in
    an exception without reporting 90, 95 or 100, and on the simulated UEFI
    host it reports 5, 15, ..., 88, starts no process but the read-only
    [blkid] queries, creates the [etc] directory of the target, and raises the
    [UnboundLocalError] for [flatpaks]. *)
Theorem erase_sda_dry_run_stops_at_software :
  (∀ w, let out := run_install (dry_run_engine erase_sda_install) record_progress w [] in
        is_ok out.1 = false
        ∧ percentages out.2 `prefix_of` percentages_to_software
        ∧ percentages out.2 ≠ expected_percentages
        ∧ (100, "Done") ∉ progress_events out.2)
  ∧ let out := run_install (dry_run_engine erase_sda_install) record_progress uefi_host [] in
    out.1 = Raise (UnboundLocalError "flatpaks")
    ∧ percentages out.2 = percentages_to_software
    ∧ spawned out.2 = [blkid_argv "/dev/sda2"; blkid_argv "/dev/sda2";
                       blkid_argv "/dev/sda1"; blkid_argv "/dev/sda1"]
    ∧ file_operations out.2 = [Mkdir "/mnt/vistula-target/etc"].
Proof.
  split; [|by vm_compute].
  intros w out.
  destruct (without_packages_never_ok (dry_run_engine erase_sda_install) w
              erase_sda_install_no_packages) as [Hok Hpre].
  fold out in Hok, Hpre.
  change (plan_to_software (dry_run_engine erase_sda_install))
    with percentages_to_software in Hpre.
  split; [done|]. split; [done|]. split.
  - intros Heq. rewrite Heq in Hpre. apply prefix_length in Hpre.
    simpl in Hpre. lia.
  - intros Hdone.
    assert (100 ∈ percentages out.2) as H100.
    { unfold percentages. apply list_elem_of_fmap. by exists (100, "Done"). }
    destruct Hpre as [k Hk].
    assert (100 ∈ percentages_to_software) as Hin.
    { rewrite Hk. apply elem_of_app. by left. }
    unfold percentages_to_software in Hin.
    rewrite !elem_of_cons, elem_of_nil in Hin. lia.
Qed.

(** * Further properties of the code *)

(** ** What a computation may do *)

Section ConfinedRules.

Context {A B : Type} (P : event → Prop).

Lemma confined_ret (a : A) : confined P (mret a).
Proof. intros w tr. exists []. by rewrite app_nil_r. Qed.

Lemma confined_raise (e : exn) : confined P (@raise A e).
Proof. intros w tr. exists []. by rewrite app_nil_r. Qed.

Lemma confined_ask (q : World → trace → A) : confined P (ask q).
Proof. intros w tr. exists []. by rewrite app_nil_r. Qed.

Lemma confined_try_ask (q : World → trace → result A) : confined P (try_ask q).
Proof. intros w tr. exists []. by rewrite app_nil_r. Qed.

Lemma confined_perform (e : event) (q : World → trace → result A) :
  P e → confined P (perform e q).
Proof. intros He w tr. exists [e]. split; [done|]. by constructor. Qed.

Lemma confined_bind (m : M A) (f : A → M B) :
  confined P m → (∀ a, confined P (f a)) → confined P (m ≫= f).
Proof.
  intros Hm Hf w tr. rewrite bind_run.
  destruct (Hm w tr) as (d1 & E1 & P1).
  destruct (m w tr) as [[a|e] tr1]; simpl in E1; subst tr1.
  - destruct (Hf a w (tr ++ d1)) as (d2 & E2 & P2).
    exists (d1 ++ d2). rewrite E2. split; [by rewrite (assoc_L (++))|].
    by apply Forall_app.
  - by exists d1.
Qed.

End ConfinedRules.

Lemma confined_emit P (e : event) : P e → confined P (emit e).
Proof. intros He w tr. exists [e]. split; [done|]. by constructor. Qed.

Lemma confined_for_each {A} P (l : list A) (body : A → M unit) :
  (∀ x, confined P (body x)) → confined P (for_each l body).
Proof.
  intros Hb. induction l as [|x l IH]; simpl.
  - apply confined_ret.
  - apply confined_bind; [apply Hb | intros _; apply IH].
Qed.

Lemma confined_if_truthy P o body :
  (∀ s, PyStr.truthy s = true → confined P (body s)) → confined P (if_truthy o body).
Proof.
  intros Hb. destruct o as [s|]; simpl; [|apply confined_ret].
  destruct (PyStr.truthy s) eqn:Hs; [by apply Hb | apply confined_ret].
Qed.

Lemma confined_read_local {A} P name (v : option A) : confined P (read_local name v).
Proof. destruct v; [apply confined_ret | apply confined_raise]. Qed.

(** A command that may be spawned, in any mode. *)
Lemma confined_run P ex args check cwd allow input :
  (∀ lvl msg, P (EvLog lvl msg)) → P (EvSpawn args cwd input) →
  confined P (run ex args check cwd allow input).
Proof.
  intros Hlog Hspawn. unfold run.
  destruct (dry_run ex && negb allow).
  - apply confined_bind; [by apply confined_emit | intros _; apply confined_ret].
  - apply confined_bind; [by apply confined_emit | intros _].
    apply confined_bind; [by apply confined_perform | intros cp].
    destruct (check && _); [|apply confined_ret].
    apply confined_bind; [by apply confined_emit | intros _; apply confined_raise].
Qed.

(** A command that dry-run mode simulates. *)
Lemma confined_run_simulated P args check cwd input :
  (∀ lvl msg, P (EvLog lvl msg)) →
  confined P (run (mkCommandExecutor true) args check cwd false input).
Proof.
  intros Hlog. unfold run. simpl.
  apply confined_bind; [by apply confined_emit | intros _; apply confined_ret].
Qed.

Lemma confined_step P pct msg :
  (∀ lvl m, P (EvLog lvl m)) → P (EvProgress pct msg) →
  confined P (step record_progress pct msg).
Proof.
  intros Hlog Hprog. unfold step, record_progress.
  apply confined_bind; [by apply confined_emit | intros _; by apply confined_emit].
Qed.

(** Closes the side conditions on single events. *)
Ltac confined_side :=
  first [exact I | intros; exact I | eexists; reflexivity | done].

(** Splits a goal [confined P m] along the binds and branches of [m]. *)
Ltac confined_go :=
  lazymatch goal with
  | |- confined _ (_ ≫= _) => apply confined_bind; [|intros ?]
  | |- confined _ (mret _) => apply confined_ret
  | |- confined _ (raise _) => apply confined_raise
  | |- confined _ (ask _) => apply confined_ask
  | |- confined _ (try_ask _) => apply confined_try_ask
  | |- confined _ (exists_path _) => apply confined_ask
  | |- confined _ (log_info _) => apply confined_emit; confined_side
  | |- confined _ (log_error _) => apply confined_emit; confined_side
  | |- confined _ (fs _) => apply confined_perform; confined_side
  | |- confined _ (read_local _ _) => apply confined_read_local
  | |- confined _ (step record_progress _ _) => apply confined_step; confined_side
  | |- confined _ (run (mkCommandExecutor true) _ _ _ false _) =>
      apply confined_run_simulated; confined_side
  | |- confined _ (run_checked (mkCommandExecutor true) _) =>
      apply confined_run_simulated; confined_side
  | |- confined _ (run_unchecked (mkCommandExecutor true) _) =>
      apply confined_run_simulated; confined_side
  | |- confined _ (for_each _ _) => apply confined_for_each; intros ?
  | |- confined _ (if_truthy _ _) => apply confined_if_truthy; intros ? ?
  | |- confined _ (if ?b then _ else _) => destruct b eqn:?
  | |- confined _ (match ?x with _ => _ end) => destruct x eqn:?
  | |- confined _ (let _ := _ in _) => cbv zeta
  end.

Lemma confined_blkid_export P ex dev :
  (∀ lvl msg, P (EvLog lvl msg)) → P (EvSpawn (blkid_argv dev) None None) →
  confined P (_blkid_export ex dev).
Proof.
  intros Hlog Hspawn. unfold _blkid_export.
  apply confined_bind; [by apply confined_run | intros res; apply confined_ret].
Qed.

Lemma confined_build_fstab_content P ex root efi home swap :
  (∀ lvl msg, P (EvLog lvl msg)) →
  (∀ dev, P (EvSpawn (blkid_argv dev) None None)) →
  confined P (build_fstab_content ex root efi home swap).
Proof.
  intros Hlog Hspawn.
  unfold build_fstab_content, _fstype, devref, _fstab_ident.
  repeat first [by apply confined_blkid_export | confined_go].
Qed.

(** X1: the fstab builder is a preview.  In dry-run mode or not, whatever the
    world answers, [build_fstab_content] writes nothing and reports no progress:
    besides log lines, all it does is start [blkid -o export <device>]
    queries. *)
Theorem build_fstab_content_read_only (ex : CommandExecutor) (root : string)
    (efi home swap : option string) :
  confined read_only_event (build_fstab_content ex root efi home swap).
Proof.
  apply confined_build_fstab_content; [done|]. intros dev. by exists dev.
Qed.

(** ** Dry-run mode *)

Section DryRun.

Variable acfg : AppConfig.

Let self : InstallerEngine := mkInstallerEngine acfg (mkCommandExecutor true).

Abbreviation harmless := (confined dry_run_event).

(** Unfolds a phase and settles the tests on [dry_run]. *)
Ltac dry_run_phase :=
  cbn [dry_run _executor _config];
  repeat first
    [ apply confined_build_fstab_content; [confined_side | intros ?; confined_side]
    | confined_go ].

Lemma harmless_validate_ready : harmless (validate_ready self).
Proof. unfold validate_ready. dry_run_phase. Qed.

Lemma harmless_partition_and_format disk :
  harmless (partition_and_format self record_progress disk).
Proof. unfold partition_and_format, self. dry_run_phase. Qed.

Lemma harmless_mount_target p : harmless (mount_target self record_progress p).
Proof. unfold mount_target, self. dry_run_phase. Qed.

Lemma harmless_copy_system : harmless (copy_system self record_progress).
Proof. unfold copy_system, self. dry_run_phase. Qed.

Lemma harmless_write_fstab p : harmless (write_fstab self record_progress p).
Proof. unfold write_fstab, _write_fstab, self. dry_run_phase. Qed.

Lemma harmless_prepare_chroot : harmless (prepare_chroot self record_progress).
Proof. unfold prepare_chroot, self. dry_run_phase. Qed.

Lemma harmless_configure_system : harmless (configure_system self record_progress).
Proof. unfold configure_system, self. dry_run_phase. Qed.

Lemma harmless_configure_locale : harmless (configure_locale self record_progress).
Proof. unfold configure_locale, self. dry_run_phase. Qed.

Lemma harmless_configure_network : harmless (configure_network self record_progress).
Proof. unfold configure_network, self. dry_run_phase. Qed.

Lemma harmless_create_user : harmless (create_user self record_progress).
Proof. unfold create_user, self. dry_run_phase. Qed.

Lemma harmless_install_software : harmless (install_software self record_progress).
Proof. unfold install_software, self. dry_run_phase. Qed.

Lemma harmless_install_bootloader is_efi disk :
  harmless (install_bootloader self record_progress is_efi disk).
Proof. unfold install_bootloader, self. dry_run_phase. Qed.

Lemma harmless_finalize p : harmless (finalize self record_progress p).
Proof. unfold finalize, self. dry_run_phase. Qed.

Lemma harmless_install_steps disk :
  harmless (install_steps self record_progress disk).
Proof.
  unfold install_steps.
  apply confined_bind; [apply confined_ask | intros is_efi].
  apply confined_bind; [apply harmless_partition_and_format | intros p].
  apply confined_bind; [apply harmless_mount_target | intros _].
  apply confined_bind; [apply harmless_copy_system | intros _].
  apply confined_bind; [apply harmless_write_fstab | intros _].
  apply confined_bind; [apply harmless_prepare_chroot | intros _].
  apply confined_bind; [apply harmless_configure_system | intros _].
  apply confined_bind; [apply harmless_configure_locale | intros _].
  apply confined_bind; [apply harmless_configure_network | intros _].
  apply confined_bind; [apply harmless_create_user | intros _].
  apply confined_bind; [apply harmless_install_software | intros _].
  apply confined_bind; [apply harmless_install_bootloader | intros _].
  apply harmless_finalize.
Qed.

Lemma harmless_run_install : harmless (run_install self record_progress).
Proof.
  unfold run_install.
  apply confined_bind; [apply harmless_validate_ready | intros _].
  apply confined_bind; [apply confined_ask | intros euid].
  destruct (_ && _); [apply confined_raise|].
  destruct (target_disk _); [apply harmless_install_steps | apply confined_raise].
Qed.

End DryRun.

(** X2: dry-run mode is harmless.  Whatever the configuration and whatever
    the world answers, a run of [run_install] with the executor in dry-run mode
    starts no process other than [blkid -o export <device>] queries and
    performs no file-system operation other than creating directories. *)
Theorem dry_run_is_harmless (self : InstallerEngine) :
  dry_run (_executor self) = true →
  confined dry_run_event (run_install self record_progress).
Proof.
  destruct self as [acfg [dry]]. simpl. intros ->. apply harmless_run_install.
Qed.

Lemma dry_run_is_harmless_witness :
  confined dry_run_event (run_install (dry_run_engine manual_install) record_progress).
Proof. apply (dry_run_is_harmless (dry_run_engine manual_install)). reflexivity. Defined.

(** ** The manual flow *)

(** A command that may be started, whatever the mode of the executor. *)
Ltac confined_cmd :=
  unfold run_checked, run_unchecked;
  lazymatch goal with
  | |- confined _ (run _ _ _ _ _ _) =>
      apply confined_run; [intros; exact I | confined_side]
  end.

Lemma confined_if_truthy_or_none P s body :
  (PyStr.truthy s = true → confined P (body s)) →
  confined P (if_truthy (PyStr.or_none s) body).
Proof.
  intros Hb. unfold PyStr.or_none.
  destruct (PyStr.truthy s) eqn:Hs; simpl; [|apply confined_ret].
  rewrite Hs. by apply Hb.
Qed.

Section ManualFlow.

Variable self : InstallerEngine.

Let cfg : InstallConfig := install (_config self).

Hypothesis manual : erase_disk cfg = false.

Abbreviation manual_only := (confined (manual_flow_event cfg)).

Lemma manual_only_run_format args :
  args ∈ manual_format_commands cfg →
  (∀ name rest, args = name :: rest →
     is_one_of name ["wipefs"; "parted"] = false) →
  manual_only (run_checked (_executor self) args ≫= λ _, mret tt).
Proof.
  intros Hin Hname.
  apply confined_bind; [|intros _; apply confined_ret].
  apply confined_run; [done|].
  destruct args as [|name rest]; [done|].
  change (if is_one_of name ["wipefs"; "parted"] then False
          else if is_one_of name ["mkfs.ext4"; "mkfs.vfat"; "mkswap"]
               then name :: rest ∈ manual_format_commands cfg else True).
  rewrite (Hname name rest eq_refl). by destruct (is_one_of name _).
Qed.

Lemma manual_only_partition_and_format disk :
  manual_only (partition_and_format self record_progress disk).
Proof using manual.
  unfold partition_and_format. fold cfg. rewrite manual.
  apply confined_bind; [by apply confined_step | intros _].
  apply confined_bind.
  { destruct (format_root cfg) eqn:Hroot; [|apply confined_ret].
    apply manual_only_run_format; [|by intros ? ? [= <- _]].
    unfold manual_format_commands. rewrite Hroot.
    apply elem_of_app. left. by left. }
  intros _. apply confined_bind.
  { apply confined_if_truthy_or_none. intros Hset.
    destruct (format_efi cfg) eqn:Hflag; [|apply confined_ret].
    apply manual_only_run_format; [|by intros ? ? [= <- _]].
    unfold manual_format_commands. rewrite Hset, Hflag.
    apply elem_of_app. right. apply elem_of_app. left. by left. }
  intros _. apply confined_bind.
  { apply confined_if_truthy_or_none. intros Hset.
    destruct (format_home cfg) eqn:Hflag; [|apply confined_ret].
    apply manual_only_run_format; [|by intros ? ? [= <- _]].
    unfold manual_format_commands. rewrite Hset, Hflag.
    do 2 (apply elem_of_app; right). apply elem_of_app. left. by left. }
  intros _. apply confined_bind; [|intros _; apply confined_ret].
  apply confined_if_truthy_or_none. intros Hset.
  destruct (format_swap cfg) eqn:Hflag; [|apply confined_ret].
  apply manual_only_run_format; [|by intros ? ? [= <- _]].
  unfold manual_format_commands. rewrite Hset, Hflag.
  do 3 (apply elem_of_app; right). by left.
Qed.

(** Settles a phase none of whose commands partitions or formats. *)
Ltac manual_phase :=
  repeat first
    [ apply confined_build_fstab_content; [intros; exact I | intros ?; exact I]
    | confined_go
    | confined_cmd ].

Lemma manual_only_validate_ready : manual_only (validate_ready self).
Proof. unfold validate_ready. manual_phase. Qed.

Lemma manual_only_mount_target p : manual_only (mount_target self record_progress p).
Proof. unfold mount_target. manual_phase. Qed.

Lemma manual_only_copy_system : manual_only (copy_system self record_progress).
Proof. unfold copy_system. manual_phase. Qed.

Lemma manual_only_write_fstab p : manual_only (write_fstab self record_progress p).
Proof. unfold write_fstab, _write_fstab. manual_phase. Qed.

Lemma manual_only_prepare_chroot : manual_only (prepare_chroot self record_progress).
Proof. unfold prepare_chroot. manual_phase. Qed.

Lemma manual_only_configure_system : manual_only (configure_system self record_progress).
Proof. unfold configure_system. manual_phase. Qed.

Lemma manual_only_configure_locale : manual_only (configure_locale self record_progress).
Proof. unfold configure_locale. manual_phase. Qed.

Lemma manual_only_configure_network : manual_only (configure_network self record_progress).
Proof. unfold configure_network. manual_phase. Qed.

Lemma manual_only_create_user : manual_only (create_user self record_progress).
Proof. unfold create_user. manual_phase. Qed.

Lemma manual_only_install_software : manual_only (install_software self record_progress).
Proof. unfold install_software. manual_phase. Qed.

Lemma manual_only_install_bootloader is_efi disk :
  manual_only (install_bootloader self record_progress is_efi disk).
Proof. unfold install_bootloader. manual_phase. Qed.

Lemma manual_only_finalize p : manual_only (finalize self record_progress p).
Proof. unfold finalize. manual_phase. Qed.

Lemma manual_only_run_install : manual_only (run_install self record_progress).
Proof using manual.
  unfold run_install.
  apply confined_bind; [apply manual_only_validate_ready | intros _].
  apply confined_bind; [apply confined_ask | intros euid].
  destruct (_ && _); [apply confined_raise|].
  destruct (target_disk _) as [disk|]; [|apply confined_raise].
  unfold install_steps.
  apply confined_bind; [apply confined_ask | intros is_efi].
  apply confined_bind; [apply manual_only_partition_and_format | intros p].
  apply confined_bind; [apply manual_only_mount_target | intros _].
  apply confined_bind; [apply manual_only_copy_system | intros _].
  apply confined_bind; [apply manual_only_write_fstab | intros _].
  apply confined_bind; [apply manual_only_prepare_chroot | intros _].
  apply confined_bind; [apply manual_only_configure_system | intros _].
  apply confined_bind; [apply manual_only_configure_locale | intros _].
  apply confined_bind; [apply manual_only_configure_network | intros _].
  apply confined_bind; [apply manual_only_create_user | intros _].
  apply confined_bind; [apply manual_only_install_software | intros _].
  apply confined_bind; [apply manual_only_install_bootloader | intros _].
  apply manual_only_finalize.
Qed.

End ManualFlow.

(** X3: the manual flow leaves the partition table alone.  With [erase_disk]
    off, in dry-run mode or not and whatever the world answers, [run_install]
    never starts [wipefs] or [parted], and every [mkfs.ext4], [mkfs.vfat] or
    [mkswap] it starts is the command for a partition that is set in the
    configuration and whose format flag is on. *)
Theorem manual_flow_formats_only_flagged (self : InstallerEngine) :
  erase_disk (install (_config self)) = false →
  confined (manual_flow_event (install (_config self)))
           (run_install self record_progress).
Proof. apply manual_only_run_install. Qed.

Lemma manual_flow_formats_only_flagged_witness :
  confined (manual_flow_event manual_install)
           (run_install (real_engine manual_install) record_progress).
Proof.
  apply (manual_flow_formats_only_flagged (real_engine manual_install)). reflexivity.
Defined.

(** ** Validation, exactly *)

(** X4: [validate_ready] decides exactly this.  It never logs, starts a
    process or touches a file; it returns normally exactly when the target disk
    is set, the password is set and, unless the whole disk is erased, the root
    partition is set and the EFI partition is set whenever the firmware
    directory exists; and any exception it raises is a [ValueError]. *)
Theorem validate_ready_exact (self : InstallerEngine) (w : World) (tr : trace) :
  let cfg := install (_config self) in
  (validate_ready self w tr).2 = tr
  ∧ ((validate_ready self w tr).1 = Ok tt ↔
     PyStr.truthy_opt (target_disk cfg) = true
     ∧ (erase_disk cfg = true
        ∨ (root_partition cfg ≠ EmptyString
           ∧ (path_exists w tr efi_firmware_dir = true →
              efi_partition cfg ≠ EmptyString)))
     ∧ password cfg ≠ EmptyString)
  ∧ (∀ e, (validate_ready self w tr).1 = Raise e → ∃ msg, e = ValueError msg).
Proof.
  intros cfg. split; [apply validate_ready_trace|].
  unfold validate_ready. fold cfg.
  rewrite <- !truthy_true.
  destruct (PyStr.truthy_opt (target_disk cfg)); simpl.
  2:{ split; [split; [done|by intros [? _]] | intros e [= <-]; by eexists]. }
  rewrite bind_run.
  destruct (erase_disk cfg); simpl.
  - destruct (PyStr.truthy (password cfg)); simpl.
    + split; [split; [by auto|done] | done].
    + split; [split; [done|by intros (_ & _ & ?)] | intros e [= <-]; by eexists].
  - destruct (PyStr.truthy (root_partition cfg)); simpl.
    2:{ split; [split; [done|by intros (_ & [?|[? _]] & _)]
               | intros e [= <-]; by eexists]. }
    rewrite bind_run. unfold exists_path, ask.
    destruct (path_exists w tr efi_firmware_dir),
      (PyStr.truthy (efi_partition cfg)), (PyStr.truthy (password cfg)); simpl.
    all: split; [split|].
    all: try done.
    all: try (intros e [= <-]; by eexists).
    all: try (intros _; split; [done|]; split; [|done]; right; by split).
    all: intros (_ & [?|[_ H]] & ?); first [done | by specialize (H eq_refl)].
Qed.

(** ** The mount table without identifiers *)

Lemma blkid_info_failed res : returncode res ≠ 0 → blkid_info res = ∅.
Proof.
  intros Hrc. unfold blkid_info.
  by destruct (Z.eqb_spec (returncode res) 0).
Qed.

Lemma mount_table_without_metadata root efi home swap :
  mount_table (λ _, ∅) root efi home swap = raw_mount_table root efi home swap.
Proof.
  unfold mount_table, raw_mount_table, table_line, table_ref, table_fstype,
    metadata_value.
  rewrite !lookup_empty.
  by destruct (provided efi), (provided home), (provided swap).
Qed.

(** X5: the fallback of the docstring.  When [blkid] exits with a non-zero
    code for every device (as it does for an unprivileged user, or right after
    a simulated format), [build_fstab_content] still returns a table: every
    line names the raw device path, with [ext4] for root and home and [vfat]
    for the EFI partition. *)
Theorem build_fstab_content_falls_back (ex : CommandExecutor) (w : World)
    (tr : trace) (answer : string → CommandResult) (root : string)
    (efi home swap : option string) :
  stable_blkid w answer →
  (∀ dev, returncode (answer dev) ≠ 0) →
  (build_fstab_content ex root efi home swap w tr).1
  = Ok (raw_mount_table root efi home swap).
Proof.
  intros Hst Hfail.
  destruct (yields_build_fstab_content w answer ex Hst root efi home swap tr)
    as [tr' ->].
  simpl. f_equal. rewrite <- mount_table_without_metadata.
  unfold mount_table.
  destruct (provided efi), (provided home), (provided swap);
    by rewrite !blkid_info_failed.
Qed.

Lemma build_fstab_content_falls_back_witness :
  (build_fstab_content (mkCommandExecutor true) "/dev/sda2" (Some "/dev/sda1")
     None (Some "/dev/sda3") uefi_host []).1
  = Ok ("/dev/sda2 / ext4 defaults 0 1" +:+ PyStr.nl
        +:+ "/dev/sda1 /boot/efi vfat umask=0077 0 1" +:+ PyStr.nl
        +:+ "/dev/sda3 none swap sw 0 0" +:+ PyStr.nl).
Proof.
  apply (build_fstab_content_falls_back (mkCommandExecutor true) uefi_host []
           (λ _, mkCommandResult 2 EmptyString EmptyString)
           "/dev/sda2" (Some "/dev/sda1") None (Some "/dev/sda3")).
  - by intros tr dev.
  - by intros dev.
Defined.

(** ** Writing the mount table *)

Lemma file_operations_app tr1 tr2 :
  file_operations (tr1 ++ tr2) = file_operations tr1 ++ file_operations tr2.
Proof. apply omap_app. Qed.

Lemma file_operations_read_only d :
  Forall read_only_event d → file_operations d = [].
Proof.
  induction 1 as [|e d He _ IH]; [done|].
  destruct e; try done; exact IH.
Qed.

(** The builder returns the table and leaves only read-only events. *)
Lemma build_fstab_content_run ex w tr answer root efi home swap :
  stable_blkid w answer →
  ∃ d, build_fstab_content ex root efi home swap w tr
       = (Ok (mount_table (λ dev, blkid_info (answer dev)) root efi home swap), tr ++ d)
       ∧ Forall read_only_event d.
Proof.
  intros Hst.
  destruct (yields_build_fstab_content w answer ex Hst root efi home swap tr)
    as [tr' E].
  assert (confined read_only_event (build_fstab_content ex root efi home swap))
    as Hro by (apply confined_build_fstab_content; [done|intros dev; by exists dev]).
  destruct (Hro w tr) as (d & E' & Hd).
  exists d. rewrite E in E'. simpl in E'. by rewrite E, E'.
Qed.

Lemma fs_run w tr op :
  fs_apply w tr op = Ok tt → fs op w tr = (Ok tt, tr ++ [EvFs op]).
Proof. intros H. unfold fs, perform. by rewrite H. Qed.

(** The run of [_write_fstab], event by event. *)
Lemma write_fstab_run tgt ex w tr answer root efi home swap :
  stable_blkid w answer →
  (∀ tr' op, fs_apply w tr' op = Ok tt) →
  let table := mount_table (λ dev, blkid_info (answer dev)) root efi home swap in
  let fstab := tgt </> "etc" </> "fstab" in
  ∃ d, Forall read_only_event d
       ∧ _write_fstab tgt ex root efi home swap w tr
         = (Ok tt,
            ((tr ++ [EvFs (Mkdir (tgt </> "etc"))]) ++ d)
            ++ [if dry_run ex
                then EvLog INFO ("[DRY-RUN] write " +:+ fstab +:+ ":" +:+ PyStr.nl +:+ table)
                else EvFs (WriteText fstab table)]).
Proof.
  intros Hst Hfs table fstab.
  destruct (build_fstab_content_run ex w (tr ++ [EvFs (Mkdir (tgt </> "etc"))])
              answer root efi home swap Hst) as (d & E & Hd).
  exists d. split; [done|]. unfold _write_fstab.
  rewrite (bind_ok _ _ _ _ _ _ (fs_run w tr _ (Hfs _ _))).
  rewrite (bind_ok _ _ _ _ _ _ E). fold table fstab.
  destruct (dry_run ex); [done|]. by apply fs_run.
Qed.

Lemma spawned_app tr1 tr2 : spawned (tr1 ++ tr2) = spawned tr1 ++ spawned tr2.
Proof. apply omap_app. Qed.

Lemma spawned_read_only d :
  Forall read_only_event d →
  Forall (λ args, ∃ dev, args = blkid_argv dev) (spawned d).
Proof.
  unfold spawned. induction 1 as [|e d He _ IH]; [done|].
  destruct e; simpl; try done. by constructor.
Qed.

(** X6: what [_write_fstab] does to the target of the installation.  When
    [blkid] answers consistently and the file system cooperates, the call
    [_write_fstab(target=/mnt/vistula-target, ...)] of [run_install] returns
    normally; the only processes it starts are [blkid -o export <device>]
    queries; it creates the [etc] directory of the target and then, outside
    dry-run mode, writes exactly the mount table to [etc/fstab], and these are
    all its file operations; in dry-run mode it writes nothing and its last
    log line shows that same table. *)
Theorem write_fstab_writes_the_table (ex : CommandExecutor)
    (w : World) (tr : trace) (answer : string → CommandResult) (root : string)
    (efi home swap : option string) :
  stable_blkid w answer →
  (∀ tr' op, fs_apply w tr' op = Ok tt) →
  let table := mount_table (λ dev, blkid_info (answer dev)) root efi home swap in
  let out := _write_fstab target ex root efi home swap w tr in
  out.1 = Ok tt
  ∧ ∃ d, out.2 = tr ++ d
      ∧ Forall (λ args, ∃ dev, args = blkid_argv dev) (spawned d)
      ∧ file_operations d
        = Mkdir "/mnt/vistula-target/etc"
          :: (if dry_run ex then []
              else [WriteText "/mnt/vistula-target/etc/fstab" table])
      ∧ (dry_run ex = true →
         last d
         = Some (EvLog INFO ("[DRY-RUN] write /mnt/vistula-target/etc/fstab:"
                             +:+ PyStr.nl +:+ table))).
Proof.
  intros Hst Hfs table out.
  destruct (write_fstab_run target ex w tr answer root efi home swap Hst Hfs)
    as (d & Hd & E).
  unfold out. rewrite E. cbn [fst snd].
  split; [done|].
  eexists ([EvFs (Mkdir (target </> "etc"))] ++ d ++ [_]).
  split; [by rewrite <- !(assoc_L (++))|].
  split; [|split].
  - rewrite !spawned_app. apply Forall_app. split; [done|].
    apply Forall_app. split; [by apply spawned_read_only|].
    by destruct (dry_run ex).
  - rewrite !file_operations_app, (file_operations_read_only d Hd).
    by destruct (dry_run ex).
  - intros ->. by rewrite (assoc_L (++)), last_snoc.
Qed.

Lemma write_fstab_writes_the_table_witness :
  ∃ d, (_write_fstab target (mkCommandExecutor false) "/dev/sda2" (Some "/dev/sda1")
          None None abcd_world []).2 = d
       ∧ Forall (λ args, ∃ dev, args = blkid_argv dev) (spawned d)
       ∧ file_operations d
         = [Mkdir "/mnt/vistula-target/etc";
            WriteText "/mnt/vistula-target/etc/fstab"
              ("PARTUUID=ABCD / ext4 defaults 0 1" +:+ PyStr.nl
               +:+ "/dev/sda1 /boot/efi vfat umask=0077 0 1" +:+ PyStr.nl)].
Proof.
  destruct (write_fstab_writes_the_table (mkCommandExecutor false) abcd_world []
              abcd_answer "/dev/sda2" (Some "/dev/sda1") None None)
    as (_ & d & E & Hs & Hf & _).
  - by intros tr dev.
  - by intros tr op.
  - exists d. split; [exact E|]. split; [exact Hs|].
    rewrite Hf. by vm_compute.
Defined.

(** ** The fstab preview of the summary page *)

Lemma returns_only_ret {A} (a : A) : returns_only (mret a) a.
Proof. by intros w tr a' [= <-]. Qed.

Lemma returns_only_bind {A B} (m : M A) (f : A → M B) b :
  (∀ a, returns_only (f a) b) → returns_only (m ≫= f) b.
Proof.
  intros Hf w tr b'. rewrite bind_run.
  destruct (m w tr) as [[a|e] tr1]; [apply Hf | done].
Qed.

(** The partitions the engine goes on with are those of the summary page. *)
Lemma partition_and_format_returns self cb disk :
  target_disk (install (_config self)) = Some disk →
  PyStr.truthy disk = true →
  returns_only (partition_and_format self cb disk)
               (summary_partitions (install (_config self))).
Proof.
  intros Hdisk Htruthy. unfold partition_and_format, summary_partitions.
  rewrite Hdisk, Htruthy.
  destruct (erase_disk _).
  - do 6 (apply returns_only_bind; intros ?).
    destruct (predicted_partitions disk) as [efi root].
    do 3 (apply returns_only_bind; intros ?). apply returns_only_ret.
  - do 5 (apply returns_only_bind; intros ?). apply returns_only_ret.
Qed.

Lemma try_except_ok {A} (body : M A) handler w tr a tr' :
  body w tr = (Ok a, tr') → try_except body handler w tr = (Ok a, tr').
Proof. intros H. unfold try_except. by rewrite H. Qed.

(** X7: the summary page cannot fail and changes nothing.  Whatever the
    configuration and the world, [fstab_preview] returns a text: the table of
    [build_fstab_content], or, when that raises [e], the translated notice
    followed by [str(e)].  It writes nothing: besides log lines it only starts
    [blkid] queries. *)
Theorem fstab_preview_never_fails (translate : string → string)
    (exn_text : exn → string) (cfg : InstallConfig) (ex : CommandExecutor)
    (w : World) (tr : trace) :
  let p := summary_partitions cfg in
  let built :=
    build_fstab_content ex (root_part p) (efi_part p) (home_part p) (swap_part p) w tr in
  (fstab_preview translate exn_text cfg ex w tr).1
  = Ok (match built.1 with
        | Ok text => text
        | Raise e => translate "Unable to generate fstab preview:" +:+ " " +:+ exn_text e
        end)
  ∧ (fstab_preview translate exn_text cfg ex w tr).2 = built.2
  ∧ confined read_only_event (fstab_preview translate exn_text cfg ex).
Proof.
  intros p built. unfold fstab_preview, try_except. fold p. fold built.
  split; [by destruct built as [[text|e] tr']|].
  split; [by destruct built as [[text|e] tr']|].
  intros w' tr'.
  destruct (confined_build_fstab_content read_only_event ex
              (root_part p) (efi_part p) (home_part p) (swap_part p)
              (λ _ _, I) (λ dev, ex_intro _ dev eq_refl) w' tr') as (d & E & Hd).
  exists d. split; [|done].
  by destruct (build_fstab_content _ _ _ _ _ w' tr') as [[text|e] tr''].
Qed.

(** X8: the preview and the written table agree.  For a configuration with a
    target disk, when [blkid] answers consistently and the file system
    cooperates: if the partitioning step of [run_install] returns the
    partitions [p], the text of [fstab_preview] is the mount table of [p], and
    it is the very text that [_write_fstab] then writes to the target (or, in
    dry-run mode, logs). *)
Theorem fstab_preview_agrees_with_install (translate : string → string)
    (exn_text : exn → string) (self : InstallerEngine) (cb : callback)
    (w : World) (answer : string → CommandResult) (disk : string) (p : Parts)
    (tr tr1 tr2 : trace) :
  stable_blkid w answer →
  (∀ tr' op, fs_apply w tr' op = Ok tt) →
  target_disk (install (_config self)) = Some disk →
  PyStr.truthy disk = true →
  (partition_and_format self cb disk w tr).1 = Ok p →
  let text :=
    mount_table (λ dev, blkid_info (answer dev))
                (root_part p) (efi_part p) (home_part p) (swap_part p) in
  let fstab := target </> "etc" </> "fstab" in
  (fstab_preview translate exn_text (install (_config self)) (_executor self) w tr1).1
  = Ok text
  ∧ last (_write_fstab target (_executor self) (root_part p) (efi_part p)
                       (home_part p) (swap_part p) w tr2).2
    = Some (if dry_run (_executor self)
            then EvLog INFO ("[DRY-RUN] write " +:+ fstab +:+ ":" +:+ PyStr.nl +:+ text)
            else EvFs (WriteText fstab text)).
Proof.
  intros Hst Hfs Hdisk Htruthy Hp text fstab.
  apply (partition_and_format_returns self cb disk Hdisk Htruthy) in Hp. split.
  - unfold fstab_preview. rewrite <- Hp.
    destruct (build_fstab_content_run (_executor self) w tr1 answer
                (root_part p) (efi_part p) (home_part p) (swap_part p) Hst)
      as (d & E & _).
    by rewrite (try_except_ok _ _ _ _ _ _ E).
  - destruct (write_fstab_run target (_executor self) w tr2 answer
                (root_part p) (efi_part p) (home_part p) (swap_part p) Hst Hfs)
      as (d & _ & ->).
    cbn [snd]. by rewrite last_snoc.
Qed.

Lemma fstab_preview_agrees_with_install_witness :
  (fstab_preview id (λ _, EmptyString) manual_install (mkCommandExecutor true)
     abcd_world []).1
  = Ok ("PARTUUID=ABCD / ext4 defaults 0 1" +:+ PyStr.nl
        +:+ "/dev/sda1 /boot/efi vfat umask=0077 0 1" +:+ PyStr.nl
        +:+ "/dev/sda3 /home ext4 defaults 0 2" +:+ PyStr.nl
        +:+ "/dev/sda4 none swap sw 0 0" +:+ PyStr.nl).
Proof.
  destruct (fstab_preview_agrees_with_install id (λ _, EmptyString)
              (dry_run_engine manual_install) record_progress abcd_world abcd_answer
              "/dev/sda"
              (mkParts "/dev/sda2" (Some "/dev/sda1") (Some "/dev/sda3") (Some "/dev/sda4"))
              [] [] []) as [H _].
  - by intros tr dev.
  - by intros tr op.
  - reflexivity.
  - reflexivity.
  - by vm_compute.
  - etrans; [exact H|]. by vm_compute.
Defined.

(** ** Runs that succeed *)

Lemma ends_with_done_bind {A B} (m : M A) (f : A → M B) :
  (∀ a, ends_with_done (f a)) → ends_with_done (m ≫= f).
Proof.
  intros Hf w tr. rewrite bind_run.
  destruct (m w tr) as [[a|e] tr1]; [apply Hf | done].
Qed.

Lemma ends_with_done_raise {A} e : ends_with_done (@raise A e).
Proof. by intros w tr. Qed.

Lemma ends_with_done_run_install self :
  ends_with_done (run_install self record_progress).
Proof.
  unfold run_install.
  apply ends_with_done_bind. intros _.
  apply ends_with_done_bind. intros euid.
  destruct (_ && _); [apply ends_with_done_raise|].
  destruct (target_disk _) as [disk|]; [|apply ends_with_done_raise].
  unfold install_steps. do 13 (apply ends_with_done_bind; intros ?).
  unfold finalize. do 3 (apply ends_with_done_bind; intros ?).
  intros w tr _. by eexists.
Qed.

(** X9: what a successful run has reported.  Whatever the world, a run of
    [run_install] that returns normally has handed the progress callback
    exactly the percentages of the plan (5, 15 or 10, then 25 ... 100) and its
    last event is the report [(100, "Done")]. *)
Theorem successful_run_reports_all (self : InstallerEngine) (w : World) :
  let out := run_install self record_progress w [] in
  is_ok out.1 = true →
  percentages out.2 = full_plan self
  ∧ last out.2 = Some (EvProgress 100 "Done").
Proof.
  intros out Hok. split.
  - destruct (reports_run_install self w []) as (d & E & _ & O & _).
    fold out in E, O. simpl in E. by rewrite E, (O Hok).
  - destruct (ends_with_done_run_install self w [] Hok) as [tr' E].
    fold out in E. by rewrite E, last_snoc.
Qed.

Lemma successful_run_reports_all_witness :
  let out := run_install (dry_run_engine erase_sda_with_git) record_progress uefi_host [] in
  percentages out.2 = expected_percentages
  ∧ last out.2 = Some (EvProgress 100 "Done").
Proof.
  apply (successful_run_reports_all (dry_run_engine erase_sda_with_git) uefi_host).
  by vm_compute.
Defined.

Section Forgiving.

Variable w : World.
Hypothesis lenient : forgiving w.

Lemma forgiving_fs op : passes w (fs op).
Proof using lenient. intros tr. unfold fs, perform. simpl. by rewrite (proj1 lenient). Qed.

Lemma forgiving_read_text p : passes w (try_ask (λ w tr, path_read_text w tr p)).
Proof using lenient. intros tr. apply lenient. Qed.

(** A command passes when its failure is tolerated by the caller or excluded
    by the world. *)
Lemma forgiving_run ex args check cwd allow input :
  check = false ∨ tolerated_command args = false →
  passes w (run ex args check cwd allow input).
Proof using lenient.
  intros Hcheck tr. unfold run. destruct (dry_run ex && negb allow); [done|].
  rewrite !bind_run. simpl. rewrite bind_run. unfold perform.
  destruct lenient as (_ & _ & Hrun).
  destruct (Hrun (tr ++ [EvLog INFO
                           ("$ " +:+ PyStr.join " " (map shlex_quote args))])
              args cwd input) as (cp & -> & Hrc).
  destruct Hcheck as [->|Hnot]; [done|].
  rewrite (Hrc Hnot). by rewrite andb_false_r.
Qed.

(** Splits a goal [passes w m] along the binds and branches of [m]. *)
Ltac forgiving_go :=
  lazymatch goal with
  | |- passes _ (_ ≫= _) => apply passes_bind; [|intros ?]
  | |- passes _ (mret _) => apply passes_ret
  | |- passes _ (ask _) => apply passes_ask
  | |- passes _ (exists_path _) => apply passes_ask
  | |- passes _ (log_info _) => apply passes_emit
  | |- passes _ (fs _) => apply forgiving_fs
  | |- passes _ (try_ask _) => apply forgiving_read_text
  | |- passes _ (run _ _ false _ _ _) => apply forgiving_run; by left
  | |- passes _ (run_unchecked _ _) => apply forgiving_run; by left
  | |- passes _ (run _ _ true _ _ _) => apply forgiving_run; right; reflexivity
  | |- passes _ (run_checked _ _) => apply forgiving_run; right; reflexivity
  | |- passes _ (step record_progress _ _) => apply passes_step
  | |- passes _ (for_each _ _) => apply passes_for_each; intros ?
  | |- passes _ (if_truthy _ _) => apply passes_if_truthy; intros ?
  | |- passes _ (if ?b then _ else _) => destruct b
  | |- passes _ (match ?x with _ => _ end) => destruct x
  | |- passes _ (let _ := _ in _) => cbv zeta
  end.

Variable self : InstallerEngine.

Lemma forgiving_build_fstab_content ex root efi home swap :
  passes w (build_fstab_content ex root efi home swap).
Proof using lenient.
  unfold build_fstab_content, _fstype, devref, _fstab_ident, _blkid_export.
  repeat forgiving_go.
Qed.

Lemma forgiving_partition_and_format disk :
  passes w (partition_and_format self record_progress disk).
Proof using lenient. unfold partition_and_format. repeat forgiving_go. Qed.

Lemma forgiving_mount_target p : passes w (mount_target self record_progress p).
Proof using lenient. unfold mount_target. repeat forgiving_go. Qed.

Lemma forgiving_copy_system : passes w (copy_system self record_progress).
Proof using lenient. unfold copy_system. repeat forgiving_go. Qed.

Lemma forgiving_write_fstab p : passes w (write_fstab self record_progress p).
Proof using lenient.
  unfold write_fstab, _write_fstab.
  repeat first [apply forgiving_build_fstab_content | forgiving_go].
Qed.

Lemma forgiving_prepare_chroot : passes w (prepare_chroot self record_progress).
Proof using lenient. unfold prepare_chroot. repeat forgiving_go. Qed.

Lemma forgiving_configure_system : passes w (configure_system self record_progress).
Proof using lenient. unfold configure_system. repeat forgiving_go. Qed.

Lemma forgiving_configure_locale : passes w (configure_locale self record_progress).
Proof using lenient. unfold configure_locale. repeat forgiving_go. Qed.

Lemma forgiving_configure_network : passes w (configure_network self record_progress).
Proof using lenient. unfold configure_network. repeat forgiving_go. Qed.

Lemma forgiving_create_user : passes w (create_user self record_progress).
Proof using lenient. unfold create_user. repeat forgiving_go. Qed.

Lemma forgiving_install_bootloader is_efi disk :
  passes w (install_bootloader self record_progress is_efi disk).
Proof using lenient. unfold install_bootloader. repeat forgiving_go. Qed.

Lemma forgiving_finalize p : passes w (finalize self record_progress p).
Proof using lenient. unfold finalize. repeat forgiving_go. Qed.

Hypothesis some_package :
  Software.arch_packages_for_selection
    (Software.selection_from_config (install (_config self))) ≠ [].

Lemma passes_bind_with {A B} (m : M A) (f : A → M B) (Q : A → Prop) :
  (∀ tr, ∃ a tr', m w tr = (Ok a, tr') ∧ Q a) →
  (∀ a, Q a → passes w (f a)) → passes w (m ≫= f).
Proof.
  intros Hm Hf tr. destruct (Hm tr) as (a & tr' & E & Ha).
  rewrite (bind_ok _ _ _ _ _ _ E). by apply Hf.
Qed.

Lemma passes_then_ret {A B} (m : M A) (v : B) :
  passes w m → ∀ tr, ∃ tr', (m ≫= λ _, mret v) w tr = (Ok v, tr').
Proof.
  intros Hm tr. specialize (Hm tr). rewrite bind_run.
  destruct (m w tr) as [[a|e] tr1]; [by eexists | done].
Qed.

Lemma forgiving_install_software : passes w (install_software self record_progress).
Proof using lenient some_package.
  unfold install_software.
  destruct (Software.arch_packages_for_selection _) as [|pkg pkgs]; [done|].
  cbn [nonempty_list].
  apply passes_bind; [apply passes_step | intros _]. cbv zeta.
  apply (passes_bind_with _ _ is_Some).
  - intros tr. rewrite bind_run. unfold exists_path at 1, ask.
    match goal with
    | |- context [(?m ≫= λ _, mret ?v) w tr] =>
        destruct (passes_then_ret m v) with (tr := tr) as [tr' E]
    end.
    { repeat forgiving_go. }
    exists (Some (dedupe_stable
                    (flatpak_apps (install (_config self))
                     ++ Software.flatpak_appids_for_selection
                          (Software.selection_from_config (install (_config self)))))),
      tr'.
    split; [exact E | by eexists].
  - intros [flatpaks|] [? [=]]. simpl. repeat forgiving_go.
Qed.

Lemma forgiving_install_steps disk :
  passes w (install_steps self record_progress disk).
Proof using lenient some_package.
  unfold install_steps.
  apply passes_bind; [apply passes_ask | intros is_efi].
  apply passes_bind; [apply forgiving_partition_and_format | intros p].
  apply passes_bind; [apply forgiving_mount_target | intros _].
  apply passes_bind; [apply forgiving_copy_system | intros _].
  apply passes_bind; [apply forgiving_write_fstab | intros _].
  apply passes_bind; [apply forgiving_prepare_chroot | intros _].
  apply passes_bind; [apply forgiving_configure_system | intros _].
  apply passes_bind; [apply forgiving_configure_locale | intros _].
  apply passes_bind; [apply forgiving_configure_network | intros _].
  apply passes_bind; [apply forgiving_create_user | intros _].
  apply passes_bind; [apply forgiving_install_software | intros _].
  apply passes_bind; [apply forgiving_install_bootloader | intros _].
  apply forgiving_finalize.
Qed.

Lemma forgiving_run_install :
  (validate_ready self w []).1 = Ok tt →
  (os_geteuid w [] = 0 ∨ dry_run (_executor self) = true) →
  is_ok (run_install self record_progress w []).1 = true.
Proof using lenient some_package.
  intros Hvalid Hpriv. unfold run_install.
  assert (PyStr.truthy_opt (target_disk (install (_config self))) = true) as Hdisk.
  { unfold validate_ready in Hvalid. by destruct (PyStr.truthy_opt _). }
  rewrite bind_run.
  pose proof (validate_ready_trace self w []) as Htr.
  destruct (validate_ready self w []) as [[[]|e] tr']; simpl in *; [subst tr'|done].
  rewrite bind_run. unfold ask.
  replace (negb (os_geteuid w [] =? 0) && negb (dry_run (_executor self)))
    with false.
  2:{ destruct Hpriv as [->| ->]; [done|by rewrite andb_false_r]. }
  destruct (target_disk _) as [disk|]; [|done].
  apply forgiving_install_steps.
Qed.

End Forgiving.

(** X10: the install completes when only tolerated commands fail.  For a valid
    configuration with at least one native package selected, run as root or in
    dry-run mode, in a world where file operations succeed and every command
    succeeds except possibly those the engine starts with [check=False]
    ([blkid], [swapon], [swapoff], [umount], and in the chroot [useradd],
    [pacman], [flatpak], [locale-gen], [systemctl enable]): [run_install]
    returns normally, having reported the whole plan, with [(100, "Done")]
    last. *)
Theorem run_install_completes (self : InstallerEngine) (w : World) :
  forgiving w →
  (validate_ready self w []).1 = Ok tt →
  (os_geteuid w [] = 0 ∨ dry_run (_executor self) = true) →
  Software.arch_packages_for_selection
    (Software.selection_from_config (install (_config self))) ≠ [] →
  let out := run_install self record_progress w [] in
  out.1 = Ok tt
  ∧ percentages out.2 = full_plan self
  ∧ last out.2 = Some (EvProgress 100 "Done").
Proof.
  intros Hw Hvalid Hpriv Hpkgs out.
  pose proof (forgiving_run_install w Hw self Hpkgs Hvalid Hpriv) as Hok.
  fold out in Hok. split; [by destruct out.1 as [[]|]|].
  split.
  - destruct (reports_run_install self w []) as (d & E & _ & O & _).
    fold out in E, O. simpl in E. by rewrite E, (O Hok).
  - destruct (ends_with_done_run_install self w [] Hok) as [tr' E].
    fold out in E. by rewrite E, last_snoc.
Qed.

Lemma grudging_world_forgiving : forgiving grudging_world.
Proof.
  split; [done|]. split; [done|].
  intros tr args cwd input. eexists. split; [reflexivity|].
  simpl. by intros ->.
Qed.

Lemma run_install_completes_witness :
  let out := run_install (real_engine erase_sda_with_git) record_progress
               grudging_world [] in
  out.1 = Ok tt
  ∧ percentages out.2 = expected_percentages
  ∧ last out.2 = Some (EvProgress 100 "Done").
Proof.
  apply (run_install_completes (real_engine erase_sda_with_git) grudging_world).
  - apply grudging_world_forgiving.
  - reflexivity.
  - left. reflexivity.
  - by vm_compute.
Defined.

(** ** A failed command stops the run *)

Lemma step_run pct msg w tr :
  step record_progress pct msg w tr
  = (Ok tt, (tr ++ [EvLog INFO (PyStr.of_Z pct +:+ "% " +:+ msg)])
            ++ [EvProgress pct msg]).
Proof. reflexivity. Qed.

Lemma wipefs_failure_run (self : InstallerEngine) (w : World)
    (disk : string) (cp : CommandResult) :
  (validate_ready self w []).1 = Ok tt →
  os_geteuid w [] = 0 →
  dry_run (_executor self) = false →
  erase_disk (install (_config self)) = true →
  target_disk (install (_config self)) = Some disk →
  (∀ tr, subprocess_run w tr ["wipefs"; "-a"; disk] None None = Ok cp) →
  returncode cp ≠ 0 →
  ∃ errlog,
    run_install self record_progress w []
    = (Raise (RuntimeError ("Command failed (" +:+ PyStr.of_Z (returncode cp)
                            +:+ "): wipefs -a " +:+ shlex_quote disk)),
       [EvLog INFO "5% Partitioning disk"; EvProgress 5 "Partitioning disk";
        EvLog INFO ("$ wipefs -a " +:+ shlex_quote disk);
        EvSpawn ["wipefs"; "-a"; disk] None None;
        EvLog ERROR errlog]).
Proof.
  intros Hvalid Heuid Hdry Herase Hdisk Hspawn Hrc.
  assert (validate_ready self w [] = (Ok tt, [])) as Ev.
  { pose proof (validate_ready_trace self w []) as Htr.
    destruct (validate_ready self w []) as [[[]|e] tr']; cbn [fst snd] in *;
      [by subst|done]. }
  eexists. unfold run_install.
  rewrite (bind_ok _ _ _ _ _ _ Ev).
  rewrite bind_run. unfold ask. rewrite Heuid, Hdisk. cbn [negb andb Z.eqb].
  unfold install_steps.
  rewrite bind_run. unfold exists_path at 1, ask.
  apply bind_raise.
  unfold partition_and_format. rewrite Herase.
  rewrite (bind_ok _ _ _ _ _ _ (step_run _ _ _ _)).
  apply bind_raise. unfold run_checked.
  rewrite run_real by (by rewrite Hdry). rewrite Hspawn.
  destruct (Z.eqb_spec (returncode cp) 0) as [|_]; [done|].
  cbn [andb negb]. reflexivity.
Qed.

(** X11: a failing [wipefs] stops the erase-disk install at once.  For a valid
    erase-disk configuration run as root outside dry-run mode, if [wipefs]
    ends with a non-zero return code then [run_install] raises the
    [RuntimeError] for that command: [wipefs] is the only process that was
    started, no file was touched, and 5 is the only percentage reported. *)
Theorem erase_stops_when_wipefs_fails (self : InstallerEngine) (w : World)
    (disk : string) (cp : CommandResult) :
  (validate_ready self w []).1 = Ok tt →
  os_geteuid w [] = 0 →
  dry_run (_executor self) = false →
  erase_disk (install (_config self)) = true →
  target_disk (install (_config self)) = Some disk →
  (∀ tr, subprocess_run w tr ["wipefs"; "-a"; disk] None None = Ok cp) →
  returncode cp ≠ 0 →
  let out := run_install self record_progress w [] in
  out.1 = Raise (RuntimeError ("Command failed (" +:+ PyStr.of_Z (returncode cp)
                               +:+ "): wipefs -a " +:+ shlex_quote disk))
  ∧ spawned out.2 = [["wipefs"; "-a"; disk]]
  ∧ file_operations out.2 = []
  ∧ percentages out.2 = [5].
Proof.
  intros Hvalid Heuid Hdry Herase Hdisk Hspawn Hrc out.
  destruct (wipefs_failure_run self w disk cp Hvalid Heuid Hdry Herase Hdisk
              Hspawn Hrc) as [errlog E].
  unfold out. by rewrite E.
Qed.

Lemma erase_stops_when_wipefs_fails_witness :
  let out := run_install (real_engine erase_sda_install) record_progress
               (mkWorld (λ _, 0) (λ _ _, false) (λ _ _, false)
                        (λ _ _, Ok EmptyString) (λ _ _, Ok tt)
                        (λ _ _ _ _, Ok (mkCommandResult 1 EmptyString "wipefs: error"))
                        (λ _, EmptyString)) [] in
  out.1 = Raise (RuntimeError "Command failed (1): wipefs -a /dev/sda")
  ∧ spawned out.2 = [["wipefs"; "-a"; "/dev/sda"]]
  ∧ file_operations out.2 = []
  ∧ percentages out.2 = [5].
Proof.
  apply (erase_stops_when_wipefs_fails (real_engine erase_sda_install) _ "/dev/sda"
           (mkCommandResult 1 EmptyString "wipefs: error"));
    first [reflexivity | discriminate | by intros].
Defined.

(** ** The catalogues of the software planner *)

Lemma keep_first_nil_iff l : keep_first l = [] ↔ l = [].
Proof. by destruct l. Qed.

Lemma arch_packages_raw_nil_iff sel :
  Software.arch_packages_raw sel = [] ↔ native_items_selected sel = false.
Proof.
  unfold Software.arch_packages_raw, native_items_selected, Software.add_if.
  destruct sel as [g c a d nv gs gl gw gm gg cg ci cb ck ca al ag dg db dp dn dv].
  simpl.
  destruct nv, g, gw, gm, gg, c, a, d, dg, db, dp, dn; by split.
Qed.

(** X12: when the native package list is empty.  [arch_packages_for_selection]
    returns the empty list exactly when neither the NVIDIA driver nor any
    natively packaged item (wine, mangohud, gamemode; git, base-devel, python,
    nodejs) is selected together with its bundle: the creators and accountants
    bundles, Steam, Lutris and VS Code never contribute a native package. *)
Theorem arch_packages_empty_iff (sel : Software.SoftwareSelection) :
  Software.arch_packages_for_selection sel = [] ↔ native_items_selected sel = false.
Proof.
  unfold Software.arch_packages_for_selection.
  by rewrite dedupe_stable_keep_first, keep_first_nil_iff, arch_packages_raw_nil_iff.
Qed.

(** X13: an install without native packages never completes.  Whenever the
    configuration selects no natively packaged item (nothing at all, or only
    software delivered through Flatpak), [run_install] does not return
    normally, whatever the mode and the world, and reports nothing beyond
    88. *)
Theorem install_without_native_items_fails (self : InstallerEngine) (w : World) :
  native_items_selected (Software.selection_from_config (install (_config self)))
  = false →
  let out := run_install self record_progress w [] in
  is_ok out.1 = false ∧ ∀ p, p ∈ percentages out.2 → p ≤ 88.
Proof.
  intros Hnone out.
  assert (Software.arch_packages_for_selection
            (Software.selection_from_config (install (_config self))) = []) as Hno.
  { unfold Software.arch_packages_for_selection.
    by rewrite dedupe_stable_keep_first, keep_first_nil_iff, arch_packages_raw_nil_iff. }
  destruct (without_packages_never_ok self w Hno) as [Hok [k Hk]].
  split; [done|]. intros p Hp. apply (plan_to_software_bound self).
  rewrite Hk. apply elem_of_app. by left.
Qed.

Lemma install_without_native_items_fails_witness :
  let out := run_install
               (dry_run_engine
                  (mkInstallConfig (Some "/dev/sda") true
                     EmptyString EmptyString EmptyString EmptyString
                     true false false false
                     "vistula" "user" "secret" "Europe/Warsaw" "pl" "pl_PL.UTF-8" false
                     true EmptyString EmptyString
                     false true false false false
                     false false false false false
                     true true false false false
                     false false
                     false false false false false
                     ["org.videolan.VLC"]))
               record_progress uefi_host [] in
  is_ok out.1 = false ∧ ∀ p, p ∈ percentages out.2 → p ≤ 88.
Proof.
  apply (install_without_native_items_fails (dry_run_engine _) uefi_host).
  reflexivity.
Defined.

Lemma sublist_add_if flag items pkgs pre :
  pkgs `sublist_of` pre → Software.add_if flag items pkgs `sublist_of` pre ++ items.
Proof.
  intros H. destruct flag; simpl.
  - by apply sublist_app.
  - by apply sublist_inserts_r.
Qed.

(** Follows a raw list along the segments of its catalogue. *)
Ltac catalogue_go :=
  repeat first
    [ apply sublist_nil_l
    | apply sublist_add_if
    | apply sublist_inserts_r ].

Lemma arch_packages_raw_sublist sel :
  Software.arch_packages_raw sel `sublist_of` arch_catalogue.
Proof.
  change arch_catalogue
    with (((((((([] ++ ["nvidia"; "nvidia-utils"; "lib32-nvidia-utils"])
                ++ ["wine"; "winetricks"]) ++ ["mangohud"]) ++ ["gamemode"])
             ++ ["git"]) ++ ["base-devel"]) ++ ["python"]) ++ ["nodejs"; "npm"]).
  unfold Software.arch_packages_raw.
  destruct (Software.gamers sel), (Software.creators sel),
    (Software.accountants sel), (Software.developers sel); cbv zeta; catalogue_go.
Qed.

Lemma flatpak_appids_raw_sublist sel :
  Software.flatpak_appids_raw sel `sublist_of` flatpak_catalogue.
Proof.
  change flatpak_catalogue
    with (((((((((([] ++ ["com.valvesoftware.Steam"]) ++ ["net.lutris.Lutris"])
                  ++ ["org.gimp.GIMP"]) ++ ["org.inkscape.Inkscape"])
                ++ ["org.blender.Blender"]) ++ ["org.kde.kdenlive"])
              ++ ["org.audacityteam.Audacity"]) ++ ["org.libreoffice.LibreOffice"])
            ++ ["org.gnucash.GnuCash"]) ++ ["com.visualstudio.code"]).
  unfold Software.flatpak_appids_raw.
  destruct (Software.gamers sel), (Software.creators sel),
    (Software.accountants sel), (Software.developers sel); cbv zeta; catalogue_go.
Qed.

Lemma filter_all {A} (P : A → Prop) `{∀ x, Decision (P x)} (l : list A) :
  Forall P l → filter P l = l.
Proof.
  induction 1 as [|x l Hx _ IH]; [done|].
  rewrite filter_cons_True by done. by f_equal.
Qed.

Lemma keep_first_NoDup l : NoDup l → keep_first l = l.
Proof.
  induction 1 as [|x l Hx _ IH]; [done|]. simpl. rewrite IH. f_equal.
  apply filter_all, Forall_forall. by intros y Hy ->.
Qed.

(** X14: the planners follow their catalogues.  For every selection, each
    planner returns a sublist of its fixed catalogue: the identifiers always
    come in the catalogue's order, and the deduplication loop never removes
    anything, the result being the list as the flags contributed it. *)
Theorem planners_follow_catalogue (sel : Software.SoftwareSelection) :
  Software.arch_packages_for_selection sel `sublist_of` arch_catalogue
  ∧ Software.arch_packages_for_selection sel = Software.arch_packages_raw sel
  ∧ Software.flatpak_appids_for_selection sel `sublist_of` flatpak_catalogue
  ∧ Software.flatpak_appids_for_selection sel = Software.flatpak_appids_raw sel.
Proof.
  assert (NoDup arch_catalogue) as Ha.
  { apply (bool_decide_unpack _). by vm_compute. }
  assert (NoDup flatpak_catalogue) as Hf.
  { apply (bool_decide_unpack _). by vm_compute. }
  pose proof (arch_packages_raw_sublist sel) as Hsa.
  pose proof (flatpak_appids_raw_sublist sel) as Hsf.
  unfold Software.arch_packages_for_selection, Software.flatpak_appids_for_selection.
  rewrite !dedupe_stable_keep_first.
  rewrite (keep_first_NoDup _ (sublist_NoDup _ _ Ha Hsa)).
  by rewrite (keep_first_NoDup _ (sublist_NoDup _ _ Hf Hsf)).
Qed.

(** ** Parsing the export format of [blkid] *)

Lemma not_linebreak_lf_cr c :
  PyStr.is_linebreak c = false → PyStr.is_lf c = false ∧ PyStr.is_cr c = false.
Proof.
  unfold PyStr.is_linebreak, PyStr.is_lf, PyStr.is_cr, PyStr.in_range.
  intros H. apply orb_false_iff in H as [H _]. apply orb_false_iff in H as [H _].
  split; apply Nat.eqb_neq; intros E; rewrite E in H; done.
Qed.

Lemma all_chars_app p s1 s2 :
  PyStr.all_chars p (s1 +:+ s2) = PyStr.all_chars p s1 && PyStr.all_chars p s2.
Proof.
  induction s1 as [|c s1 IH]; [done|].
  change (p c && PyStr.all_chars p (s1 +:+ s2)
          = p c && PyStr.all_chars p s1 && PyStr.all_chars p s2).
  by rewrite IH, andb_assoc.
Qed.

(** One step of the line scanner on a non-empty text. *)
Lemma splitlines_go_cons keepends c s cur after_cr :
  PyStr.splitlines_go keepends (String c s) cur after_cr
  = let keep c := if keepends then PyStr.single c else EmptyString in
    if PyStr.is_lf c && after_cr then
      (cur +:+ keep c) :: PyStr.splitlines_go keepends s EmptyString false
    else if PyStr.is_cr c && PyStr.starts_with_lf s then
      PyStr.splitlines_go keepends s (cur +:+ keep c) true
    else if PyStr.is_linebreak c then
      (cur +:+ keep c) :: PyStr.splitlines_go keepends s EmptyString false
    else
      PyStr.splitlines_go keepends s (cur +:+ PyStr.single c) false.
Proof. reflexivity. Qed.

(** One line without a line break in it, then the rest. *)
Lemma splitlines_go_line l rest cur :
  no_linebreak l →
  PyStr.splitlines_go false (l +:+ PyStr.nl +:+ rest) cur false
  = (cur +:+ l) :: PyStr.splitlines_go false rest EmptyString false.
Proof.
  revert cur. induction l as [|c l IH]; intros cur Hl.
  - reflexivity.
  - unfold no_linebreak in Hl.
    change (negb (PyStr.is_linebreak c)
            && PyStr.all_chars (λ c, negb (PyStr.is_linebreak c)) l = true) in Hl.
    apply andb_true_iff in Hl as [Hc Hl]. apply negb_true_iff in Hc.
    destruct (not_linebreak_lf_cr c Hc) as [Hlf Hcr].
    change (String c l +:+ PyStr.nl +:+ rest)
      with (String c (l +:+ PyStr.nl +:+ rest)).
    rewrite splitlines_go_cons. cbv zeta.
    rewrite Hlf, Hcr, Hc. cbn [andb]. rewrite (IH _ Hl).
    by rewrite append_assoc.
Qed.

Lemma split1_at_first k v :
  PyStr.contains "=" k = false → PyStr.split1 "=" (k +:+ "=" +:+ v) = Some (k, v).
Proof.
  induction k as [|c k IH]; intros Hk; [done|].
  change (PyStr.startswith "=" (String c k) || PyStr.contains "=" k = false) in Hk.
  apply orb_false_iff in Hk as [Hc Hk].
  change ((if Ascii.eqb "=" c then true else false) = false) in Hc.
  change (PyStr.split1 "=" (String c k +:+ "=" +:+ v))
    with (if Ascii.eqb c "=" then Some (EmptyString, k +:+ "=" +:+ v)
          else match PyStr.split1 "=" (k +:+ "=" +:+ v) with
               | Some (k', v') => Some (String c k', v')
               | None => None
               end).
  rewrite Ascii.eqb_sym. destruct (Ascii.eqb "=" c); [done|]. by rewrite (IH Hk).
Qed.

Lemma blkid_line_pair out k v :
  export_key k → export_value v →
  blkid_line out (k +:+ "=" +:+ v) = <[k:=v]> out.
Proof.
  intros (_ & Hk & Hks) (_ & Hvs). unfold blkid_line.
  assert (PyStr.contains "=" (k +:+ "=" +:+ v) = true) as ->.
  { apply contains_spec. by exists k, v. }
  simpl. by rewrite (split1_at_first k v Hk), Hks, Hvs.
Qed.

Lemma splitlines_export_text kvs :
  Forall (λ kv, export_key kv.1 ∧ export_value kv.2) kvs →
  PyStr.splitlines false (export_text kvs) = (λ kv, kv.1 +:+ "=" +:+ kv.2) <$> kvs.
Proof.
  unfold PyStr.splitlines.
  induction 1 as [|[k v] kvs [(Hk & _) (Hv & _)] _ IH]; [done|].
  rewrite fmap_cons, <- IH. simpl in *.
  assert (k +:+ "=" +:+ v +:+ PyStr.nl +:+ export_text kvs
          = (k +:+ "=" +:+ v) +:+ PyStr.nl +:+ export_text kvs) as ->.
  { by rewrite <- !append_assoc. }
  rewrite splitlines_go_line; [done|].
  unfold no_linebreak in *. by rewrite !all_chars_app, Hk, Hv.
Qed.
Lemma foldl_insert_reverse (kvs : list (string * string)) (m : gmap string string) :
  foldl (λ m kv, <[kv.1:=kv.2]> m) m kvs
  = foldr (λ kv m, <[kv.1:=kv.2]> m) m (reverse kvs).
Proof.
  revert m. induction kvs as [|kv kvs IH]; intros m; [done|].
  simpl. by rewrite IH, reverse_cons, foldr_app.
Qed.

(** X15: the parser reads back what [blkid -o export] prints.  For any list of
    pairs whose keys are words without [=] and whose values have no line break
    and no blank at either end, parsing the text with one [KEY=value] a line
    gives the map of those pairs, a later line for a key replacing an earlier
    one. *)
Theorem blkid_parse_export_text (kvs : list (string * string)) :
  Forall (λ kv, export_key kv.1 ∧ export_value kv.2) kvs →
  blkid_parse (export_text kvs) = list_to_map (reverse kvs).
Proof.
  intros Hkvs. unfold blkid_parse. rewrite (splitlines_export_text kvs Hkvs).
  transitivity (foldl (λ m kv, <[kv.1:=kv.2]> m) (∅ : gmap string string) kvs).
  - generalize (∅ : gmap string string).
    induction Hkvs as [|[k v] kvs [Hk Hv] _ IH]; intros m; [done|].
    simpl. rewrite (blkid_line_pair m k v Hk Hv). apply IH.
  - by rewrite foldl_insert_reverse.
Qed.

Lemma blkid_parse_export_text_witness :
  blkid_parse ("UUID=1234-ABCD" +:+ PyStr.nl +:+ "TYPE=vfat" +:+ PyStr.nl
               +:+ "PARTUUID=0a1b" +:+ PyStr.nl)
  = list_to_map [("PARTUUID", "0a1b"); ("TYPE", "vfat"); ("UUID", "1234-ABCD")].
Proof.
  apply (blkid_parse_export_text
           [("UUID", "1234-ABCD"); ("TYPE", "vfat"); ("PARTUUID", "0a1b")]).
  repeat constructor.
Defined.

(** ** Searching for Flatpak applications *)

Lemma or_empty_some s : Flatpak.or_empty (Some s) = s.
Proof. by destruct s. Qed.

Lemma rstrip_empty s :
  PyStr.empty (PyStr.rstrip s) = PyStr.all_chars PyStr.is_space s.
Proof.
  induction s as [|c s IH]; [done|]. simpl. rewrite <- IH.
  by destruct (PyStr.is_space c), (PyStr.empty (PyStr.rstrip s)).
Qed.

Lemma lstrip_rstrip_empty s :
  PyStr.empty (PyStr.lstrip (PyStr.rstrip s)) = PyStr.empty (PyStr.rstrip s).
Proof.
  induction s as [|c s IH]; [done|]. simpl.
  destruct (PyStr.is_space c) eqn:Hc, (PyStr.empty (PyStr.rstrip s)) eqn:Hr;
    simpl; rewrite ?Hc; first [done | by rewrite IH].
Qed.

(** A text strips to nothing exactly when it is all white space. *)
Lemma strip_empty s :
  PyStr.empty (PyStr.strip s) = PyStr.all_chars PyStr.is_space s.
Proof. unfold PyStr.strip. by rewrite lstrip_rstrip_empty, rstrip_empty. Qed.

(** A search that is run: the two events of the command, then the answer. *)
Lemma search_run ex q w tr :
  let tr1 := tr ++ [EvLog INFO ("$ " +:+ PyStr.join " " (map shlex_quote (Flatpak.search_argv q)))] in
  run ex (Flatpak.search_argv q) false None true None w tr
  = (subprocess_run w tr1 (Flatpak.search_argv q) None None,
     tr1 ++ [EvSpawn (Flatpak.search_argv q) None None]).
Proof.
  intros tr1. rewrite run_real by (by destruct (dry_run ex)).
  fold tr1. by destruct (subprocess_run _ _ _ _ _).
Qed.

(** The loop returns the first [search_cap limit] rows. *)
Lemma search_loop_take limit lines apps :
  (length apps < search_cap limit)%nat →
  Flatpak.search_loop limit lines apps
  = apps ++ take (search_cap limit - length apps) (all_rows lines).
Proof.
  unfold all_rows. revert apps.
  induction lines as [|raw lines IH]; intros apps Hlen; simpl.
  - by rewrite take_nil, app_nil_r.
  - destruct (Flatpak.search_row raw) as [app|]; [|by apply IH].
    assert (length (apps ++ [app]) = S (length apps)) as Hl.
    { rewrite length_app. simpl. lia. }
    destruct (search_cap limit - length apps)%nat as [|n] eqn:Hn; [lia|].
    simpl. rewrite Hl.
    destruct (Z.geb_spec (Z.of_nat (S (length apps))) limit) as [Hge|Hlt].
    + assert (n = 0%nat) as -> by (unfold search_cap in *; lia).
      by rewrite take_0.
    + rewrite IH by (unfold search_cap in *; lia).
      rewrite Hl, <- (assoc_L (++)). simpl.
      by replace (search_cap limit - S (length apps))%nat with n by lia.
Qed.

Lemma search_loop_all limit lines :
  Flatpak.search_loop limit lines [] = take (search_cap limit) (all_rows lines).
Proof.
  rewrite search_loop_take by (unfold search_cap; simpl; lia).
  simpl. by rewrite Nat.sub_0_r.
Qed.

(** A row that is kept is well formed. *)
Lemma search_row_well_formed raw a :
  Flatpak.search_row raw = Some a → well_formed_app a.
Proof.
  unfold Flatpak.search_row.
  destruct (negb _); [done|]. destruct (_ && _); [done|].
  destruct (_ <? _)%nat; [done|].
  destruct (PyStr.contains "/" _ || PyStr.contains " " _) eqn:Hc; [done|].
  destruct (negb (PyStr.truthy _)) eqn:Ht; [done|].
  intros [= <-]. apply orb_false_iff in Hc as [H1 H2].
  split_and!; simpl; [|done|done].
  intros E. rewrite E in Ht. done.
Qed.

Lemma all_rows_well_formed lines : Forall well_formed_app (all_rows lines).
Proof.
  unfold all_rows. induction lines as [|raw lines IH]; simpl; [done|].
  destruct (Flatpak.search_row raw) eqn:E; [|done].
  constructor; [by eapply search_row_well_formed | done].
Qed.

(** What a search returns, for every limit at once. *)
Lemma search_flatpak_result ex query w tr :
  (∃ e, ∀ limit, (Flatpak.search_flatpak ex query limit w tr).1 = Raise e)
  ∨ (∃ lines, ∀ limit,
       (Flatpak.search_flatpak ex query limit w tr).1
       = Ok (take (search_cap limit) (all_rows lines))).
Proof.
  unfold Flatpak.search_flatpak.
  set (q := PyStr.strip (Flatpak.or_empty query)).
  destruct (negb (PyStr.truthy q)).
  { right. exists []. intros limit. by destruct (search_cap limit). }
  destruct (run ex (Flatpak.search_argv q) false None true None w tr)
    as [[res|e] tr'] eqn:Hrun.
  - right. destruct (negb (returncode res =? 0)) eqn:Hrc.
    + exists []. intros limit. rewrite (bind_ok _ _ _ _ _ _ Hrun), Hrc.
      by destruct (search_cap limit).
    + exists (PyStr.splitlines false (stdout res)). intros limit.
      rewrite (bind_ok _ _ _ _ _ _ Hrun), Hrc, or_empty_some.
      by rewrite search_loop_all.
  - left. exists e. intros limit. by rewrite (bind_raise _ _ _ _ _ _ Hrun).
Qed.

(** *** Reading back tab-separated rows *)

Lemma all_chars_impl (p q : ascii → bool) s :
  (∀ c, p c = true → q c = true) →
  PyStr.all_chars p s = true → PyStr.all_chars q s = true.
Proof.
  intros Hpq. induction s as [|c s IH]; [done|]. simpl.
  rewrite !andb_true_iff. intros [Hc Hs]. split; [by apply Hpq | by apply IH].
Qed.

Lemma lstrip_chars_id chars s :
  PyStr.all_chars (λ c, negb (Flatpak.is_in chars c)) s = true →
  Flatpak.lstrip_chars chars s = s.
Proof.
  destruct s as [|c s]; [done|]. simpl.
  rewrite andb_true_iff, negb_true_iff. by intros [-> _].
Qed.

Lemma rstrip_chars_id chars s :
  PyStr.all_chars (λ c, negb (Flatpak.is_in chars c)) s = true →
  Flatpak.rstrip_chars chars s = s.
Proof.
  induction s as [|c s IH]; [done|]. simpl.
  rewrite andb_true_iff, negb_true_iff. intros [-> Hs]. by rewrite (IH Hs).
Qed.

Lemma is_in_nl c : Flatpak.is_in PyStr.nl c = PyStr.is_lf c.
Proof. by destruct c as [[] [] [] [] [] [] [] []]. Qed.

(** Nothing is stripped from a line that [splitlines] returned. *)
Lemma strip_chars_nl s :
  no_linebreak s → Flatpak.strip_chars PyStr.nl s = s.
Proof.
  intros Hs.
  assert (PyStr.all_chars (λ c, negb (Flatpak.is_in PyStr.nl c)) s = true) as H.
  { revert Hs. apply all_chars_impl. intros c Hc.
    apply negb_true_iff in Hc. rewrite is_in_nl.
    by destruct (not_linebreak_lf_cr c Hc) as [-> _]. }
  unfold Flatpak.strip_chars. by rewrite (rstrip_chars_id _ _ H), (lstrip_chars_id _ _ H).
Qed.

Lemma lstrip_head s c r : PyStr.lstrip s = String c r → PyStr.is_space c = false.
Proof.
  induction s as [|a s IH]; [done|]. simpl.
  destruct (PyStr.is_space a) eqn:Ha; [done|]. by intros [= <- _].
Qed.

(** A text that begins with a stripped, non-empty text is not blank. *)
Lemma strip_truthy_app s rest :
  s ≠ EmptyString → PyStr.strip s = s →
  PyStr.truthy (PyStr.strip (s +:+ rest)) = true.
Proof.
  intros Hne Hs. destruct s as [|c r]; [done|].
  apply lstrip_head in Hs.
  unfold PyStr.truthy. rewrite strip_empty.
  change (negb (PyStr.is_space c && PyStr.all_chars PyStr.is_space (r +:+ rest)) = true).
  by rewrite Hs.
Qed.

Lemma split_char_none sep s :
  PyStr.contains (PyStr.single sep) s = false → Flatpak.split_char sep s = [s].
Proof.
  induction s as [|c s IH]; [done|].
  change ((if Ascii.eqb sep c then true else false)
          || PyStr.contains (PyStr.single sep) s = false
          → Flatpak.split_char sep (String c s) = [String c s]).
  rewrite orb_false_iff. intros [Hc Hs]. simpl.
  rewrite Ascii.eqb_sym. destruct (Ascii.eqb sep c); [done|]. by rewrite (IH Hs).
Qed.

Lemma split_char_app sep s rest :
  PyStr.contains (PyStr.single sep) s = false →
  Flatpak.split_char sep (s +:+ PyStr.single sep +:+ rest)
  = s :: Flatpak.split_char sep rest.
Proof.
  induction s as [|c s IH].
  - intros _. change (Flatpak.split_char sep (String sep rest) = EmptyString :: Flatpak.split_char sep rest).
    simpl. by rewrite Ascii.eqb_refl.
  - change ((if Ascii.eqb sep c then true else false)
            || PyStr.contains (PyStr.single sep) s = false
            → Flatpak.split_char sep (String c (s +:+ PyStr.single sep +:+ rest))
              = String c s :: Flatpak.split_char sep rest).
    rewrite orb_false_iff. intros [Hc Hs]. simpl.
    rewrite Ascii.eqb_sym. destruct (Ascii.eqb sep c); [done|]. by rewrite (IH Hs).
Qed.

Lemma columns_tab_row a :
  listable a →
  Flatpak.columns (tab_row a)
  = [Flatpak.appid a; Flatpak.name a; Flatpak.description a].
Proof.
  intros ((_ & Ha & Has) & (_ & Hn & Hns) & (_ & Hd & Hds) & _).
  unfold Flatpak.columns, tab_row.
  assert (PyStr.contains PyStr.tab
            (Flatpak.appid a +:+ PyStr.tab +:+ Flatpak.name a
             +:+ PyStr.tab +:+ Flatpak.description a) = true) as ->.
  { apply contains_spec. by eexists _, _. }
  change PyStr.tab with (PyStr.single (ascii_of_nat 9)) in *.
  rewrite (split_char_app _ _ _ Ha), (split_char_app _ _ _ Hn), (split_char_none _ _ Hd).
  simpl. by rewrite Has, Hns, Hds.
Qed.

Lemma no_linebreak_tab_row a : listable a → no_linebreak (tab_row a).
Proof.
  intros ((Ha & _) & (Hn & _) & (Hd & _) & _).
  unfold no_linebreak, tab_row in *. by rewrite !all_chars_app, Ha, Hn, Hd.
Qed.

(** The row of a listable application is read back as that application. *)
Lemma search_row_tab_row a :
  listable a → Flatpak.search_row (tab_row a) = Some a.
Proof.
  intros Ha. pose proof (columns_tab_row a Ha) as Hcols.
  pose proof (no_linebreak_tab_row a Ha) as Hnl.
  destruct Ha as ((_ & _ & Has) & _ & _ & (Hne & Hslash & Hblank) & Hhead).
  unfold Flatpak.search_row. rewrite (strip_chars_nl _ Hnl).
  unfold tab_row at 1. rewrite (strip_truthy_app _ _ Hne Has).
  fold (is_header (tab_row a)). rewrite Hhead, Hcols. simpl.
  rewrite Hslash, Hblank. simpl.
  destruct a as [[|c i] n d]; [done|]. done.
Qed.

Lemma splitlines_tab_text rows :
  Forall listable rows →
  PyStr.splitlines false (tab_text rows) = tab_row <$> rows.
Proof.
  unfold PyStr.splitlines.
  induction 1 as [|a rows Ha _ IH]; [done|].
  rewrite fmap_cons, <- IH.
  change (tab_text (a :: rows)) with (tab_row a +:+ PyStr.nl +:+ tab_text rows).
  rewrite splitlines_go_line; [done | by apply no_linebreak_tab_row].
Qed.

Lemma all_rows_tab_rows rows :
  Forall listable rows → all_rows (tab_row <$> rows) = rows.
Proof.
  unfold all_rows. induction 1 as [|a rows Ha _ IH]; [done|].
  rewrite fmap_cons. simpl. rewrite (search_row_tab_row a Ha). simpl. by f_equal.
Qed.

Lemma search_flatpak_blank ex query limit w tr :
  PyStr.all_chars PyStr.is_space (Flatpak.or_empty query) = true →
  Flatpak.search_flatpak ex query limit w tr = (Ok [], tr).
Proof.
  intros Hblank. unfold Flatpak.search_flatpak, PyStr.truthy.
  by rewrite strip_empty, Hblank.
Qed.

(** A search with a query that is not blank, unfolded to the answer of the
    process. *)
Lemma search_flatpak_run ex query limit w tr :
  let q := PyStr.strip (Flatpak.or_empty query) in
  let tr1 :=
    tr ++ [EvLog INFO ("$ " +:+ PyStr.join " " (map shlex_quote (Flatpak.search_argv q)))] in
  let tr2 := tr1 ++ [EvSpawn (Flatpak.search_argv q) None None] in
  PyStr.all_chars PyStr.is_space (Flatpak.or_empty query) = false →
  Flatpak.search_flatpak ex query limit w tr
  = match subprocess_run w tr1 (Flatpak.search_argv q) None None with
    | Raise e => (Raise e, tr2)
    | Ok cp =>
        if returncode cp =? 0 then
          (Ok (take (search_cap limit) (all_rows (PyStr.splitlines false (stdout cp)))),
           tr2)
        else
          (Ok [], tr2 ++ [EvLog INFO ("flatpak search failed (rc="
                                      +:+ PyStr.of_Z (returncode cp) +:+ ")")])
    end.
Proof.
  intros q tr1 tr2 Hq. unfold Flatpak.search_flatpak, PyStr.truthy.
  rewrite strip_empty, Hq. fold q.
  change (negb (negb false)) with false. cbv iota.
  rewrite bind_run, search_run. fold tr1 tr2.
  destruct (subprocess_run w tr1 (Flatpak.search_argv q) None None) as [cp|e]; [|done].
  destruct (returncode cp =? 0); [|done].
  change (negb true) with false. cbv iota.
  by rewrite or_empty_some, search_loop_all.
Qed.

(** X16.  A search starts at most one process.  With a query that is [None]
    or all white space it returns the empty list and leaves no event: nothing
    is logged and no process is started.  With any other query it logs and
    starts [flatpak search --columns=application,name,description <query>] for
    the stripped query, also when the executor is in dry-run mode, and
    whatever follows in the trace is a log line. *)
Theorem search_flatpak_query (ex : CommandExecutor) (query : option string)
    (limit : Z) (w : World) (tr : trace) :
  let q := PyStr.strip (Flatpak.or_empty query) in
  if PyStr.all_chars PyStr.is_space (Flatpak.or_empty query) then
    Flatpak.search_flatpak ex query limit w tr = (Ok [], tr)
  else
    ∃ rest,
      (Flatpak.search_flatpak ex query limit w tr).2
      = tr ++ [EvLog INFO ("$ flatpak search --columns=application,name,description "
                           +:+ shlex_quote q);
               EvSpawn ["flatpak"; "search"; "--columns=application,name,description"; q]
                       None None]
           ++ rest
      ∧ Forall (λ e, ∃ msg, e = EvLog INFO msg) rest.
Proof.
  intros q. destruct (PyStr.all_chars _ _) eqn:Hq.
  - by apply search_flatpak_blank.
  - rewrite (search_flatpak_run ex query limit w tr Hq). fold q.
    destruct (subprocess_run _ _ _ _ _) as [cp|e].
    + destruct (returncode cp =? 0).
      * exists []. split; [|done]. simpl. by rewrite <- !(assoc_L (++)).
      * eexists [_]. split; [simpl; by rewrite <- !(assoc_L (++))|].
        constructor; [by eexists | done].
    + exists []. split; [|done]. simpl. by rewrite <- !(assoc_L (++)).
Qed.

(** X17.  A failing search is not an error of the installer, but a missing
    program is: when the process ends with a return code other than 0 the
    search logs [flatpak search failed (rc=<code>)] and returns the empty
    list; when the process cannot be started the exception of
    [subprocess.run] leaves [search_flatpak] as it is. *)
Theorem search_flatpak_failure (ex : CommandExecutor) (query : option string)
    (limit : Z) (w : World) (tr : trace) :
  let q := PyStr.strip (Flatpak.or_empty query) in
  let tr1 :=
    tr ++ [EvLog INFO ("$ " +:+ PyStr.join " " (map shlex_quote (Flatpak.search_argv q)))] in
  PyStr.all_chars PyStr.is_space (Flatpak.or_empty query) = false →
  match subprocess_run w tr1 (Flatpak.search_argv q) None None with
  | Raise e =>
      Flatpak.search_flatpak ex query limit w tr
      = (Raise e, tr1 ++ [EvSpawn (Flatpak.search_argv q) None None])
  | Ok cp =>
      returncode cp ≠ 0 →
      Flatpak.search_flatpak ex query limit w tr
      = (Ok [],
         tr1 ++ [EvSpawn (Flatpak.search_argv q) None None;
                 EvLog INFO ("flatpak search failed (rc="
                             +:+ PyStr.of_Z (returncode cp) +:+ ")")])
  end.
Proof.
  intros q tr1 Hq. rewrite (search_flatpak_run ex query limit w tr Hq). fold q tr1.
  destruct (subprocess_run _ _ _ _ _) as [cp|e]; [|done].
  intros Hrc. destruct (Z.eqb_spec (returncode cp) 0) as [|_]; [done|].
  by rewrite <- !(assoc_L (++)).
Qed.

Lemma search_flatpak_failure_witness :
  Flatpak.search_flatpak (mkCommandExecutor true) (Some " gimp ") 25
    (world_answering (mkCommandResult 1 EmptyString "error: no remotes")) []
  = (Ok [],
     [EvLog INFO "$ flatpak search --columns=application,name,description gimp";
      EvSpawn ["flatpak"; "search"; "--columns=application,name,description"; "gimp"]
              None None;
      EvLog INFO "flatpak search failed (rc=1)"]).
Proof.
  pose proof (search_flatpak_failure (mkCommandExecutor true) (Some " gimp ") 25
                (world_answering (mkCommandResult 1 EmptyString "error: no remotes")) []
                eq_refl) as H.
  simpl in H. apply H. discriminate.
Defined.

(** X18.  Whatever the process prints, a search that returns, returns at most
    [limit] applications (one when [limit] is below 1, since the loop tests
    the limit only after appending), and each of them has an application id
    that is not empty and contains neither a slash nor a space. *)
Theorem search_flatpak_well_formed (ex : CommandExecutor) (query : option string)
    (limit : Z) (w : World) (tr : trace) (apps : list Flatpak.FlatpakApp) :
  (Flatpak.search_flatpak ex query limit w tr).1 = Ok apps →
  (length apps ≤ search_cap limit)%nat ∧ Forall well_formed_app apps.
Proof.
  destruct (search_flatpak_result ex query w tr) as [[e H]|[lines H]];
    rewrite H; [done|].
  intros [= <-]. split.
  - rewrite length_take. lia.
  - apply Forall_take, all_rows_well_formed.
Qed.

Lemma search_flatpak_well_formed_witness :
  let apps := [Flatpak.mkFlatpakApp "org.gimp.GIMP" "GNU Image" "Create images"] in
  (length apps ≤ search_cap 1)%nat ∧ Forall well_formed_app apps.
Proof.
  apply (search_flatpak_well_formed (mkCommandExecutor false) (Some "gimp") 1
           (world_answering
              (mkCommandResult 0
                 ("org.gimp.GIMP   GNU Image   Create images" +:+ PyStr.nl
                  +:+ "org.inkscape.Inkscape   Inkscape   Vector graphics" +:+ PyStr.nl)
                 EmptyString)) []).
  by vm_compute.
Defined.

Lemma search_flatpak_trace ex query limit limit' w tr :
  (Flatpak.search_flatpak ex query limit w tr).2
  = (Flatpak.search_flatpak ex query limit' w tr).2.
Proof.
  destruct (PyStr.all_chars PyStr.is_space (Flatpak.or_empty query)) eqn:Hq.
  - by rewrite !search_flatpak_blank.
  - rewrite !(search_flatpak_run ex query _ w tr Hq).
    destruct (subprocess_run _ _ _ _ _) as [cp|e]; [|done].
    by destruct (returncode cp =? 0).
Qed.

(** X19.  The limit only truncates.  With a larger limit the search leaves
    the same events, fails in the same way, and returns a list of which the
    result for the smaller limit is the beginning. *)
Theorem search_flatpak_limit_truncates (ex : CommandExecutor) (query : option string)
    (limit limit' : Z) (w : World) (tr : trace) :
  limit ≤ limit' →
  (Flatpak.search_flatpak ex query limit w tr).2
  = (Flatpak.search_flatpak ex query limit' w tr).2
  ∧ match (Flatpak.search_flatpak ex query limit' w tr).1 with
    | Ok apps' =>
        (Flatpak.search_flatpak ex query limit w tr).1
        = Ok (take (search_cap limit) apps')
    | Raise e => (Flatpak.search_flatpak ex query limit w tr).1 = Raise e
    end.
Proof.
  intros Hle. split; [apply search_flatpak_trace|].
  destruct (search_flatpak_result ex query w tr) as [[e H]|[lines H]];
    rewrite !H; [done|].
  rewrite take_take. do 2 f_equal. unfold search_cap. lia.
Qed.

Lemma search_flatpak_limit_truncates_witness :
  let w := world_answering
             (mkCommandResult 0
                ("org.gimp.GIMP   GNU Image   Create images" +:+ PyStr.nl
                 +:+ "org.inkscape.Inkscape   Inkscape   Vector graphics" +:+ PyStr.nl)
                EmptyString) in
  (Flatpak.search_flatpak (mkCommandExecutor false) (Some "a") 1 w []).1
  = Ok [Flatpak.mkFlatpakApp "org.gimp.GIMP" "GNU Image" "Create images"].
Proof.
  intros w.
  destruct (search_flatpak_limit_truncates (mkCommandExecutor false) (Some "a") 1 25 w [])
    as [_ H]; [lia|].
  exact H.
Defined.

(** X20.  The search reads back what [flatpak search] prints.  When the
    process ends with return code 0 and prints one tab-separated row
    [id <tab> name <tab> description] for each application of a list, each
    column free of tabs, line breaks and white space at its ends, each id well
    formed, and no row with both words of the header, the search returns the
    first [limit] applications of that list (the first one when [limit] is
    below 1), in order, the description included. *)
Theorem search_flatpak_reads_tab_rows (ex : CommandExecutor) (query : option string)
    (limit : Z) (w : World) (tr : trace) (rows : list Flatpak.FlatpakApp)
    (err : string) :
  let q := PyStr.strip (Flatpak.or_empty query) in
  PyStr.all_chars PyStr.is_space (Flatpak.or_empty query) = false →
  Forall listable rows →
  (∀ tr', subprocess_run w tr' (Flatpak.search_argv q) None None
          = Ok (mkCommandResult 0 (tab_text rows) err)) →
  (Flatpak.search_flatpak ex query limit w tr).1 = Ok (take (search_cap limit) rows).
Proof.
  intros q Hq Hrows Hw. rewrite (search_flatpak_run ex query limit w tr Hq).
  fold q. rewrite Hw. simpl.
  by rewrite (splitlines_tab_text rows Hrows), (all_rows_tab_rows rows Hrows).
Qed.

Lemma search_flatpak_reads_tab_rows_witness :
  let gimp := Flatpak.mkFlatpakApp "org.gimp.GIMP" "GNU Image" "Create images" in
  let inkscape := Flatpak.mkFlatpakApp "org.inkscape.Inkscape" "Inkscape" EmptyString in
  let krita := Flatpak.mkFlatpakApp "org.kde.krita" "Krita" "Digital painting" in
  (Flatpak.search_flatpak (mkCommandExecutor true) (Some "paint") 2
     (world_answering (mkCommandResult 0 (tab_text [gimp; inkscape; krita]) EmptyString))
     []).1
  = Ok [gimp; inkscape].
Proof.
  intros gimp inkscape krita.
  apply (search_flatpak_reads_tab_rows (mkCommandExecutor true) (Some "paint") 2
           (world_answering
              (mkCommandResult 0 (tab_text [gimp; inkscape; krita]) EmptyString))
           [] [gimp; inkscape; krita] EmptyString).
  - reflexivity.
  - repeat constructor; done.
  - reflexivity.
Defined.

(** ** The rewriting of [locale.gen] *)







(** * The engine's flow: Flatpak commands and partition names *)

(** ** No Flatpak command without a native package *)

Lemma confined_raise_bind {A B} P (e : exn) (f : A → M B) :
  confined P (raise e ≫= f).
Proof. intros w tr. exists []. by rewrite app_nil_r. Qed.

Section NoFlatpak.

Variable self : InstallerEngine.

Hypothesis no_packages :
  Software.arch_packages_for_selection
    (Software.selection_from_config (install (_config self))) = [].

Abbreviation flatpak_free := (confined no_flatpak_event).

(** Settles a phase none of whose commands is a Flatpak command. *)
Ltac flatpak_free_phase :=
  repeat first
    [ apply confined_build_fstab_content; [intros; exact I | intros ?; exact I]
    | confined_go
    | confined_cmd ].

Lemma flatpak_free_validate_ready : flatpak_free (validate_ready self).
Proof. unfold validate_ready. flatpak_free_phase. Qed.

Lemma flatpak_free_partition_and_format disk :
  flatpak_free (partition_and_format self record_progress disk).
Proof. unfold partition_and_format. flatpak_free_phase. Qed.

Lemma flatpak_free_mount_target p : flatpak_free (mount_target self record_progress p).
Proof. unfold mount_target. flatpak_free_phase. Qed.

Lemma flatpak_free_copy_system : flatpak_free (copy_system self record_progress).
Proof. unfold copy_system. flatpak_free_phase. Qed.

Lemma flatpak_free_write_fstab p : flatpak_free (write_fstab self record_progress p).
Proof. unfold write_fstab, _write_fstab. flatpak_free_phase. Qed.

Lemma flatpak_free_prepare_chroot : flatpak_free (prepare_chroot self record_progress).
Proof. unfold prepare_chroot. flatpak_free_phase. Qed.

Lemma flatpak_free_configure_system :
  flatpak_free (configure_system self record_progress).
Proof. unfold configure_system. flatpak_free_phase. Qed.

Lemma flatpak_free_configure_locale :
  flatpak_free (configure_locale self record_progress).
Proof. unfold configure_locale. flatpak_free_phase. Qed.

Lemma flatpak_free_configure_network :
  flatpak_free (configure_network self record_progress).
Proof. unfold configure_network. flatpak_free_phase. Qed.

Lemma flatpak_free_create_user : flatpak_free (create_user self record_progress).
Proof. unfold create_user. flatpak_free_phase. Qed.

(** With no native package the software step stops at the read of
    [flatpaks], before any command. *)
Lemma flatpak_free_install_software :
  flatpak_free (install_software self record_progress).
Proof using no_packages.
  unfold install_software. cbv zeta. rewrite no_packages.
  apply confined_bind; [by apply confined_step | intros _].
  apply (confined_raise_bind no_flatpak_event (UnboundLocalError "flatpaks")).
Qed.

Lemma flatpak_free_install_bootloader is_efi disk :
  flatpak_free (install_bootloader self record_progress is_efi disk).
Proof. unfold install_bootloader. flatpak_free_phase. Qed.

Lemma flatpak_free_finalize p : flatpak_free (finalize self record_progress p).
Proof. unfold finalize. flatpak_free_phase. Qed.

Lemma flatpak_free_run_install : flatpak_free (run_install self record_progress).
Proof using no_packages.
  unfold run_install.
  apply confined_bind; [apply flatpak_free_validate_ready | intros _].
  apply confined_bind; [apply confined_ask | intros euid].
  destruct (_ && _); [apply confined_raise|].
  destruct (target_disk _) as [disk|]; [|apply confined_raise].
  unfold install_steps.
  apply confined_bind; [apply confined_ask | intros is_efi].
  apply confined_bind; [apply flatpak_free_partition_and_format | intros p].
  apply confined_bind; [apply flatpak_free_mount_target | intros _].
  apply confined_bind; [apply flatpak_free_copy_system | intros _].
  apply confined_bind; [apply flatpak_free_write_fstab | intros _].
  apply confined_bind; [apply flatpak_free_prepare_chroot | intros _].
  apply confined_bind; [apply flatpak_free_configure_system | intros _].
  apply confined_bind; [apply flatpak_free_configure_locale | intros _].
  apply confined_bind; [apply flatpak_free_configure_network | intros _].
  apply confined_bind; [apply flatpak_free_create_user | intros _].
  apply confined_bind; [apply flatpak_free_install_software | intros _].
  apply confined_bind; [apply flatpak_free_install_bootloader | intros _].
  apply flatpak_free_finalize.
Qed.

End NoFlatpak.

(** C2.  When the resolved native package list is empty, [run_install]
    never returns normally and never reports more than 88: the bootloader and
    finalize steps are not reached.  As soon as 88 is reported the run ends in
    the [UnboundLocalError] (a [NameError]) for [flatpaks], having reported
    exactly the plan up to 88; and in a cooperative world a valid
    configuration run as root or in dry-run mode does end that way, whatever
    Flatpak apps the configuration lists.  In particular no listed Flatpak app
    is installed: in any mode and any world, the run starts no [flatpak]
    command in the target at all, neither [remote-add] nor [install]. *)
Theorem run_install_without_packages (self : InstallerEngine) (w : World) :
  Software.arch_packages_for_selection
    (Software.selection_from_config (install (_config self))) = [] →
  let out := run_install self record_progress w [] in
  let unbound :=
    (∃ e, out.1 = Raise e ∧ is_NameError e = true ∧ e = UnboundLocalError "flatpaks")
    ∧ percentages out.2 = plan_to_software self in
  is_ok out.1 = false
  ∧ (∀ p, p ∈ percentages out.2 → p ≤ 88)
  ∧ (88 ∈ percentages out.2 → unbound)
  ∧ (cooperative w → (validate_ready self w []).1 = Ok tt →
     (os_geteuid w [] = 0 ∨ dry_run (_executor self) = true) → unbound)
  ∧ Forall no_flatpak_event out.2
  ∧ (∀ args, args ∈ spawned out.2 →
       ∀ rest, args ≠ "chroot" :: target :: "flatpak" :: rest).
Proof.
  intros Hno out unbound.
  destruct (without_packages_outcome self w Hno) as (H1 & H2 & H3 & H4).
  destruct (flatpak_free_run_install self Hno w []) as (d & E & Hd).
  fold out in E. simpl in E.
  split; [done|]. split; [done|]. split; [done|]. split; [done|].
  assert (Forall no_flatpak_event out.2) as Hfree by (by rewrite E).
  split; [done|].
  intros args Hin rest ->. unfold spawned in Hin.
  apply list_elem_of_omap in Hin as (e & He & Hspawn).
  rewrite Forall_forall in Hfree. specialize (Hfree e He).
  destruct e as [| |args' cwd input|]; try done.
  injection Hspawn as ->. exact Hfree.
Qed.

Lemma run_install_without_packages_witness :
  let out := run_install (real_engine erase_sda_with_vlc) record_progress
               grudging_world [] in
  out.1 = Raise (UnboundLocalError "flatpaks")
  ∧ percentages out.2 = [5; 15; 25; 45; 60; 75; 80; 82; 84; 85; 88]
  ∧ Forall no_flatpak_event out.2.
Proof.
  intros out.
  destruct (run_install_without_packages (real_engine erase_sda_with_vlc)
              grudging_world eq_refl) as (_ & _ & Hat & _ & Hfree & _).
  fold out in Hat, Hfree.
  assert (88 ∈ percentages out.2) as H88.
  { apply (bool_decide_unpack _). by vm_compute. }
  destruct (Hat H88) as [(e & -> & _ & ->) Hplan].
  split; [done|]. split; [|done].
  rewrite Hplan. by vm_compute.
Defined.

(** ** The partition names of the erase-disk flow *)

(** A command that returned: what it added to the processes started. *)
Lemma run_checked_spawned ex args w tr cp tr' :
  run_checked ex args w tr = (Ok cp, tr') →
  spawned tr' = spawned tr ++ (if dry_run ex then [] else [args]).
Proof.
  unfold run_checked. destruct (dry_run ex) eqn:Hdry.
  - unfold run. rewrite Hdry. simpl. intros [= _ <-].
    by rewrite spawned_app.
  - rewrite run_real by (by rewrite Hdry).
    destruct (subprocess_run _ _ _ _ _) as [cp'|e]; [|done].
    destruct (true && _); [done|]. intros [= _ <-].
    rewrite !spawned_app. simpl. by rewrite app_nil_r.
Qed.

Lemma step_spawned pct msg w tr :
  spawned (step record_progress pct msg w tr).2 = spawned tr.
Proof. rewrite step_run. simpl. rewrite !spawned_app. simpl. by rewrite !app_nil_r. Qed.

(** The erase-disk flow, when it returns: the partitions it hands to the
    later steps and the processes it has started. *)
Lemma erase_flow_run self disk w tr p :
  erase_disk (install (_config self)) = true →
  (partition_and_format self record_progress disk w tr).1 = Ok p →
  p = mkParts (derive_partition_name disk 2) (Some (derive_partition_name disk 1))
              None None
  ∧ spawned (partition_and_format self record_progress disk w tr).2
    = spawned tr ++ (if dry_run (_executor self) then [] else erase_commands disk).
Proof.
  intros Herase. unfold partition_and_format. rewrite Herase.
  rewrite predicted_partitions_derive.
  set (ex := _executor self).
  pose proof (step_spawned 5 "Partitioning disk" w tr) as S0.
  rewrite step_run in S0. simpl in S0.
  rewrite bind_run, step_run. cbv beta iota. rewrite bind_run.
  destruct (run_checked ex ["wipefs"; "-a"; disk] w _) as [[cp1|e] t1] eqn:E1;
    [|done].
  apply run_checked_spawned in E1. rewrite S0 in E1.
  cbv beta iota. rewrite bind_run.
  destruct (run_checked ex ["parted"; "-s"; disk; "mklabel"; "gpt"] w t1)
    as [[cp2|e] t2] eqn:E2; [|done].
  apply run_checked_spawned in E2. rewrite E1 in E2.
  cbv beta iota. rewrite bind_run.
  destruct (run_checked ex
              ["parted"; "-s"; disk; "mkpart"; "EFI"; "fat32"; "1MiB"; "513MiB"] w t2)
    as [[cp3|e] t3] eqn:E3; [|done].
  apply run_checked_spawned in E3. rewrite E2 in E3.
  cbv beta iota. rewrite bind_run.
  destruct (run_checked ex ["parted"; "-s"; disk; "set"; "1"; "esp"; "on"] w t3)
    as [[cp4|e] t4] eqn:E4; [|done].
  apply run_checked_spawned in E4. rewrite E3 in E4.
  cbv beta iota. rewrite bind_run.
  destruct (run_checked ex
              ["parted"; "-s"; disk; "mkpart"; "ROOT"; "ext4"; "513MiB"; "100%"] w t4)
    as [[cp5|e] t5] eqn:E5; [|done].
  apply run_checked_spawned in E5. rewrite E4 in E5.
  pose proof (step_spawned 15 "Formatting partitions" w t5) as S1.
  rewrite step_run in S1. simpl in S1.
  cbv beta iota. rewrite bind_run, step_run. cbv beta iota. rewrite bind_run.
  destruct (run_checked ex ["mkfs.vfat"; "-F"; "32"; derive_partition_name disk 1] w _)
    as [[cp6|e] t6] eqn:E6; [|done].
  apply run_checked_spawned in E6. rewrite S1, E5 in E6.
  cbv beta iota. rewrite bind_run.
  destruct (run_checked ex ["mkfs.ext4"; "-F"; derive_partition_name disk 2] w t6)
    as [[cp7|e] t7] eqn:E7; [|done].
  apply run_checked_spawned in E7. rewrite E6 in E7.
  simpl. intros [= <-]. split; [done|].
  rewrite E7. destruct (dry_run ex); simpl.
  - by rewrite !app_nil_r.
  - by rewrite <- !(assoc_L (++)).
Qed.

(** C7.  The partition [index] of [disk] is named [<disk>p<index>] when
    [disk] contains [nvme] or [mmcblk], and [<disk><index>] otherwise; so
    [/dev/sda] and 1 give [/dev/sda1], [/dev/nvme0n1] and 2 give
    [/dev/nvme0n1p2].  The erase-disk flow of the engine predicts its names by
    this rule: whenever the flow returns, the partitions it hands to the later
    steps are index 2 as root and index 1 as EFI partition, and outside
    dry-run mode the processes it has started are exactly [wipefs], the four
    [parted] calls, [mkfs.vfat] on index 1 and [mkfs.ext4] on index 2; and in
    a cooperative world the flow does return. *)
Theorem partition_naming_rule (disk : string) (index : Z) :
  ((is_substring "nvme" disk ∨ is_substring "mmcblk" disk) →
     derive_partition_name disk index = disk +:+ "p" +:+ PyStr.of_Z index)
  ∧ (¬ (is_substring "nvme" disk ∨ is_substring "mmcblk" disk) →
     derive_partition_name disk index = disk +:+ PyStr.of_Z index)
  ∧ derive_partition_name "/dev/sda" 1 = "/dev/sda1"
  ∧ derive_partition_name "/dev/nvme0n1" 2 = "/dev/nvme0n1p2"
  ∧ predicted_partitions disk
    = (derive_partition_name disk 1, derive_partition_name disk 2)
  ∧ (∀ self w tr,
       erase_disk (install (_config self)) = true →
       let out := partition_and_format self record_progress disk w tr in
       (cooperative w → is_ok out.1 = true)
       ∧ ∀ p, out.1 = Ok p →
           root_part p = derive_partition_name disk 2
           ∧ efi_part p = Some (derive_partition_name disk 1)
           ∧ spawned out.2
             = spawned tr
               ++ (if dry_run (_executor self) then [] else erase_commands disk)).
Proof.
  destruct (derive_partition_name_rule disk index) as (H1 & H2 & H3 & H4 & H5).
  split; [done|]. split; [done|]. split; [done|]. split; [done|]. split; [done|].
  intros self w tr Herase out. split.
  - intros Hcoop. apply (passes_partition_and_format w Hcoop self disk tr).
  - intros p Hp.
    destruct (erase_flow_run self disk w tr p Herase Hp) as [-> Hs].
    by split.
Qed.

Lemma partition_naming_rule_witness :
  derive_partition_name "/dev/mmcblk0" 3 = "/dev/mmcblk0p3"
  ∧ derive_partition_name "/dev/vda" 12 = "/dev/vda12"
  ∧ spawned (partition_and_format (real_engine erase_sda_install) record_progress
               "/dev/nvme0n1" (world_answering (mkCommandResult 0 EmptyString EmptyString))
               []).2
    = [["wipefs"; "-a"; "/dev/nvme0n1"];
       ["parted"; "-s"; "/dev/nvme0n1"; "mklabel"; "gpt"];
       ["parted"; "-s"; "/dev/nvme0n1"; "mkpart"; "EFI"; "fat32"; "1MiB"; "513MiB"];
       ["parted"; "-s"; "/dev/nvme0n1"; "set"; "1"; "esp"; "on"];
       ["parted"; "-s"; "/dev/nvme0n1"; "mkpart"; "ROOT"; "ext4"; "513MiB"; "100%"];
       ["mkfs.vfat"; "-F"; "32"; "/dev/nvme0n1p1"];
       ["mkfs.ext4"; "-F"; "/dev/nvme0n1p2"]].
Proof.
  split; [|split].
  - apply (partition_naming_rule "/dev/mmcblk0" 3). right.
    by exists "/dev/", "0".
  - apply (partition_naming_rule "/dev/vda" 12).
    rewrite <- !contains_spec. by intros [H|H].
  - destruct (partition_naming_rule "/dev/nvme0n1" 1) as (_ & _ & _ & _ & _ & Hflow).
    destruct (Hflow (real_engine erase_sda_install)
                (world_answering (mkCommandResult 0 EmptyString EmptyString)) []
                eq_refl) as [_ Hnames].
    destruct (Hnames _ eq_refl) as (_ & _ & Hs).
    exact Hs.
Defined.
